(** * Hackathon-Agent backend: a shallow embedding of the retrieval and
      fallback pipeline, and the properties of its specification.

    The development follows the layout of the Python sources:

    - [Py]       the few Python builtins the code relies on (truthiness,
                 [str.lower], [in] on strings, slicing, [list.sort]);
    - [Chat]     [app/api/v1/endpoints/chat.py] (intent classifier);
    - [Vertex]   [app/services/smart_vertex_service.py];
    - [Elastic]  [app/services/elastic_service.py];
    - [GitHub]   [app/services/github_service.py];
    - [Gather]   [_gather_context] of [chat.py];
    - [Search]   [app/api/v1/endpoints/search.py];
    - [Webhook]  [app/api/v1/endpoints/webhook.py].

    The external collaborators (the Vertex AI models, the Elasticsearch
    cluster, the GitHub API, [hash], [random], [hmac], [json]) are
    records of functions that the services take as a parameter.  A remote
    collaborator is a deterministic oracle: it sees the requests made so
    far and answers the current one with a value or with an exception;
    the services record every request they send.  The coroutines are
    awaited one after the other, so a call is a function from the state
    before it to its result and the state after it.

    Text is a [string], one character per [Ascii.ascii], and [lower]
    acts on the ASCII letters.  Floats are a type parameter with the
    operations the code uses ([<=] on scores, the [:.2f] format, the
    draws of [random]).  Dictionaries with a fixed set of keys are
    records; a key that may be missing is an [option]. *)

From stdpp Require Import base list strings gmap pretty sorting.
From Stdlib Require Import ZArith Lia.

Open Scope string_scope.
Open Scope list_scope.
Open Scope Z_scope.

(* ===================================================================== *)
(** * Python builtins *)
(* ===================================================================== *)

Module Py.

(** Exceptions: the HTTP layer's [HTTPException] is an [Exception] like
    any other, so that [except Exception] catches it. *)
Inductive exn :=
| HTTPException (status_code : Z) (detail : string)
| Error (msg : string).

(** The result of a call that may raise. *)
Inductive outcome (A : Type) :=
| Ok (a : A)
| Raise (e : exn).
Arguments Ok {A} a.
Arguments Raise {A} e.

(** Truthiness of [str], [list] and [Optional] values. *)
Definition truthy_str (s : string) : bool :=
  match s with EmptyString => false | _ => true end.

Definition truthy_list {A} (l : list A) : bool :=
  match l with [] => false | _ => true end.

Definition truthy_opt {A} (t : A -> bool) (o : option A) : bool :=
  match o with None => false | Some a => t a end.

(** [c.lower()] on one ASCII character; other characters are kept. *)
Definition lower_ascii (c : Ascii.ascii) : Ascii.ascii :=
  let n := Ascii.nat_of_ascii c in
  if ((65 <=? n) && (n <=? 90))%nat then Ascii.ascii_of_nat (n + 32) else c.

(** [s.lower()] *)
Fixpoint lower (s : string) : string :=
  match s with
  | EmptyString => EmptyString
  | String c s' => String (lower_ascii c) (lower s')
  end.

(** [s.startswith(p)] *)
Fixpoint startswith (p s : string) : bool :=
  match p, s with
  | EmptyString, _ => true
  | String _ _, EmptyString => false
  | String a p', String b s' => Ascii.eqb a b && startswith p' s'
  end.

(** [sub in s] on strings *)
Fixpoint str_in (sub s : string) : bool :=
  startswith sub s ||
  match s with
  | EmptyString => false
  | String _ s' => str_in sub s'
  end.

(** [s[:n]] for a literal [n >= 0] *)
Fixpoint str_take (n : nat) (s : string) : string :=
  match n, s with
  | O, _ => EmptyString
  | _, EmptyString => EmptyString
  | S n', String c s' => String c (str_take n' s')
  end.

(** [s[n:]] for [n >= 0] *)
Fixpoint str_drop (n : nat) (s : string) : string :=
  match n, s with
  | O, _ => s
  | _, EmptyString => EmptyString
  | S n', String _ s' => str_drop n' s'
  end.

(** [s.count(sub)] for a non-empty [sub]: occurrences that do not
    overlap, scanning from the left.  [fuel] bounds the scan by the
    length of [s]. *)
Fixpoint count_from (fuel : nat) (sub s : string) : nat :=
  match fuel with
  | O => O
  | S fuel' =>
      match s with
      | EmptyString => O
      | String _ s' =>
          if startswith sub s
          then S (count_from fuel' sub (str_drop (String.length sub) s))
          else count_from fuel' sub s'
      end
  end.

Definition str_count (sub s : string) : nat :=
  count_from (String.length s) sub s.

(** [any(p(x) for x in l)] *)
Definition any {A} (p : A -> bool) (l : list A) : bool := existsb p l.

(** [l[:n]] for an arbitrary integer [n]: a negative [n] counts from the
    end of the list. *)
Definition slice_to {A} (n : Z) (l : list A) : list A :=
  if 0 <=? n then take (Z.to_nat n) l
  else take (length l - Z.to_nat (- n))%nat l.

(** [s.split(sep)] for a separator of one character. *)
Fixpoint split (sep : Ascii.ascii) (s : string) : list string :=
  match s with
  | EmptyString => [EmptyString]
  | String c s' =>
      if Ascii.eqb c sep then EmptyString :: split sep s'
      else match split sep s' with
           | [] => [String c EmptyString]
           | part :: parts => String c part :: parts
           end
  end.

(** [s.replace(sub, "")] for a non-empty [sub]; [fuel] bounds the scan by
    the length of [s]. *)
Fixpoint remove_from (fuel : nat) (sub s : string) : string :=
  match fuel with
  | O => s
  | S fuel' =>
      match s with
      | EmptyString => EmptyString
      | String c s' =>
          if startswith sub s
          then remove_from fuel' sub (str_drop (String.length sub) s)
          else String c (remove_from fuel' sub s')
      end
  end.

Definition str_remove (sub s : string) : string :=
  remove_from (String.length s) sub s.

(** [sep.join(l)] *)
Fixpoint join (sep : string) (l : list string) : string :=
  match l with
  | [] => EmptyString
  | [x] => x
  | x :: l' => x +:+ sep +:+ join sep l'
  end.

(** [l[-1]] and [l[-2]] *)
Definition last_item {A} (l : list A) : option A := last l.
Definition before_last_item {A} (l : list A) : option A :=
  last (removelast l).

(** [l.sort(key=key, reverse=True)]: the stable sort, greatest key first;
    items with equal keys keep the order they had. [leb] is the order of
    the keys. *)
Section Sort.
Context {A K : Type} (leb : K -> K -> bool) (key : A -> K).

Fixpoint insert_reverse (x : A) (l : list A) : list A :=
  match l with
  | [] => [x]
  | y :: l' =>
      if leb (key y) (key x) then x :: y :: l'
      else y :: insert_reverse x l'
  end.

Fixpoint sort_reverse (l : list A) : list A :=
  match l with
  | [] => []
  | x :: l' => insert_reverse x (sort_reverse l')
  end.

(** [x] may stand before [y]: the key of [y] is not greater. *)
Definition before (x y : A) : Prop := leb (key y) (key x) = true.
End Sort.

(** The character [/]. *)
Definition slash : Ascii.ascii := Ascii.ascii_of_nat 47.

(** The newline character of the f-strings. *)
Definition nl : string := String (Ascii.ascii_of_nat 10) EmptyString.

(** What the property of a substring means: [sub] occurs in [s]. *)
Definition Occurs (sub s : string) : Prop :=
  exists pre suf, s = pre +:+ sub +:+ suf.

End Py.

Import Py.

(* ===================================================================== *)
(** * chat.py: the intent classifier *)
(* ===================================================================== *)

Module Chat.

Definition idea_keywords : list string :=
  ["idea"; "project"; "validate"; "original"; "similar"; "unique"; "concept"].

Definition progress_keywords : list string :=
  ["progress"; "status"; "commit"; "github"; "development"; "team";
   "accomplished"].

Definition documentation_keywords : list string :=
  ["how to"; "documentation"; "rules"; "guidelines"; "google cloud";
   "elastic"; "vertex"].

(** [_detect_context_type(message)] *)
Definition _detect_context_type (message : string) : string :=
  let message_lower := lower message in
  if any (fun keyword => str_in keyword message_lower) idea_keywords
  then "idea_validation"
  else if any (fun keyword => str_in keyword message_lower) progress_keywords
  then "progress"
  else if any (fun keyword => str_in keyword message_lower)
              documentation_keywords
  then "documentation"
  else "general".

(** A message mentions a category when, once lower-cased, one of the
    category's keywords occurs in it. *)
Definition Mentions (keywords : list string) (message : string) : Prop :=
  exists keyword, keyword ∈ keywords /\ Occurs keyword (lower message).

End Chat.

(* ===================================================================== *)
(** * smart_vertex_service.py: the generation facade *)
(* ===================================================================== *)

Module Vertex.

(** The canned answers of the [_fallback_*] methods.  Each constructor is
    one template; its arguments are the values the f-string interpolates. *)
Inductive fallback_reply :=
| IdeaValidationAnalysis (originality_score : Z) (idea_snippet : string)
    (num_similar : nat)
| HybridSearchGuide
| TechnicalDocumentation (question : string)
| DevelopmentProgressAnalysis
| PitchDeckStructure
| AssistantOverview (question : string).

Section Facade.

(** [float] are Python's floats, [rng] the state of the module [random],
    [dict] the [Dict[str, Any]] values handed through to the real
    service. *)
Context {float rng dict : Type}.

Definition history : Type := list (string * string).

(** A request sent to the real service
    ([app.services.vertex_service.VertexService]). *)
Inductive real_call :=
| RealHealthCheck
| RealGenerateEmbeddings (texts : list string)
| RealGenerateSingleEmbedding (text : string)
| RealGenerateResponse (prompt : string) (context : option string)
    (conversation_history : option history) (max_tokens : Z)
    (temperature : float)
| RealGenerateIdeaValidationResponse (idea_description : string)
    (similar_projects : list dict)
| RealGenerateProgressSummary (github_activity : list dict)
| RealBuildComprehensivePrompt (user_query context_type : string)
    (retrieved_context : option (list dict))
    (conversation_history : option history).

(** The real service: each method answers from the requests served
    before it. *)
Record RealService := {
  real_health_check : list real_call -> outcome bool;
  real_generate_embeddings :
    list real_call -> list string -> outcome (list (list float));
  real_generate_single_embedding :
    list real_call -> string -> outcome (list float);
  real_generate_response :
    list real_call -> string -> option string -> option history ->
    Z -> float -> outcome string;
  real_generate_idea_validation_response :
    list real_call -> string -> list dict -> outcome string;
  real_generate_progress_summary :
    list real_call -> list dict -> outcome string;
  real_build_comprehensive_prompt :
    list real_call -> string -> string -> option (list dict) ->
    option history -> outcome string
}.

(** What the module takes from the interpreter: the builtin [hash] on
    strings (salted per hashing scheme), the module [random], and the
    text of the templates. *)
Record Env := {
  real : RealService;
  hash : string -> Z;
  random_seed : Z -> rng;
  random_uniform : rng -> float * rng;
  random_randint : Z -> Z -> rng -> Z * rng;
  render : fallback_reply -> string
}.

(** The facade object, the requests the real service has received, and
    the state of [random]. *)
Record state := {
  use_real_vertex : bool;
  real_service : bool;
  fallback_active : bool;
  calls : list real_call;
  rnd : rng
}.

Definition embedding_dim : nat := 768.

Definition set_fallback_active (b : bool) (s : state) : state :=
  {| use_real_vertex := use_real_vertex s; real_service := real_service s;
     fallback_active := b; calls := calls s; rnd := rnd s |}.

Definition set_rnd (g : rng) (s : state) : state :=
  {| use_real_vertex := use_real_vertex s; real_service := real_service s;
     fallback_active := fallback_active s; calls := calls s; rnd := g |}.

Definition sent (c : real_call) (s : state) : state :=
  {| use_real_vertex := use_real_vertex s; real_service := real_service s;
     fallback_active := fallback_active s; calls := calls s ++ [c];
     rnd := rnd s |}.

(** [VertexService()]: [available] says whether the real service could
    be constructed. *)
Definition init (available : bool) (served : list real_call) (g : rng)
  : state :=
  {| use_real_vertex := available; real_service := available;
     fallback_active := false; calls := served; rnd := g |}.

Variable env : Env.

(** [health_check] *)
Definition health_check (s : state) : bool * state :=
  if real_service s then
    let s1 := sent RealHealthCheck s in
    match real_health_check (real env) (calls s) with
    | Ok true => (true, set_fallback_active false s1)
    | Ok false => (true, set_fallback_active true s1)
    | Raise _ => (true, set_fallback_active true s1)
    end
  else (true, set_fallback_active true s).

(** [[random.uniform(-1, 1) for _ in range(n)]] *)
Fixpoint uniforms (n : nat) (g : rng) : list float * rng :=
  match n with
  | O => ([], g)
  | S n' =>
      let '(x, g1) := random_uniform env g in
      let '(xs, g2) := uniforms n' g1 in
      (x :: xs, g2)
  end.

(** The body of the fallback loop for one text. *)
Definition fallback_embedding (text : string) : list float * rng :=
  let seed := hash env text `mod` 10000 in
  uniforms embedding_dim (random_seed env seed).

(** The fallback loop of [generate_embeddings]. *)
Fixpoint fallback_embeddings (texts : list string) (g : rng)
  : list (list float) * rng :=
  match texts with
  | [] => ([], g)
  | text :: texts' =>
      let '(embedding, g1) := fallback_embedding text in
      let '(embeddings, g2) := fallback_embeddings texts' g1 in
      (embedding :: embeddings, g2)
  end.

Definition use_fallback_embeddings (texts : list string) (s : state)
  : list (list float) * state :=
  let '(embeddings, g) := fallback_embeddings texts (rnd s) in
  (embeddings, set_rnd g s).

(** [generate_embeddings] *)
Definition generate_embeddings (texts : list string) (s : state)
  : list (list float) * state :=
  if real_service s && negb (fallback_active s) then
    let s1 := sent (RealGenerateEmbeddings texts) s in
    match real_generate_embeddings (real env) (calls s) texts with
    | Ok embeddings =>
        if truthy_list embeddings && (0 <? length embeddings)%nat
        then (embeddings, s1)
        else use_fallback_embeddings texts s1
    | Raise _ =>
        use_fallback_embeddings texts (set_fallback_active true s1)
    end
  else use_fallback_embeddings texts s.

(** [embeddings[0]] *)
Definition first_item {A} (l : list A) : outcome A :=
  match l with
  | [] => Raise (Error "IndexError")
  | x :: _ => Ok x
  end.

Definition single_via_embeddings (text : string) (s : state)
  : outcome (list float) * state :=
  let '(embeddings, s') := generate_embeddings [text] s in
  (first_item embeddings, s').

(** [generate_single_embedding] *)
Definition generate_single_embedding (text : string) (s : state)
  : outcome (list float) * state :=
  if real_service s && negb (fallback_active s) then
    let s1 := sent (RealGenerateSingleEmbedding text) s in
    match real_generate_single_embedding (real env) (calls s) text with
    | Ok embedding =>
        if truthy_list embedding && (0 <? length embedding)%nat
        then (Ok embedding, s1)
        else single_via_embeddings text s1
    | Raise _ =>
        single_via_embeddings text (set_fallback_active true s1)
    end
  else single_via_embeddings text s.

(** [_fallback_idea_validation] *)
Definition _fallback_idea_validation (prompt : string)
    (context : option string) (g : rng) : string * rng :=
  let idea_snippet :=
    if (100 <? String.length prompt)%nat then str_take 100 prompt
    else prompt in
  let num_similar :=
    match context with
    | Some c =>
        if truthy_str c && str_in "similar" (lower c)
        then (if str_in "title" c then str_count "title" c else 3%nat)
        else 0%nat
    | None => 0%nat
    end in
  let '(originality_score, g') := random_randint env 65 90 g in
  (render env (IdeaValidationAnalysis originality_score idea_snippet
                 num_similar), g').

(** [_fallback_documentation] *)
Definition _fallback_documentation (prompt : string)
    (context : option string) : string :=
  if str_in "elastic" (lower prompt) || str_in "search" (lower prompt)
  then render env HybridSearchGuide
  else render env (TechnicalDocumentation (str_take 100 prompt)).

(** [_fallback_progress] *)
Definition _fallback_progress (prompt : string) (context : option string)
  : string :=
  render env DevelopmentProgressAnalysis.

(** [_fallback_presentation] *)
Definition _fallback_presentation (prompt : string)
    (context : option string) : string :=
  render env PitchDeckStructure.

(** [_fallback_general] *)
Definition _fallback_general (prompt : string) (context : option string)
  : string :=
  render env (AssistantOverview (str_take 150 prompt)).

(** [_generate_fallback_response] *)
Definition _generate_fallback_response (prompt : string)
    (context : option string) (g : rng) : string * rng :=
  let prompt_lower := lower prompt in
  if any (fun word => str_in word prompt_lower)
       ["idea"; "validate"; "project"; "build"; "original"]
  then _fallback_idea_validation prompt context g
  else if any (fun word => str_in word prompt_lower)
       ["how"; "what"; "elastic"; "search"; "implement"; "vertex"]
  then (_fallback_documentation prompt context, g)
  else if any (fun word => str_in word prompt_lower)
       ["progress"; "commit"; "github"; "repository"]
  then (_fallback_progress prompt context, g)
  else if any (fun word => str_in word prompt_lower)
       ["pitch"; "presentation"; "demo"; "slide"]
  then (_fallback_presentation prompt context, g)
  else (_fallback_general prompt context, g).

Definition use_fallback_response (prompt : string)
    (context : option string) (s : state) : string * state :=
  let '(text, g) := _generate_fallback_response prompt context (rnd s) in
  (text, set_rnd g s).

(** [generate_response] *)
Definition generate_response (prompt : string) (context : option string)
    (conversation_history : option history) (max_tokens : Z)
    (temperature : float) (s : state) : string * state :=
  if real_service s && negb (fallback_active s) then
    let s1 :=
      sent (RealGenerateResponse prompt context conversation_history
              max_tokens temperature) s in
    match real_generate_response (real env) (calls s) prompt context
            conversation_history max_tokens temperature with
    | Ok response =>
        if truthy_str response && (10 <? String.length response)%nat
        then (response, s1)
        else use_fallback_response prompt context s1
    | Raise _ =>
        use_fallback_response prompt context (set_fallback_active true s1)
    end
  else use_fallback_response prompt context s.

Definition use_fallback_idea_validation (idea_description : string)
    (similar_projects : list dict) (s : state) : string * state :=
  let context :=
    "Found " +:+ pretty (length similar_projects) +:+ " similar projects" in
  let '(text, g) :=
    _fallback_idea_validation idea_description (Some context) (rnd s) in
  (text, set_rnd g s).

(** [generate_idea_validation_response] *)
Definition generate_idea_validation_response (idea_description : string)
    (similar_projects : list dict) (s : state) : string * state :=
  if real_service s && negb (fallback_active s) then
    let s1 :=
      sent (RealGenerateIdeaValidationResponse idea_description
              similar_projects) s in
    match real_generate_idea_validation_response (real env) (calls s)
            idea_description similar_projects with
    | Ok response => (response, s1)
    | Raise _ =>
        use_fallback_idea_validation idea_description similar_projects
          (set_fallback_active true s1)
    end
  else use_fallback_idea_validation idea_description similar_projects s.

Definition use_fallback_progress (github_activity : list dict) (s : state)
  : string * state :=
  let context := pretty (length github_activity) +:+ " activities" in
  (_fallback_progress "Generate progress summary" (Some context), s).

(** [generate_progress_summary] *)
Definition generate_progress_summary (github_activity : list dict)
    (s : state) : string * state :=
  if real_service s && negb (fallback_active s) then
    let s1 := sent (RealGenerateProgressSummary github_activity) s in
    match real_generate_progress_summary (real env) (calls s)
            github_activity with
    | Ok response => (response, s1)
    | Raise _ =>
        use_fallback_progress github_activity (set_fallback_active true s1)
    end
  else use_fallback_progress github_activity s.

(** [build_comprehensive_prompt] *)
Definition build_comprehensive_prompt (user_query context_type : string)
    (retrieved_context : option (list dict))
    (conversation_history : option history) (s : state) : string * state :=
  if real_service s && negb (fallback_active s) then
    let s1 :=
      sent (RealBuildComprehensivePrompt user_query context_type
              retrieved_context conversation_history) s in
    match real_build_comprehensive_prompt (real env) (calls s) user_query
            context_type retrieved_context conversation_history with
    | Ok built => (built, s1)
    | Raise _ => (user_query, s1)
    end
  else (user_query, s).

(** ** Sequences of calls on one facade *)

(** The generation calls a client of the facade can make. *)
Inductive generation :=
| GenerateEmbeddings (texts : list string)
| GenerateSingleEmbedding (text : string)
| GenerateResponse (prompt : string) (context : option string)
    (conversation_history : option history) (max_tokens : Z)
    (temperature : float)
| GenerateIdeaValidationResponse (idea_description : string)
    (similar_projects : list dict)
| GenerateProgressSummary (github_activity : list dict)
| BuildComprehensivePrompt (user_query context_type : string)
    (retrieved_context : option (list dict))
    (conversation_history : option history).

Inductive request :=
| HealthCheck
| Generation (g : generation).

(** What a call returns. *)
Inductive answer :=
| Healthy (b : bool)
| Embeddings (e : list (list float))
| Embedding (e : outcome (list float))
| Text (t : string).

Definition generate (g : generation) (s : state) : answer * state :=
  match g with
  | GenerateEmbeddings texts =>
      let '(e, s') := generate_embeddings texts s in (Embeddings e, s')
  | GenerateSingleEmbedding text =>
      let '(e, s') := generate_single_embedding text s in (Embedding e, s')
  | GenerateResponse prompt context conversation_history max_tokens
      temperature =>
      let '(t, s') :=
        generate_response prompt context conversation_history max_tokens
          temperature s in
      (Text t, s')
  | GenerateIdeaValidationResponse idea_description similar_projects =>
      let '(t, s') :=
        generate_idea_validation_response idea_description
          similar_projects s in
      (Text t, s')
  | GenerateProgressSummary github_activity =>
      let '(t, s') := generate_progress_summary github_activity s in
      (Text t, s')
  | BuildComprehensivePrompt user_query context_type retrieved_context
      conversation_history =>
      let '(t, s') :=
        build_comprehensive_prompt user_query context_type
          retrieved_context conversation_history s in
      (Text t, s')
  end.

Definition serve (r : request) (s : state) : answer * state :=
  match r with
  | HealthCheck => let '(b, s') := health_check s in (Healthy b, s')
  | Generation g => generate g s
  end.

Fixpoint serve_all (rs : list request) (s : state) : list answer * state :=
  match rs with
  | [] => ([], s)
  | r :: rs' =>
      let '(a, s1) := serve r s in
      let '(answers, s2) := serve_all rs' s1 in
      (a :: answers, s2)
  end.

(** The fallback backend on its own: what a generation call returns when
    only the deterministic substitute answers it, from the state [g] of
    [random]. *)
Definition fallback_backend (g0 : generation) (g : rng) : answer * rng :=
  match g0 with
  | GenerateEmbeddings texts =>
      let '(e, g') := fallback_embeddings texts g in (Embeddings e, g')
  | GenerateSingleEmbedding text =>
      let '(e, g') := fallback_embeddings [text] g in
      (Embedding (first_item e), g')
  | GenerateResponse prompt context _ _ _ =>
      let '(t, g') := _generate_fallback_response prompt context g in
      (Text t, g')
  | GenerateIdeaValidationResponse idea_description similar_projects =>
      let context :=
        "Found " +:+ pretty (length similar_projects)
        +:+ " similar projects" in
      let '(t, g') :=
        _fallback_idea_validation idea_description (Some context) g in
      (Text t, g')
  | GenerateProgressSummary github_activity =>
      (Text (render env DevelopmentProgressAnalysis), g)
  | BuildComprehensivePrompt user_query _ _ _ => (Text user_query, g)
  end.

Fixpoint fallback_backend_all (gs : list generation) (g : rng)
  : list answer * rng :=
  match gs with
  | [] => ([], g)
  | g0 :: gs' =>
      let '(a, g1) := fallback_backend g0 g in
      let '(answers, g2) := fallback_backend_all gs' g1 in
      (a :: answers, g2)
  end.

End Facade.

Arguments real_call : clear implicits.
Arguments RealService : clear implicits.
Arguments Env : clear implicits.
Arguments state : clear implicits.
Arguments generation : clear implicits.
Arguments request : clear implicits.
Arguments answer : clear implicits.

End Vertex.

(* ===================================================================== *)
(** * core/config.py *)
(* ===================================================================== *)

Module Settings.
Definition DEVPOST_INDEX : string := "devpost_projects".
Definition DOCUMENTATION_INDEX : string := "hackathon_docs".
Definition GITHUB_INDEX : string := "github_activity".
End Settings.

(* ===================================================================== *)
(** * elastic_service.py *)
(* ===================================================================== *)

Module Elastic.

(** The [_source] of a hit: every field may be missing. *)
Module Stored.
Record t := {
  title : option string;
  description : option string;
  url : option string;
  technologies : option (list string);
  category : option string;
  year : option string;
  content : option string;
  section : option string;
  source : option string
}.
End Stored.

(** The dictionaries [search_devpost_projects] returns. *)
Module Project.
Record t (float : Type) := {
  title : string;
  description : string;
  url : string;
  technologies : list string;
  category : string;
  year : string;
  score : float
}.
Arguments title {float}.
Arguments description {float}.
Arguments url {float}.
Arguments technologies {float}.
Arguments category {float}.
Arguments year {float}.
Arguments score {float}.
End Project.

(** The dictionaries [search_documentation] returns. *)
Module Doc.
Record t (float : Type) := {
  title : string;
  content : string;
  url : string;
  section : string;
  source : string;
  score : float
}.
Arguments title {float}.
Arguments content {float}.
Arguments url {float}.
Arguments section {float}.
Arguments source {float}.
Arguments score {float}.
End Doc.

Section Service.

(** [float]: Python's floats (scores, vector components); [document]:
    the dictionaries written with [index_document]. *)
Context {float document : Type}.

Record hit := { _source : Stored.t; _score : float }.

(** The part of a search response the service reads:
    [response["hits"]["hits"]], [response["hits"]["total"]["value"]]
    (the key [total] may be missing) and [response["hits"]["max_score"]]
    (which may be null). *)
Record response := {
  hits_hits : list hit;
  hits_total_value : option Z;
  hits_max_score : option float
}.

(** The search bodies [hybrid_search] builds.  Every body carries its
    [_source.excludes] list. *)
Inductive search_body :=
| HybridQuery (size : Z) (query : string) (fields : list string)
    (boost : Z) (vector_field : string) (query_vector : list float)
    (k num_candidates : Z) (knn_boost : Z) (excludes : list string)
| KnnQuery (size : Z) (vector_field : string) (query_vector : list float)
    (k num_candidates : Z) (excludes : list string)
| MultiMatchQuery (size : Z) (query : string) (fields : list string)
    (excludes : list string)
| MatchAllQuery (size : Z) (excludes : list string).

(** A request sent to the cluster. *)
Inductive es_call :=
| Search (index : string) (body : search_body)
| Index (index id : string) (body : document).

(** [AsyncElasticsearch]: answers from the requests served before. *)
Record Client := {
  client_search : list es_call -> string -> search_body -> outcome response;
  client_index :
    list es_call -> string -> string -> document -> outcome unit;
  zero : float
}.

Variable client : Client.

(** The dictionary [hybrid_search] returns. *)
Record search_result := {
  hits : list hit;
  total : Z;
  max_score : option float
}.

Definition empty_result : search_result :=
  {| hits := []; total := 0; max_score := Some (zero client) |}.

Definition default_text_fields : list string :=
  ["title"; "description"; "content"].

(** The body built in the [try] block. *)
Definition search_body_for (query : string) (vector_field : string)
    (text_fields : list string) (size : Z)
    (vector_query : option (list float)) : search_body :=
  match vector_query with
  | Some v =>
      if truthy_list v then
        if truthy_str query
        then HybridQuery size query text_fields 1 vector_field v size
               (size * 10) 1 [vector_field]
        else KnnQuery size vector_field v size (size * 10) [vector_field]
      else if truthy_str query
      then MultiMatchQuery size query text_fields [vector_field]
      else MatchAllQuery size [vector_field]
  | None =>
      if truthy_str query
      then MultiMatchQuery size query text_fields [vector_field]
      else MatchAllQuery size [vector_field]
  end.

(** The body built in the [except] block. *)
Definition fallback_body (query : string) (vector_field : string)
    (text_fields : list string) (size : Z) : search_body :=
  MultiMatchQuery size query text_fields [vector_field].

(** The [return] of the [try] block. *)
Definition shape_primary (r : response) : outcome search_result :=
  Ok {| hits := hits_hits r;
        total := match hits_total_value r with
                 | Some v => v
                 | None => Z.of_nat (length (hits_hits r))
                 end;
        max_score := hits_max_score r |}.

(** The [return] of the [except] block: [total] is read without the
    test for its presence, a missing key raises. *)
Definition shape_fallback (r : response) : outcome search_result :=
  match hits_total_value r with
  | Some v =>
      Ok {| hits := hits_hits r; total := v;
            max_score := hits_max_score r |}
  | None => Raise (Error "KeyError: 'total'")
  end.

(** One [await self.client.search(...)] followed by the shaping of its
    response: the request is recorded, an exception of either step is
    the attempt's exception. *)
Definition attempt (shape : response -> outcome search_result)
    (index : string) (body : search_body) (served : list es_call)
  : outcome search_result * list es_call :=
  (match client_search client served index body with
   | Ok r => shape r
   | Raise e => Raise e
   end, served ++ [Search index body]).

(** [hybrid_search] *)
Definition hybrid_search (query : string) (index : string)
    (vector_field : string) (text_fields : option (list string))
    (size : Z) (vector_query : option (list float))
    (served : list es_call) : search_result * list es_call :=
  let text_fields := default default_text_fields text_fields in
  match attempt shape_primary index
          (search_body_for query vector_field text_fields size
             vector_query) served with
  | (Ok result, served1) => (result, served1)
  | (Raise _, served1) =>
      match attempt shape_fallback index
              (fallback_body query vector_field text_fields size)
              served1 with
      | (Ok result, served2) => (result, served2)
      | (Raise _, served2) => (empty_result, served2)
      end
  end.

(** The cluster refuses both requests of [hybrid_search]: the step fails
    with a backend error. *)
Definition refused (query : string) (index : string)
    (vector_field : string) (text_fields : option (list string))
    (size : Z) (vector_query : option (list float))
    (served : list es_call) : Prop :=
  let fields := default default_text_fields text_fields in
  let primary :=
    search_body_for query vector_field fields size vector_query in
  (exists e, client_search client served index primary = Raise e)
  /\ (exists e,
        client_search client (served ++ [Search index primary]) index
          (fallback_body query vector_field fields size) = Raise e).

(** [index_document] *)
Definition index_document (index doc_id : string) (body : document)
    (served : list es_call) : bool * list es_call :=
  (match client_index client served index doc_id body with
   | Ok _ => true
   | Raise _ => false
   end, served ++ [Index index doc_id body]).

Definition project_of_hit (h : hit) : Project.t float :=
  let source := _source h in
  {| Project.title := default "" (Stored.title source);
     Project.description := default "" (Stored.description source);
     Project.url := default "" (Stored.url source);
     Project.technologies := default [] (Stored.technologies source);
     Project.category := default "" (Stored.category source);
     Project.year := default "" (Stored.year source);
     Project.score := _score h |}.

(** [search_devpost_projects] *)
Definition search_devpost_projects (query : string)
    (vector_query : option (list float)) (size : Z)
    (served : list es_call) : list (Project.t float) * list es_call :=
  let '(results, served') :=
    hybrid_search query Settings.DEVPOST_INDEX "embedding"
      (Some ["title"; "description"; "technologies"; "category"])
      size vector_query served in
  (map project_of_hit (hits results), served').

Definition doc_of_hit (h : hit) : Doc.t float :=
  let source := _source h in
  {| Doc.title := default "" (Stored.title source);
     Doc.content := default "" (Stored.content source);
     Doc.url := default "" (Stored.url source);
     Doc.section := default "" (Stored.section source);
     Doc.source := default "" (Stored.source source);
     Doc.score := _score h |}.

(** [search_documentation] *)
Definition search_documentation (query : string)
    (vector_query : option (list float)) (size : Z)
    (served : list es_call) : list (Doc.t float) * list es_call :=
  let '(results, served') :=
    hybrid_search query Settings.DOCUMENTATION_INDEX "embedding"
      (Some ["title"; "content"; "section"; "tags"])
      size vector_query served in
  (map doc_of_hit (hits results), served').

(** ** The documents of the cluster

    What the cluster holds is not part of the service.  The index API
    it offers writes a document under its id and replaces the document
    that was stored under that id; a request the cluster refuses writes
    nothing.  [replay] folds that over the requests [todo] that follow
    the requests [before]. *)
Fixpoint replay (before todo : list es_call)
    (store : gmap (string * string) document)
  : gmap (string * string) document :=
  match todo with
  | [] => store
  | c :: todo' =>
      replay (before ++ [c]) todo'
        match c with
        | Index index id body =>
            match client_index client before index id body with
            | Ok _ => <[(index, id) := body]> store
            | Raise _ => store
            end
        | Search _ _ => store
        end
  end.

(** The documents written by the requests [served]. *)
Definition contents (served : list es_call)
  : gmap (string * string) document :=
  replay [] served ∅.

(** The cluster accepts every write. *)
Definition accepts : Prop :=
  forall served index id body,
    exists u, client_index client served index id body = Ok u.

(** What one accepted request does to the documents, and a sequence of
    them. *)
Definition write (store : gmap (string * string) document) (c : es_call)
  : gmap (string * string) document :=
  match c with
  | Index index id body => <[(index, id) := body]> store
  | Search _ _ => store
  end.

Definition writes (todo : list es_call)
    (store : gmap (string * string) document)
  : gmap (string * string) document :=
  fold_left write todo store.

(** The document the requests [todo] leave under the key [k], if one of
    them writes there. *)
Fixpoint last_write (k : string * string) (todo : list es_call)
  : option document :=
  match todo with
  | [] => None
  | c :: todo' =>
      match last_write k todo' with
      | Some body => Some body
      | None =>
          match c with
          | Index index id body =>
              if decide ((index, id) = k) then Some body else None
          | Search _ _ => None
          end
      end
  end.

End Service.

Arguments hit : clear implicits.
Arguments response : clear implicits.
Arguments search_body : clear implicits.
Arguments es_call : clear implicits.
Arguments Client : clear implicits.
Arguments search_result : clear implicits.

End Elastic.

(* ===================================================================== *)
(** * github_service.py: the activity feed *)
(* ===================================================================== *)

Module GitHub.

(** What a commit and an issue add to the common fields. *)
Inductive details :=
| CommitDetails (sha : string) (files : list string)
| IssueDetails (state : string) (labels : list string).

(** An item of [get_repository_activity]. *)
Record activity := {
  type : string;
  message : string;
  author : string;
  timestamp : string;
  url : string;
  more : details
}.

(** A request to the GitHub API: the commits and issues of a repository
    over the last [days] days. *)
Inductive gh_call :=
| RepoActivity (full_name : string) (days : Z).

(** [Github(settings.GITHUB_TOKEN)] when a token is configured.  The
    answer lists the commits, then the issues, each already turned into
    an [activity]; any step of that may raise. *)
Record Api := {
  github : bool;
  repo_activity : list gh_call -> string -> Z -> outcome (list activity)
}.

(** [_parse_repo_url] *)
Definition _parse_repo_url (repo_url : string)
  : option string * option string :=
  if str_in "github.com" repo_url then
    let parts := split slash repo_url in
    if (2 <=? length parts)%nat then
      match before_last_item parts, last_item parts with
      | Some owner, Some name => (Some owner, Some (str_remove ".git" name))
      | _, _ => (None, None)
      end
    else (None, None)
  else (None, None).

Section Service.
Variable api : Api.

(** [get_repository_activity] *)
Definition get_repository_activity (repo_url : string) (days : Z)
    (served : list gh_call) : list activity * list gh_call :=
  match _parse_repo_url repo_url with
  | (Some owner, Some repo_name) =>
      if negb (truthy_str owner) || negb (truthy_str repo_name)
      then ([], served)
      else if github api then
        let full_name := owner +:+ "/" +:+ repo_name in
        (match repo_activity api served full_name days with
         | Ok found =>
             take 20 (sort_reverse String.leb timestamp found)
         | Raise _ => []
         end, served ++ [RepoActivity full_name days])
      else ([], served)
  | _ => ([], served)
  end.
End Service.

End GitHub.

(* ===================================================================== *)
(** * chat.py: the context aggregator *)
(* ===================================================================== *)

Module Gather.

Section Aggregator.

Context {float document : Type}.

(** The [:.2f] format of a score. *)
Variable format_score : float -> string.

(** A provenance record of [context_data["sources"]]; the constructor
    is the record's [type] key. *)
Inductive source_record :=
| documentation (title content url source : string)
    (relevance_score : float)
| devpost_project (title description url : string)
    (technologies : list string) (year : string)
    (relevance_score : float).

Record context_data := {
  formatted_context : string;
  sources : list source_record;
  context_type : string
}.

(** The requests served so far by the cluster and by the GitHub API. *)
Record world := {
  es : list (Elastic.es_call float document);
  gh : list GitHub.gh_call
}.

(** The two collaborators [_gather_context] receives, as it sees them:
    methods that return or raise. *)
Record Services := {
  search_documentation :
    string -> option (list float) -> Z -> world ->
    outcome (list (Elastic.Doc.t float)) * world;
  search_devpost_projects :
    string -> option (list float) -> Z -> world ->
    outcome (list (Elastic.Project.t float)) * world;
  get_repository_activity :
    string -> Z -> world -> outcome (list GitHub.activity) * world
}.

(** The lines of the documentation block, numbered from [i]. *)
Fixpoint documentation_lines (i : nat) (docs : list (Elastic.Doc.t float))
  : string :=
  match docs with
  | [] => ""
  | doc :: docs' =>
      pretty i +:+ ". **" +:+ Elastic.Doc.title doc +:+ "** (Source: "
      +:+ Elastic.Doc.source doc +:+ ")" +:+ nl
      +:+ "   " +:+ str_take 400 (Elastic.Doc.content doc) +:+ "..." +:+ nl
      +:+ "   ðŸ”— " +:+ Elastic.Doc.url doc +:+ nl +:+ nl
      +:+ documentation_lines (S i) docs'
  end.

(** What the documentation step adds to [formatted_context]. *)
Definition documentation_context (docs : list (Elastic.Doc.t float))
  : string :=
  if truthy_list docs
  then "ðŸ“š **Relevant Documentation:**" +:+ nl
       +:+ documentation_lines 1 docs
  else "".

Definition documentation_source (doc : Elastic.Doc.t float)
  : source_record :=
  documentation (Elastic.Doc.title doc)
    (str_take 300 (Elastic.Doc.content doc) +:+ "...")
    (Elastic.Doc.url doc) (Elastic.Doc.source doc) (Elastic.Doc.score doc).

(** The lines of the project block, numbered from [i]. *)
Fixpoint project_lines (i : nat) (projects : list (Elastic.Project.t float))
  : string :=
  match projects with
  | [] => ""
  | project :: projects' =>
      pretty i +:+ ". **" +:+ Elastic.Project.title project +:+ "** ("
      +:+ Elastic.Project.year project +:+ ")" +:+ nl
      +:+ "   ðŸ“ " +:+ str_take 300 (Elastic.Project.description project)
      +:+ "..." +:+ nl
      +:+ "   ðŸ› ï¸ Tech: "
      +:+ join ", " (Elastic.Project.technologies project) +:+ nl
      +:+ "   ðŸ”— " +:+ Elastic.Project.url project +:+ nl
      +:+ "   ðŸ“Š Relevance: "
      +:+ format_score (Elastic.Project.score project) +:+ nl +:+ nl
      +:+ project_lines (S i) projects'
  end.

(** What the project step adds to [formatted_context]. *)
Definition project_context (projects : list (Elastic.Project.t float))
  : string :=
  if truthy_list projects
  then nl +:+ "ðŸš€ **Similar Hackathon Projects:**" +:+ nl
       +:+ project_lines 1 projects
  else "".

Definition project_source (project : Elastic.Project.t float)
  : source_record :=
  devpost_project (Elastic.Project.title project)
    (str_take 200 (Elastic.Project.description project) +:+ "...")
    (Elastic.Project.url project) (Elastic.Project.technologies project)
    (Elastic.Project.year project) (Elastic.Project.score project).

Fixpoint activity_lines (items : list GitHub.activity) : string :=
  match items with
  | [] => ""
  | item :: items' =>
      "- " +:+ GitHub.type item +:+ ": "
      +:+ str_take 100 (GitHub.message item) +:+ "..." +:+ nl
      +:+ activity_lines items'
  end.

(** What the activity step adds to [formatted_context]. *)
Definition activity_context (activity : list GitHub.activity) : string :=
  if truthy_list activity
  then "Recent GitHub Activity:" +:+ nl +:+ activity_lines (take 5 activity)
  else "".

Definition add_context (text : string) (new : list source_record)
    (c : context_data) : context_data :=
  {| formatted_context := formatted_context c +:+ text;
     sources := sources c ++ new;
     context_type := context_type c |}.

(** [context_type or _detect_context_type(message)] *)
Definition effective_context_type (context_type : option string)
    (message : string) : string :=
  match context_type with
  | Some c => if truthy_str c then c else Chat._detect_context_type message
  | None => Chat._detect_context_type message
  end.

(** [context_data["context_type"] in ["idea_validation", "inspiration"]] *)
Definition wants_projects (ctype : string) : bool :=
  String.eqb ctype "idea_validation" || String.eqb ctype "inspiration".

(** [context_data["context_type"] == "progress" and repo_url] *)
Definition wants_activity (ctype : string) (repo_url : option string)
  : bool :=
  String.eqb ctype "progress" && truthy_opt truthy_str repo_url.

Variable services : Services.

(** The three steps inside the [try] block. *)
Definition documentation_step (message : string)
    (message_embedding : list float) (c : context_data) (w : world)
  : outcome context_data * world :=
  match search_documentation services message (Some message_embedding) 3
          w with
  | (Ok docs, w') =>
      (Ok (add_context (documentation_context docs)
             (map documentation_source docs) c), w')
  | (Raise e, w') => (Raise e, w')
  end.

Definition project_step (message : string)
    (message_embedding : list float) (c : context_data) (w : world)
  : outcome context_data * world :=
  if wants_projects (context_type c) then
    match search_devpost_projects services message
            (Some message_embedding) 3 w with
    | (Ok projects, w') =>
        (Ok (add_context (project_context projects)
               (map project_source projects) c), w')
    | (Raise e, w') => (Raise e, w')
    end
  else (Ok c, w).

Definition activity_step (repo_url : option string) (c : context_data)
    (w : world) : outcome context_data * world :=
  if wants_activity (context_type c) repo_url then
    match get_repository_activity services (default "" repo_url) 3 w with
    | (Ok activity, w') =>
        (Ok (add_context (activity_context activity) [] c), w')
    | (Raise e, w') => (Raise e, w')
    end
  else (Ok c, w).

(** [_gather_context]: an exception of a step leaves the [try] block,
    and [context_data] is returned as it is at that point. *)
Definition _gather_context (message : string)
    (message_embedding : list float) (context_type : option string)
    (repo_url : option string) (w : world) : context_data * world :=
  let context_data0 :=
    {| formatted_context := ""; sources := [];
       context_type := effective_context_type context_type message |} in
  match documentation_step message message_embedding context_data0 w with
  | (Raise _, w1) => (context_data0, w1)
  | (Ok context_data1, w1) =>
      match project_step message message_embedding context_data1 w1 with
      | (Raise _, w2) => (context_data1, w2)
      | (Ok context_data2, w2) =>
          match activity_step repo_url context_data2 w2 with
          | (Raise _, w3) => (context_data2, w3)
          | (Ok context_data3, w3) => (context_data3, w3)
          end
      end
  end.

End Aggregator.

Arguments source_record : clear implicits.
Arguments context_data : clear implicits.
Arguments world : clear implicits.
Arguments Services : clear implicits.

(** The services [chat] passes in: [ElasticService()] and
    [GitHubService()] over the cluster and the API. *)
Definition deployed {float document : Type}
    (client : Elastic.Client float document) (api : GitHub.Api)
  : Services float document :=
  {| search_documentation query vector_query size w :=
       let '(docs, es') :=
         Elastic.search_documentation client query
           vector_query size (es w) in
       (Ok docs, {| es := es'; gh := gh w |});
     search_devpost_projects query vector_query size w :=
       let '(projects, es') :=
         Elastic.search_devpost_projects client query
           vector_query size (es w) in
       (Ok projects, {| es := es'; gh := gh w |});
     get_repository_activity repo_url days w :=
       let '(activity, gh') :=
         GitHub.get_repository_activity api repo_url days (gh w) in
       (Ok activity, {| es := es w; gh := gh' |}) |}.

End Gather.

(* ===================================================================== *)
(** * search.py: the search endpoint *)
(* ===================================================================== *)

Module Search.

Record SearchRequest := {
  query : string;
  search_type : string;
  index : option string;
  size : Z
}.

Inductive metadata :=
| ProjectMetadata (technologies : list string) (category year : string)
| DocMetadata (section doc_source : string).

Record SearchResult (float : Type) := {
  title : string;
  description : string;
  url : option string;
  score : float;
  source : string;
  meta : metadata
}.
Arguments title {float}.
Arguments description {float}.
Arguments url {float}.
Arguments score {float}.
Arguments source {float}.
Arguments meta {float}.

Record SearchResponse (float : Type) := {
  results : list (SearchResult float);
  total : Z;
  response_query : string;
  response_search_type : string
}.
Arguments results {float}.
Arguments total {float}.
Arguments response_query {float}.
Arguments response_search_type {float}.

Section Endpoint.

Context {float rng dict document : Type}.

(** The collaborators of the endpoint; [float_leb] is [<=] on floats. *)
Record Env := {
  vertex : Vertex.Env float rng dict;
  vertex_available : bool;
  client : Elastic.Client float document;
  float_leb : float -> float -> bool
}.

Record world := {
  vertex_calls : list (Vertex.real_call float dict);
  rnd : rng;
  es : list (Elastic.es_call float document)
}.

Variable env : Env.

Definition result_of_project (project : Elastic.Project.t float)
  : SearchResult float :=
  {| title := Elastic.Project.title project;
     description := Elastic.Project.description project;
     url := Some (Elastic.Project.url project);
     score := Elastic.Project.score project;
     source := "devpost";
     meta := ProjectMetadata (Elastic.Project.technologies project)
               (Elastic.Project.category project)
               (Elastic.Project.year project) |}.

Definition result_of_doc (doc : Elastic.Doc.t float) : SearchResult float :=
  {| title := Elastic.Doc.title doc;
     description := str_take 300 (Elastic.Doc.content doc) +:+ "...";
     url := Some (Elastic.Doc.url doc);
     score := Elastic.Doc.score doc;
     source := "documentation";
     meta := DocMetadata (Elastic.Doc.section doc)
               (Elastic.Doc.source doc) |}.

(** One turn of the loop over [indices_to_search].  The two search
    methods return plain lists and building a [SearchResult] from their
    items cannot fail, so the [except ... continue] of the loop has
    nothing to catch here. *)
Definition search_index (request : SearchRequest)
    (query_embedding : option (list float)) (index : string)
    (acc : list (SearchResult float) * list (Elastic.es_call float document))
  : list (SearchResult float) * list (Elastic.es_call float document) :=
  let '(all_results, served) := acc in
  let vector_query :=
    if negb (String.eqb (search_type request) "keyword")
    then query_embedding else None in
  if String.eqb index "devpost_projects" then
    let '(projects, served') :=
      Elastic.search_devpost_projects (client env)
        (query request) vector_query (size request) served in
    (all_results ++ map result_of_project projects, served')
  else if String.eqb index "hackathon_docs" then
    let '(docs, served') :=
      Elastic.search_documentation (client env)
        (query request) vector_query (size request) served in
    (all_results ++ map result_of_doc docs, served')
  else (all_results, served).

Definition indices_to_search (request : SearchRequest) : list string :=
  match index request with
  | Some i =>
      if truthy_str i then [i] else ["devpost_projects"; "hackathon_docs"]
  | None => ["devpost_projects"; "hackathon_docs"]
  end.

(** [search] *)
Definition search (request : SearchRequest) (w : world)
  : outcome (SearchResponse float) * world :=
  let vertex_service :=
    Vertex.init (vertex_available env) (vertex_calls w)
      (rnd w) in
  let '(query_embedding, vertex_service') :=
    if String.eqb (search_type request) "hybrid"
       || String.eqb (search_type request) "semantic"
    then
      let '(e, s) :=
        Vertex.generate_single_embedding (vertex env)
          (query request) vertex_service in
      (match e with Ok v => Ok (Some v) | Raise x => Raise x end, s)
    else (Ok None, vertex_service) in
  match query_embedding with
  | Raise _ =>
      (Raise (HTTPException 500 "Search request failed"),
       {| vertex_calls := Vertex.calls vertex_service';
          rnd := Vertex.rnd vertex_service'; es := es w |})
  | Ok query_embedding =>
      let '(all_results, served) :=
        fold_left (fun acc index =>
                     search_index request query_embedding index acc)
          (indices_to_search request) ([], es w) in
      let sorted := sort_reverse (float_leb env) score all_results in
      (Ok {| results := slice_to (size request) sorted;
             total := Z.of_nat (length all_results);
             response_query := query request;
             response_search_type := search_type request |},
       {| vertex_calls := Vertex.calls vertex_service';
          rnd := Vertex.rnd vertex_service'; es := served |})
  end.

End Endpoint.

Arguments Env : clear implicits.
Arguments world : clear implicits.

End Search.

(* ===================================================================== *)
(** * webhook.py *)
(* ===================================================================== *)

Module Webhook.

(** ** The payload, as far as the handlers read it.  A field is [None]
    when its key is missing. *)

Module Author.
Record t := { name : option string; email : option string }.
End Author.

Module Commit.
Record t := {
  id : option string;
  message : option string;
  author : option Author.t;
  timestamp : option string;
  url : option string;
  added : option (list string);
  modified : option (list string);
  removed : option (list string)
}.
End Commit.

Module Repository.
Record t := { full_name : option string; html_url : option string }.
End Repository.

Module Pusher.
Record t := { name : option string }.
End Pusher.

Module User.
Record t := { login : option string }.
End User.

Module PullRequest.
Record t := {
  id : option Z;
  number : option Z;
  title : option string;
  body : option string;
  state : option string;
  user : option User.t;
  created_at : option string;
  updated_at : option string;
  html_url : option string
}.
End PullRequest.

Module Label.
Record t := { name : option string }.
End Label.

Module Issue.
Record t := {
  id : option Z;
  number : option Z;
  title : option string;
  body : option string;
  state : option string;
  user : option User.t;
  labels : option (list Label.t);
  created_at : option string;
  updated_at : option string;
  html_url : option string
}.
End Issue.

Module Payload.
Record t := {
  action : option string;
  repository : option Repository.t;
  commits : option (list Commit.t);
  pusher : option Pusher.t;
  pull_request : option PullRequest.t;
  issue : option Issue.t
}.
End Payload.

(** ** The documents written to the activity index *)

Module CommitData.
Record t := {
  id : string;
  type : string;
  repository : string;
  repository_url : string;
  commit_id : string;
  message : string;
  author : string;
  author_email : string;
  timestamp : string;
  url : string;
  added_files : list string;
  modified_files : list string;
  removed_files : list string;
  total_changes : nat;
  pusher : string;
  event_type : string;
  processed_at : string
}.
End CommitData.

Module PrData.
Record t := {
  id : string;
  type : string;
  repository : string;
  repository_url : string;
  pr_number : Z;
  title : string;
  body : string;
  state : string;
  action : string;
  author : string;
  created_at : string;
  updated_at : string;
  url : string;
  event_type : string;
  processed_at : string
}.
End PrData.

Module IssueData.
Record t := {
  id : string;
  type : string;
  repository : string;
  repository_url : string;
  issue_number : Z;
  title : string;
  body : string;
  state : string;
  action : string;
  author : string;
  labels : list string;
  created_at : string;
  updated_at : string;
  url : string;
  event_type : string;
  processed_at : string
}.
End IssueData.

Inductive document :=
| commit_data (d : CommitData.t)
| pr_data (d : PrData.t)
| issue_data (d : IssueData.t).

(** [d.get(key)] on a dictionary that may itself be missing, as in
    [payload.get("repository", {}).get("full_name")]. *)
Definition get {A B} (d : option A) (key : A -> option B) : option B :=
  match d with
  | Some a => key a
  | None => None
  end.

(** [f"{x.get('id', '')}"] for an integer id. *)
Definition format_id (id : option Z) : string :=
  match id with
  | Some n => pretty n
  | None => ""
  end.

(** The [commit_data] dictionary of [_process_push_event]. *)
Definition commit_data_of (payload : Payload.t) (commit : Commit.t)
  : CommitData.t :=
  let repository := Payload.repository payload in
  let pusher := Payload.pusher payload in
  let repo_name := default "unknown" (get repository Repository.full_name) in
  let repo_url := default "" (get repository Repository.html_url) in
  {| CommitData.id := "commit_" +:+ default "" (Commit.id commit);
     CommitData.type := "commit";
     CommitData.repository := repo_name;
     CommitData.repository_url := repo_url;
     CommitData.commit_id := default "" (Commit.id commit);
     CommitData.message := default "" (Commit.message commit);
     CommitData.author :=
       default "Unknown" (get (Commit.author commit) Author.name);
     CommitData.author_email :=
       default "" (get (Commit.author commit) Author.email);
     CommitData.timestamp := default "" (Commit.timestamp commit);
     CommitData.url := default "" (Commit.url commit);
     CommitData.added_files := default [] (Commit.added commit);
     CommitData.modified_files := default [] (Commit.modified commit);
     CommitData.removed_files := default [] (Commit.removed commit);
     CommitData.total_changes :=
       (length (default [] (Commit.added commit))
        + length (default [] (Commit.modified commit))
        + length (default [] (Commit.removed commit)))%nat;
     CommitData.pusher := default "Unknown" (get pusher Pusher.name);
     CommitData.event_type := "push";
     CommitData.processed_at := "2024-10-24T12:00:00Z" |}.

(** The [pr_data] dictionary of [_process_pr_event]. *)
Definition pr_data_of (payload : Payload.t) : PrData.t :=
  let action := default "" (Payload.action payload) in
  let pull_request := Payload.pull_request payload in
  let repository := Payload.repository payload in
  {| PrData.id := "pr_" +:+ format_id (get pull_request PullRequest.id);
     PrData.type := "pull_request";
     PrData.repository :=
       default "unknown" (get repository Repository.full_name);
     PrData.repository_url := default "" (get repository Repository.html_url);
     PrData.pr_number := default 0 (get pull_request PullRequest.number);
     PrData.title := default "" (get pull_request PullRequest.title);
     PrData.body := default "" (get pull_request PullRequest.body);
     PrData.state := default "" (get pull_request PullRequest.state);
     PrData.action := action;
     PrData.author :=
       default "Unknown"
         (get (get pull_request PullRequest.user) User.login);
     PrData.created_at := default "" (get pull_request PullRequest.created_at);
     PrData.updated_at := default "" (get pull_request PullRequest.updated_at);
     PrData.url := default "" (get pull_request PullRequest.html_url);
     PrData.event_type := "pull_request";
     PrData.processed_at := "2024-10-24T12:00:00Z" |}.

(** The [issue_data] dictionary of [_process_issue_event]. *)
Definition issue_data_of (payload : Payload.t) : IssueData.t :=
  let action := default "" (Payload.action payload) in
  let issue := Payload.issue payload in
  let repository := Payload.repository payload in
  {| IssueData.id := "issue_" +:+ format_id (get issue Issue.id);
     IssueData.type := "issue";
     IssueData.repository :=
       default "unknown" (get repository Repository.full_name);
     IssueData.repository_url :=
       default "" (get repository Repository.html_url);
     IssueData.issue_number := default 0 (get issue Issue.number);
     IssueData.title := default "" (get issue Issue.title);
     IssueData.body := default "" (get issue Issue.body);
     IssueData.state := default "" (get issue Issue.state);
     IssueData.action := action;
     IssueData.author :=
       default "Unknown" (get (get issue Issue.user) User.login);
     IssueData.labels :=
       map (fun label => default "" (Label.name label))
         (default [] (get issue Issue.labels));
     IssueData.created_at := default "" (get issue Issue.created_at);
     IssueData.updated_at := default "" (get issue Issue.updated_at);
     IssueData.url := default "" (get issue Issue.html_url);
     IssueData.event_type := "issue";
     IssueData.processed_at := "2024-10-24T12:00:00Z" |}.

(** The work handed to [background_tasks]. *)
Inductive task :=
| process_push_event (payload : Payload.t)
| process_pr_event (payload : Payload.t)
| process_issue_event (payload : Payload.t).

(** The body of the answer [{"status": "received", "event": event_type}]. *)
Record received := { status : string; event : option string }.

Section Endpoint.

Context {float : Type}.

(** [settings.GITHUB_WEBHOOK_SECRET], the hex digest of
    [hmac.new(key, msg, sha256)], [json.loads(body.decode())] and the
    cluster. *)
Record Env := {
  GITHUB_WEBHOOK_SECRET : string;
  hmac_sha256_hexdigest : string -> string -> string;
  json_loads : string -> outcome Payload.t;
  client : Elastic.Client float document
}.

Variable env : Env.

Abbreviation es_call := (Elastic.es_call float Webhook.document).

(** [_verify_signature]; [hmac.compare_digest] decides the equality of
    the two strings. *)
Definition _verify_signature (payload_body : string)
    (signature_header : option string) : bool :=
  if negb (truthy_opt truthy_str signature_header)
     || negb (truthy_str (GITHUB_WEBHOOK_SECRET env))
  then false
  else
    let expected_signature :=
      "sha256="
      +:+ hmac_sha256_hexdigest env (GITHUB_WEBHOOK_SECRET env)
            payload_body in
    String.eqb expected_signature (default "" signature_header).

(** The [try] block of [github_webhook]: the answer or the exception,
    and the tasks added to [background_tasks]. *)
Definition github_webhook_body (body : string)
    (signature event_type : option string)
  : outcome received * list task :=
  if negb (_verify_signature body signature)
  then (Raise (HTTPException 401 "Invalid signature"), [])
  else
    match json_loads env body with
    | Raise e => (Raise e, [])
    | Ok payload =>
        let tasks :=
          match event_type with
          | Some e =>
              if String.eqb e "push" then [process_push_event payload]
              else if String.eqb e "pull_request"
              then [process_pr_event payload]
              else if String.eqb e "issues"
              then [process_issue_event payload]
              else []
          | None => []
          end in
        (Ok {| status := "received"; event := event_type |}, tasks)
    end.

(** [github_webhook]: [except Exception] catches whatever the [try]
    block raises and raises the status 500 in its place. *)
Definition github_webhook (body : string)
    (signature event_type : option string)
  : outcome received * list task :=
  match github_webhook_body body signature event_type with
  | (Ok answer, tasks) => (Ok answer, tasks)
  | (Raise _, tasks) =>
      (Raise (HTTPException 500 "Webhook processing failed"), tasks)
  end.

(** [_process_push_event] *)
Definition _process_push_event (payload : Payload.t)
    (served : list es_call) : list es_call :=
  fold_left
    (fun served commit =>
       let commit_data := commit_data_of payload commit in
       snd (Elastic.index_document (client env)
              Settings.GITHUB_INDEX (CommitData.id commit_data)
              (Webhook.commit_data commit_data) served))
    (default [] (Payload.commits payload)) served.

(** [_process_pr_event] *)
Definition _process_pr_event (payload : Payload.t)
    (served : list es_call) : list es_call :=
  let pr_data := pr_data_of payload in
  snd (Elastic.index_document (client env)
         Settings.GITHUB_INDEX (PrData.id pr_data)
         (Webhook.pr_data pr_data) served).

(** [_process_issue_event] *)
Definition _process_issue_event (payload : Payload.t)
    (served : list es_call) : list es_call :=
  let issue_data := issue_data_of payload in
  snd (Elastic.index_document (client env)
         Settings.GITHUB_INDEX (IssueData.id issue_data)
         (Webhook.issue_data issue_data) served).

Definition run_task (t : task) (served : list es_call) : list es_call :=
  match t with
  | process_push_event payload => _process_push_event payload served
  | process_pr_event payload => _process_pr_event payload served
  | process_issue_event payload => _process_issue_event payload served
  end.

(** One delivery: the endpoint answers, then the background tasks it
    added run. *)
Definition deliver (body : string) (signature event_type : option string)
    (served : list es_call) : outcome received * list es_call :=
  let '(answer, tasks) := github_webhook body signature event_type in
  (answer, fold_left (fun served t => run_task t served) tasks served).

End Endpoint.

Arguments Env : clear implicits.

End Webhook.

(* ===================================================================== *)
(** * More Python builtins *)
(* ===================================================================== *)

Module PyMore.

(** [c.upper()] on one ASCII character; other characters are kept. *)
Definition upper_ascii (c : Ascii.ascii) : Ascii.ascii :=
  let n := Ascii.nat_of_ascii c in
  if ((97 <=? n) && (n <=? 122))%nat then Ascii.ascii_of_nat (n - 32) else c.

(** [s.capitalize()] *)
Definition capitalize (s : string) : string :=
  match s with
  | EmptyString => EmptyString
  | String c s' => String (upper_ascii c) (lower s')
  end.

(** The ASCII characters [str.split()] and [str.strip()] treat as
    whitespace. *)
Definition is_space (c : Ascii.ascii) : bool :=
  let n := Ascii.nat_of_ascii c in
  ((n =? 32) || ((9 <=? n) && (n <=? 13)) || ((28 <=? n) && (n <=? 31)))%nat.

(** [s.split()]: the words between runs of whitespace. *)
Fixpoint split_whitespace (s : string) : list string :=
  match s with
  | EmptyString => []
  | String c s' =>
      if is_space c then split_whitespace s'
      else
        match s' with
        | EmptyString => [String c EmptyString]
        | String c' _ =>
            if is_space c' then String c EmptyString :: split_whitespace s'
            else match split_whitespace s' with
                 | w :: ws => String c w :: ws
                 | [] => [String c EmptyString]
                 end
        end
  end.

(** [s.lstrip()], [s.rstrip()] and [s.strip()] *)
Fixpoint lstrip (s : string) : string :=
  match s with
  | EmptyString => EmptyString
  | String c s' => if is_space c then lstrip s' else s
  end.

Fixpoint rstrip (s : string) : string :=
  match s with
  | EmptyString => EmptyString
  | String c s' =>
      match rstrip s' with
      | EmptyString => if is_space c then EmptyString else String c EmptyString
      | r => String c r
      end
  end.

Definition strip (s : string) : string := rstrip (lstrip s).

(** [l[-n:]] for a literal [n > 0]: the last [n] items, all of them when
    there are fewer. *)
Definition last_items {A} (n : nat) (l : list A) : list A :=
  drop (length l - n) l.

(** A dictionary of counters, in the order the keys were first seen.
    [bump k d] is [d[k] = d.get(k, 0) + 1]. *)
Fixpoint bump (k : string) (d : list (string * nat)) : list (string * nat) :=
  match d with
  | [] => [(k, 1%nat)]
  | (k', n) :: d' =>
      if String.eqb k' k then (k', S n) :: d' else (k', n) :: bump k d'
  end.

(** Counting the keys of a list with [bump], from the empty dictionary. *)
Definition tally (keys : list string) : list (string * nat) :=
  fold_left (fun d k => bump k d) keys [].

(** [d.get(k, 0)] *)
Fixpoint count_of (k : string) (d : list (string * nat)) : nat :=
  match d with
  | [] => 0%nat
  | (k', n) :: d' => if String.eqb k' k then n else count_of k d'
  end.

(** [max(d.items(), key=lambda x: x[1])]: the first item with the greatest
    count. *)
Fixpoint max_item (best : string * nat) (items : list (string * nat))
  : string * nat :=
  match items with
  | [] => best
  | e :: items' =>
      if (snd best <? snd e)%nat then max_item e items'
      else max_item best items'
  end.

Definition max_by_count (d : list (string * nat)) : option (string * nat) :=
  match d with
  | [] => None
  | e :: d' => Some (max_item e d')
  end.

(** The character [.]. *)
Definition dot : Ascii.ascii := Ascii.ascii_of_nat 46.

(** The sum of the counters of a dictionary. *)
Definition sum_counts (d : list (string * nat)) : nat :=
  sum_list (map snd d).

(** How often [k] occurs in [keys]. *)
Definition occurrences (k : string) (keys : list string) : nat :=
  length (filter (fun k' => k' = k) keys).

End PyMore.

Import PyMore.

(* ===================================================================== *)
(** * github_service.py: statistics and the progress analysis *)
(* ===================================================================== *)

Module Analysis.

Module Contributor.
Record t := { login : string; contributions : Z; avatar_url : string }.
End Contributor.

(** A release as the API gives it. *)
Module RawRelease.
Record t := {
  title : option string;
  tag_name : string;
  published_at : option string;
  html_url : string
}.
End RawRelease.

(** A release as [get_repository_stats] returns it. *)
Module Release.
Record t := {
  name : string;
  tag : string;
  published_at : option string;
  url : string
}.
End Release.

(** The repository as the API gives it; dates are already in ISO
    format. *)
Module Repo.
Record t := {
  name : string;
  description : option string;
  stargazers_count : Z;
  forks_count : Z;
  open_issues_count : Z;
  languages : list (string * Z);
  contributors : list Contributor.t;
  releases : list RawRelease.t;
  created_at : string;
  updated_at : string;
  default_branch : string
}.
End Repo.

(** The dictionary [get_repository_stats] returns when it succeeds; the
    empty dictionary of its failure is [None]. *)
Module Stats.
Record t := {
  name : string;
  description : option string;
  stars : Z;
  forks : Z;
  open_issues : Z;
  languages : list (string * Z);
  contributors : list Contributor.t;
  recent_releases : list Release.t;
  created_at : string;
  updated_at : string;
  default_branch : string
}.
End Stats.

(** The requests of an analysis: those for the activity, and the names
    of the repositories whose statistics were asked for. *)
Record world := {
  activity_served : list GitHub.gh_call;
  stats_served : list string
}.

(** The part of the API behind [get_repository_stats]: it raises, or it
    describes the repository. *)
Record StatsApi := {
  repo_details : world -> string -> outcome Repo.t
}.

(** [release.title or release.tag_name] and the other fields *)
Definition release_of (release : RawRelease.t) : Release.t :=
  {| Release.name :=
       match RawRelease.title release with
       | Some title =>
           if truthy_str title then title else RawRelease.tag_name release
       | None => RawRelease.tag_name release
       end;
     Release.tag := RawRelease.tag_name release;
     Release.published_at := RawRelease.published_at release;
     Release.url := RawRelease.html_url release |}.

Definition stats_of (repo : Repo.t) : Stats.t :=
  {| Stats.name := Repo.name repo;
     Stats.description := Repo.description repo;
     Stats.stars := Repo.stargazers_count repo;
     Stats.forks := Repo.forks_count repo;
     Stats.open_issues := Repo.open_issues_count repo;
     Stats.languages := Repo.languages repo;
     Stats.contributors := Repo.contributors repo;
     Stats.recent_releases := map release_of (take 3 (Repo.releases repo));
     Stats.created_at := Repo.created_at repo;
     Stats.updated_at := Repo.updated_at repo;
     Stats.default_branch := Repo.default_branch repo |}.

(** [get_repository_stats] *)
Definition get_repository_stats (api : GitHub.Api) (stats_api : StatsApi)
    (repo_url : string) (w : world) : option Stats.t * world :=
  match GitHub._parse_repo_url repo_url with
  | (Some owner, Some repo_name) =>
      if negb (truthy_str owner) || negb (truthy_str repo_name)
      then (None, w)
      else if GitHub.github api then
        let full_name := owner +:+ "/" +:+ repo_name in
        (match repo_details stats_api w full_name with
         | Ok repo => Some (stats_of repo)
         | Raise _ => None
         end,
         {| activity_served := activity_served w;
            stats_served := stats_served w ++ [full_name] |})
      else (None, w)
  | _ => (None, w)
  end.

(** [[a for a in activity if a["type"] == kind]] *)
Definition of_type (kind : string) (activity : list GitHub.activity)
  : list GitHub.activity :=
  filter (fun a => GitHub.type a = kind) activity.

(** [commit.get("files", [])] *)
Definition files_of (a : GitHub.activity) : list string :=
  match GitHub.more a with
  | GitHub.CommitDetails _ files => files
  | GitHub.IssueDetails _ _ => []
  end.

(** The [patterns] of [_analyze_commit_messages], in the order of the
    dictionary. *)
Definition patterns : list (string * list string) :=
  [("feature", ["feat"; "feature"; "add"; "implement"]);
   ("fix", ["fix"; "bug"; "patch"; "resolve"]);
   ("refactor", ["refactor"; "clean"; "improve"; "optimize"]);
   ("docs", ["doc"; "readme"; "comment"; "documentation"]);
   ("style", ["style"; "format"; "lint"; "prettier"]);
   ("test", ["test"; "spec"; "coverage"])].

(** The category the inner loop stops at, if any. *)
Fixpoint category_of (message_lower : string)
    (patterns : list (string * list string)) : option string :=
  match patterns with
  | [] => None
  | (category, keywords) :: patterns' =>
      if any (fun keyword => str_in keyword message_lower) keywords
      then Some category
      else category_of message_lower patterns'
  end.

(** [categorized[category] += 1] *)
Fixpoint increment (k : string) (d : list (string * nat))
  : list (string * nat) :=
  match d with
  | [] => []
  | (k', n) :: d' =>
      if String.eqb k' k then (k', S n) :: d' else (k', n) :: increment k d'
  end.

(** [_analyze_commit_messages] *)
Definition _analyze_commit_messages (messages : list string)
  : list (string * nat) :=
  if truthy_list messages then
    fold_left
      (fun categorized message =>
         match category_of (lower message) patterns with
         | Some category => increment category categorized
         | None => categorized
         end)
      messages
      (map (fun p => (fst p, 0%nat)) patterns)
  else [].

(** [_get_most_active_author] *)
Definition _get_most_active_author (commits : list GitHub.activity)
  : string :=
  if truthy_list commits then
    match max_by_count (tally (map GitHub.author commits)) with
    | Some (author, _) => author
    | None => "Unknown"
    end
  else "Unknown".

(** The [focus_mapping] of [_determine_development_focus]. *)
Definition focus_mapping : list (string * string) :=
  [("py", "Backend Development");
   ("js", "Frontend Development");
   ("ts", "Frontend Development");
   ("tsx", "Frontend Development");
   ("jsx", "Frontend Development");
   ("html", "Frontend Development");
   ("css", "Frontend Development");
   ("scss", "Frontend Development");
   ("md", "Documentation");
   ("yml", "DevOps/Configuration");
   ("yaml", "DevOps/Configuration");
   ("json", "Configuration");
   ("sql", "Database Development")].

(** [focus_mapping.get(ext, default)] *)
Fixpoint lookup_focus (ext : string) (mapping : list (string * string))
    (default : string) : string :=
  match mapping with
  | [] => default
  | (k, v) :: mapping' =>
      if String.eqb k ext then v else lookup_focus ext mapping' default
  end.

(** [_determine_development_focus] *)
Definition _determine_development_focus (file_types : list (string * nat))
  : string :=
  match max_by_count file_types with
  | None => "Unknown"
  | Some (most_common_ext, _) =>
      lookup_focus most_common_ext focus_mapping "General Development"
  end.

(** [_assess_project_maturity] *)
Definition _assess_project_maturity (stats : option Stats.t) : string :=
  match stats with
  | None => "Unknown"
  | Some stats =>
      let contributors := length (Stats.contributors stats) in
      let releases := length (Stats.recent_releases stats) in
      if ((3 <=? contributors) && (1 <=? releases))%nat then "Mature"
      else if ((2 <=? contributors) || (1 <=? releases))%nat
      then "Developing"
      else "Early Stage"
  end.

(** [stats.get("contributors", [])], [stats.get("recent_releases")] and
    [stats.get("open_issues", 0)] on a dictionary that may be empty. *)
Definition contributors_of (stats : option Stats.t) : list Contributor.t :=
  match stats with Some s => Stats.contributors s | None => [] end.

Definition recent_releases_of (stats : option Stats.t) : list Release.t :=
  match stats with Some s => Stats.recent_releases s | None => [] end.

Definition open_issues_of (stats : option Stats.t) : Z :=
  match stats with Some s => Stats.open_issues s | None => 0 end.

(** [_generate_recommendations] *)
Definition _generate_recommendations (activity : list GitHub.activity)
    (stats : option Stats.t) : list string :=
  let commits := of_type "commit" activity in
  (if (length commits <? 5)%nat
   then ["Consider increasing commit frequency for better progress tracking"]
   else [])
  ++ (if truthy_list (recent_releases_of stats) then []
      else ["Consider creating releases to mark project milestones"])
  ++ (if (length (contributors_of stats) =? 1)%nat
      then ["Encourage team collaboration with more contributors"]
      else [])
  ++ (if 10 <? open_issues_of stats
      then ["Focus on resolving open issues to maintain project health"]
      else []).

(** The dictionary [_calculate_progress_metrics] returns. *)
Record progress_metrics := {
  activity_score : nat;
  commit_velocity : nat;
  issue_activity : nat;
  contributor_count : nat;
  project_maturity : string;
  development_intensity : string
}.

(** [_calculate_progress_metrics] *)
Definition _calculate_progress_metrics (activity : list GitHub.activity)
    (stats : option Stats.t) : progress_metrics :=
  let commits := of_type "commit" activity in
  let issues := of_type "issue" activity in
  {| activity_score := length activity;
     commit_velocity := length commits;
     issue_activity := length issues;
     contributor_count := length (contributors_of stats);
     project_maturity := _assess_project_maturity stats;
     development_intensity :=
       if (10 <? length commits)%nat then "High"
       else if (5 <? length commits)%nat then "Medium"
       else "Low" |}.

(** The file extension counted by [_analyze_file_changes]:
    [file.split(".")[-1].lower()] when the name has a dot. *)
Definition extension_of (file : string) : option string :=
  if str_in "." file
  then match last_item (split dot file) with
       | Some ext => Some (lower ext)
       | None => None
       end
  else None.

(** The dictionary [_analyze_file_changes] returns. *)
Inductive file_analysis :=
| NoFileChanges
| FileChanges (total_files_changed : nat)
    (most_changed_files : list (string * nat))
    (file_types : list (string * nat)) (development_focus : string).

(** [_analyze_file_changes] *)
Definition _analyze_file_changes (activity : list GitHub.activity)
  : file_analysis :=
  let commits := of_type "commit" activity in
  if truthy_list commits then
    let files := concat (map files_of commits) in
    let file_changes := tally files in
    let file_types := tally (omap extension_of files) in
    FileChanges (length file_changes)
      (take 5 (sort_reverse Nat.leb snd file_changes))
      file_types (_determine_development_focus file_types)
  else NoFileChanges.

Section Analyzer.

Context {float : Type}.

(** [n / m] on two lengths, a float. *)
Variable true_div : nat -> nat -> float.

(** The dictionary [_analyze_commits] returns. *)
Inductive commit_analysis :=
| NoCommits
| Commits (total_commits : nat) (commit_frequency : list (string * nat))
    (average_per_day : float) (message_analysis : list (string * nat))
    (most_active_author : string).

(** [commit_analysis.get("total_commits", 0)] *)
Definition total_commits_of (c : commit_analysis) : nat :=
  match c with
  | NoCommits => 0%nat
  | Commits total_commits _ _ _ _ => total_commits
  end.

(** [_analyze_commits] *)
Definition _analyze_commits (activity : list GitHub.activity)
  : commit_analysis :=
  let commits := of_type "commit" activity in
  if truthy_list commits then
    let commit_days :=
      tally (map (fun commit => str_take 10 (GitHub.timestamp commit))
               commits) in
    Commits (length commits) commit_days
      (true_div (length commits) (Nat.max (length commit_days) 1))
      (_analyze_commit_messages (map GitHub.message commits))
      (_get_most_active_author commits)
  else NoCommits.

(** The analysis [analyze_project_progress] returns when it has data. *)
Record progress := {
  repository : string;
  analysis_period : string;
  commit_analysis_of : commit_analysis;
  file_analysis_of : file_analysis;
  metrics : progress_metrics;
  recent_activity : list GitHub.activity;
  recommendations : list string
}.

Inductive analysis :=
| error (message : string)
| analysed (p : progress).

Variables (api : GitHub.Api) (stats_api : StatsApi).

(** [analyze_project_progress] *)
Definition analyze_project_progress (repo_url : string) (w : world)
  : analysis * world :=
  let '(activity, served) :=
    GitHub.get_repository_activity api repo_url 7 (activity_served w) in
  let w1 := {| activity_served := served; stats_served := stats_served w |} in
  let '(stats, w2) := get_repository_stats api stats_api repo_url w1 in
  if negb (truthy_list activity) && negb (truthy_opt (fun _ => true) stats)
  then (error "Unable to analyze repository", w2)
  else
    (analysed
       {| repository :=
            match stats with Some s => Stats.name s | None => "Unknown" end;
          analysis_period := "Last 7 days";
          commit_analysis_of := _analyze_commits activity;
          file_analysis_of := _analyze_file_changes activity;
          metrics := _calculate_progress_metrics activity stats;
          recent_activity := take 5 activity;
          recommendations := _generate_recommendations activity stats |},
     w2).

End Analyzer.

Arguments commit_analysis : clear implicits.
Arguments progress : clear implicits.
Arguments analysis : clear implicits.

End Analysis.

(* ===================================================================== *)
(** * search.py: the other endpoints *)
(* ===================================================================== *)

Module SearchMore.

(** The answer of [get_search_suggestions]. *)
Record Suggestions := { suggestions : list string; query : string }.

Definition common_suggestions : list string :=
  ["How to use Google Cloud Vertex AI";
   "Elastic hybrid search implementation";
   "Hackathon submission requirements";
   "Best practices for team collaboration";
   "GitHub integration for progress tracking";
   "AI-powered search applications";
   "Real-time data processing";
   "Machine learning model deployment";
   "API development with FastAPI";
   "Frontend development with React"].

Definition generic_suggestions (q : string) : list string :=
  ["How to implement " +:+ q;
   "Best practices for " +:+ q;
   "Examples of " +:+ q;
   "Troubleshooting " +:+ q;
   "Advanced " +:+ q +:+ " techniques"].

(** The common suggestions kept for the query: those in which a word of
    the query occurs. *)
Definition matching (q : string) : list string :=
  List.filter
    (fun suggestion =>
       any (fun word => str_in word (lower suggestion))
         (split_whitespace (lower q)))
    common_suggestions.

(** [get_search_suggestions]; nothing in its [try] block raises. *)
Definition get_search_suggestions (q : string) (limit : Z) : Suggestions :=
  let suggestions := matching q in
  let suggestions :=
    if Z.of_nat (length suggestions) <? limit
    then suggestions ++ generic_suggestions q
    else suggestions in
  {| suggestions := slice_to limit suggestions; query := q |}.

Section Endpoints.

Context {float rng dict document : Type}.
Variable env : Search.Env float rng dict document.

(** The embedding of the query, for the search types that use one. *)
Definition embed_query (q search_type : string)
    (w : Search.world float rng dict document)
  : outcome (option (list float)) * Vertex.state float rng dict :=
  let vertex_service :=
    Vertex.init (Search.vertex_available env) (Search.vertex_calls w)
      (Search.rnd w) in
  if String.eqb search_type "hybrid" || String.eqb search_type "semantic"
  then
    let '(e, s) :=
      Vertex.generate_single_embedding (Search.vertex env) q
        vertex_service in
    (match e with Ok v => Ok (Some v) | Raise x => Raise x end, s)
  else (Ok None, vertex_service).

Definition world_after (s : Vertex.state float rng dict)
    (served : list (Elastic.es_call float document))
  : Search.world float rng dict document :=
  {| Search.vertex_calls := Vertex.calls s; Search.rnd := Vertex.rnd s;
     Search.es := served |}.


(** [search_documentation] *)
Definition search_documentation (q : string) (size : Z)
    (search_type : string) (w : Search.world float rng dict document)
  : outcome (Search.SearchResponse float)
    * Search.world float rng dict document :=
  match embed_query q search_type w with
  | (Raise _, s) =>
      (Raise (HTTPException 500 "Documentation search failed"),
       world_after s (Search.es w))
  | (Ok query_embedding, s) =>
      let '(docs, served) :=
        Elastic.search_documentation (Search.client env) q
          (if negb (String.eqb search_type "keyword")
           then query_embedding else None)
          size (Search.es w) in
      let results := map Search.result_of_doc docs in
      (Ok {| Search.results := results;
             Search.total := Z.of_nat (length results);
             Search.response_query := q;
             Search.response_search_type := search_type |},
       world_after s served)
  end.

End Endpoints.

End SearchMore.

(* ===================================================================== *)
(** * chat.py: the endpoints *)
(* ===================================================================== *)

Module ChatEndpoints.

(** The dictionaries handed to the generation service: a project found
    by the search, or an item of the activity. *)
Inductive payload (float : Type) :=
| ProjectDict (project : Elastic.Project.t float)
| ActivityDict (item : GitHub.activity).
Arguments ProjectDict {float} project.
Arguments ActivityDict {float} item.

Record ChatMessage := {
  role : string;
  content : string;
  timestamp : option string
}.

Record ChatRequest := {
  message : string;
  conversation_history : option (list ChatMessage);
  repo_url : option string;
  context_type : option string
}.

(** An item of [ChatResponse.sources]: the provenance records of
    [_gather_context], the projects of [validate_idea], and the analysis
    of [progress_report]. *)
Inductive source (float : Type) :=
| gathered (record : Gather.source_record float)
| similar_project (title description url : string) (relevance_score : float)
| github_analysis (repository analysis_period : string) (commit_count : nat)
    (progress_metrics : Analysis.progress_metrics).
Arguments gathered {float} record.
Arguments similar_project {float} title description url relevance_score.
Arguments github_analysis {float} repository analysis_period commit_count
  progress_metrics.

Record ChatResponse (float : Type) := {
  response : string;
  sources : list (source float);
  suggestions : list string;
  conversation_id : option string
}.
Arguments response {float}.
Arguments sources {float}.
Arguments suggestions {float}.
Arguments conversation_id {float}.

Definition base_suggestions : list string :=
  ["Can you help me validate my project idea?";
   "What's our current development progress?";
   "How do I use Google Cloud with Elastic?";
   "What are the hackathon submission requirements?"].

Definition context_suggestions : list (string * list string) :=
  [("idea_validation",
    ["How can I make my idea more unique?";
     "What technical challenges should I expect?";
     "What technologies would work best?";
     "How do I validate this with users?"]);
   ("progress",
    ["What should we focus on next?";
     "Are we on track for the deadline?";
     "How can we improve our velocity?";
     "What blockers should we address?"]);
   ("documentation",
    ["Show me examples of this implementation";
     "What are the best practices?";
     "Are there any limitations I should know?";
     "How do I troubleshoot common issues?"])].

(** [d.get(k, default)] on a dictionary with string keys. *)
Fixpoint get_or {V} (k : string) (d : list (string * V)) (default : V) : V :=
  match d with
  | [] => default
  | (k', v) :: d' => if String.eqb k' k then v else get_or k d' default
  end.

(** [_generate_suggestions] *)
Definition _generate_suggestions (message context_type : string)
  : list string :=
  get_or context_type context_suggestions base_suggestions.

Section Endpoints.

Context {float rng document : Type}.

(** The collaborators of the endpoints; [temperature] is the default
    [0.7] of [generate_response]. *)
Record Env := {
  vertex : Vertex.Env float rng (payload float);
  vertex_available : bool;
  temperature : float;
  client : Elastic.Client float document;
  api : GitHub.Api;
  stats_api : Analysis.StatsApi;
  true_div : nat -> nat -> float;
  format_score : float -> string
}.

Record world := {
  vertex_calls : list (Vertex.real_call float (payload float));
  rnd : rng;
  es : list (Elastic.es_call float document);
  activity_served : list GitHub.gh_call;
  stats_served : list string
}.

Variable env : Env.

Definition new_vertex_service (w : world)
  : Vertex.state float rng (payload float) :=
  Vertex.init (vertex_available env) (vertex_calls w) (rnd w).

(** [history], the list built from [request.conversation_history]. *)
Definition history_of (request : ChatRequest) : Vertex.history :=
  match conversation_history request with
  | Some messages => map (fun msg => (role msg, content msg)) messages
  | None => []
  end.

(** [chat] *)
Definition chat (request : ChatRequest) (w : world)
  : outcome (ChatResponse float) * world :=
  match Vertex.generate_single_embedding (vertex env) (message request)
          (new_vertex_service w) with
  | (Raise _, s) =>
      (Raise (HTTPException 500 "Failed to process chat request"),
       {| vertex_calls := Vertex.calls s; rnd := Vertex.rnd s; es := es w;
          activity_served := activity_served w;
          stats_served := stats_served w |})
  | (Ok user_embedding, s) =>
      let '(context_data, g) :=
        Gather._gather_context (format_score env)
          (Gather.deployed (client env) (api env)) (message request)
          user_embedding (context_type request) (repo_url request)
          {| Gather.es := es w; Gather.gh := activity_served w |} in
      let '(text, s') :=
        Vertex.generate_response (vertex env) (message request)
          (Some (Gather.formatted_context context_data))
          (Some (history_of request)) 2048 (temperature env) s in
      (Ok {| response := text;
             sources := map gathered (Gather.sources context_data);
             suggestions :=
               _generate_suggestions (message request)
                 (Gather.context_type context_data);
             conversation_id := None |},
       {| vertex_calls := Vertex.calls s'; rnd := Vertex.rnd s';
          es := Gather.es g; activity_served := Gather.gh g;
          stats_served := stats_served w |})
  end.

(** [validate_idea] *)
Definition validate_idea (request : ChatRequest) (w : world)
  : outcome (ChatResponse float) * world :=
  match Vertex.generate_single_embedding (vertex env) (message request)
          (new_vertex_service w) with
  | (Raise _, s) =>
      (Raise (HTTPException 500 "Failed to validate idea"),
       {| vertex_calls := Vertex.calls s; rnd := Vertex.rnd s; es := es w;
          activity_served := activity_served w;
          stats_served := stats_served w |})
  | (Ok idea_embedding, s) =>
      let '(similar_projects, served) :=
        Elastic.search_devpost_projects (client env) (message request)
          (Some idea_embedding) 5 (es w) in
      let '(text, s') :=
        Vertex.generate_idea_validation_response (vertex env)
          (message request) (map ProjectDict similar_projects) s in
      (Ok {| response := text;
             sources :=
               map (fun project =>
                      similar_project (Elastic.Project.title project)
                        (str_take 200 (Elastic.Project.description project)
                         +:+ "...")
                        (Elastic.Project.url project)
                        (Elastic.Project.score project))
                 similar_projects;
             suggestions :=
               ["How can I differentiate my idea from these similar projects?";
                "What technical challenges should I expect?";
                "What technologies would work best for this idea?";
                "How can I validate this idea with potential users?"];
             conversation_id := None |},
       {| vertex_calls := Vertex.calls s'; rnd := Vertex.rnd s';
          es := served; activity_served := activity_served w;
          stats_served := stats_served w |})
  end.

(** The [try] block of [progress_report]. *)
Definition progress_report_body (request : ChatRequest) (w : world)
  : outcome (ChatResponse float) * world :=
  if negb (truthy_opt truthy_str (repo_url request))
  then (Raise (HTTPException 400 "Repository URL is required"), w)
  else
    let s := new_vertex_service w in
    let '(progress_analysis, a) :=
      Analysis.analyze_project_progress (true_div env) (api env)
        (stats_api env) (default "" (repo_url request))
        {| Analysis.activity_served := activity_served w;
           Analysis.stats_served := stats_served w |} in
    let w1 :=
      {| vertex_calls := vertex_calls w; rnd := rnd w; es := es w;
         activity_served := Analysis.activity_served a;
         stats_served := Analysis.stats_served a |} in
    match progress_analysis with
    | Analysis.error detail => (Raise (HTTPException 400 detail), w1)
    | Analysis.analysed p =>
        let '(text, s') :=
          Vertex.generate_progress_summary (vertex env)
            (map ActivityDict (Analysis.recent_activity p)) s in
        (Ok {| response := text;
               sources :=
                 [github_analysis (Analysis.repository p)
                    (Analysis.analysis_period p)
                    (Analysis.total_commits_of (Analysis.commit_analysis_of p))
                    (Analysis.metrics p)];
               suggestions :=
                 ["What should we focus on next?";
                  "Are we on track for the deadline?";
                  "What potential blockers should we address?";
                  "How can we improve our development velocity?"];
               conversation_id := None |},
         {| vertex_calls := Vertex.calls s'; rnd := Vertex.rnd s';
            es := es w;
            activity_served := Analysis.activity_served a;
            stats_served := Analysis.stats_served a |})
    end.

(** [progress_report]: whatever the [try] block raises is caught by
    [except Exception] and raised again with the status 500. *)
Definition progress_report (request : ChatRequest) (w : world)
  : outcome (ChatResponse float) * world :=
  match progress_report_body request w with
  | (Ok answer, w') => (Ok answer, w')
  | (Raise _, w') =>
      (Raise (HTTPException 500 "Failed to generate progress report"), w')
  end.

End Endpoints.

Arguments Env : clear implicits.
Arguments world : clear implicits.

End ChatEndpoints.

(* ===================================================================== *)
(** * github.py: the endpoints *)
(* ===================================================================== *)

Module GitHubEndpoints.

(** ** The payload of an event, as far as [_process_webhook_event] reads
    it.  A field is [None] when its key is missing. *)

Module Branch.
Record t := { ref : option string }.
End Branch.

Module Pull.
Record t := {
  number : option Z;
  title : option string;
  state : option string;
  user : option Webhook.User.t;
  base : option Branch.t;
  head : option Branch.t
}.
End Pull.

Module Event.
Record t := {
  repository : option Webhook.Repository.t;
  created_at : option string;
  updated_at : option string;
  commits : option (list Webhook.Commit.t);
  head_commit : option Webhook.Commit.t;
  action : option string;
  issue : option Webhook.Issue.t;
  pull_request : option Pull.t
}.
End Event.

(** What [activity_doc.update] adds for the three events. *)
Inductive update :=
| no_update
| push_update (action : string) (commit_count : nat)
    (head_id head_message head_author : string)
    (modified_files added_files removed_files : list string)
| issue_update (action : string) (number : Z)
    (title state author : string) (labels : list string)
| pr_update (action : string) (number : Z)
    (title state author base_branch head_branch : string).

(** The [activity_doc] dictionary. *)
Record activity_doc := {
  repository : string;
  event_type : option string;
  timestamp : option string;
  processed_at : string;
  updated : update
}.

(** The body of the answers of [get_repository_activity] and of
    [github_webhook]. *)
Record ActivityResponse := {
  repository_name : string;
  period_days : Z;
  activity : list GitHub.activity;
  total_activities : nat
}.

Record processed := { status : string; event : option string }.

(** [f"{x}"] for a value that may be [None]. *)
Definition format_opt (x : option string) : string :=
  match x with
  | Some s => s
  | None => "None"
  end.

(** [a or b] on two optional strings. *)
Definition or_else (a b : option string) : option string :=
  if truthy_opt truthy_str a then a else b.

(** [f"https://github.com/{owner}/{repo}"] *)
Definition repo_url_of (owner repo : string) : string :=
  "https://github.com/" +:+ owner +:+ "/" +:+ repo.

(** The dictionary [_process_webhook_event] builds for an event. *)
Definition update_of (event_type : option string) (payload : Event.t)
  : update :=
  match event_type with
  | Some e =>
      if String.eqb e "push" then
        let commits := default [] (Event.commits payload) in
        let head_commit := Event.head_commit payload in
        push_update "push" (length commits)
          (default "" (Webhook.get head_commit Webhook.Commit.id))
          (default "" (Webhook.get head_commit Webhook.Commit.message))
          (default ""
             (Webhook.get (Webhook.get head_commit Webhook.Commit.author)
                Webhook.Author.name))
          (default [] (Webhook.get head_commit Webhook.Commit.modified))
          (default [] (Webhook.get head_commit Webhook.Commit.added))
          (default [] (Webhook.get head_commit Webhook.Commit.removed))
      else if String.eqb e "issues" then
        let issue := Event.issue payload in
        let action := default "" (Event.action payload) in
        issue_update ("issue_" +:+ action)
          (default 0 (Webhook.get issue Webhook.Issue.number))
          (default "" (Webhook.get issue Webhook.Issue.title))
          (default "" (Webhook.get issue Webhook.Issue.state))
          (default ""
             (Webhook.get (Webhook.get issue Webhook.Issue.user)
                Webhook.User.login))
          (map (fun label => default "" (Webhook.Label.name label))
             (default [] (Webhook.get issue Webhook.Issue.labels)))
      else if String.eqb e "pull_request" then
        let pr := Event.pull_request payload in
        let action := default "" (Event.action payload) in
        pr_update ("pr_" +:+ action)
          (default 0 (Webhook.get pr Pull.number))
          (default "" (Webhook.get pr Pull.title))
          (default "" (Webhook.get pr Pull.state))
          (default ""
             (Webhook.get (Webhook.get pr Pull.user) Webhook.User.login))
          (default "" (Webhook.get (Webhook.get pr Pull.base) Branch.ref))
          (default "" (Webhook.get (Webhook.get pr Pull.head) Branch.ref))
      else no_update
  | None => no_update
  end.

Definition activity_doc_of (event_type : option string) (payload : Event.t)
  : activity_doc :=
  {| repository :=
       default "unknown"
         (Webhook.get (Event.repository payload)
            Webhook.Repository.full_name);
     event_type := event_type;
     timestamp :=
       or_else (Event.created_at payload) (Event.updated_at payload);
     processed_at := "2024-01-01T00:00:00Z";
     updated := update_of event_type payload |}.

(** [doc_id] *)
Definition doc_id_of (doc : activity_doc) : string :=
  repository doc +:+ "_" +:+ format_opt (event_type doc) +:+ "_"
  +:+ format_opt (timestamp doc).

Section Endpoints.

Context {float : Type}.

Variable true_div : nat -> nat -> float.
Variables (api : GitHub.Api) (stats_api : Analysis.StatsApi).

(** The [try] block of [analyze_repository], and the endpoint. *)
Definition analyze_repository_body (repo_url : string) (w : Analysis.world)
  : outcome (Analysis.progress float) * Analysis.world :=
  let '(analysis, w') :=
    Analysis.analyze_project_progress true_div api stats_api repo_url w in
  match analysis with
  | Analysis.error detail => (Raise (HTTPException 400 detail), w')
  | Analysis.analysed p => (Ok p, w')
  end.

Definition analyze_repository (repo_url : string) (w : Analysis.world)
  : outcome (Analysis.progress float) * Analysis.world :=
  match analyze_repository_body repo_url w with
  | (Ok p, w') => (Ok p, w')
  | (Raise _, w') =>
      (Raise (HTTPException 500 "Failed to analyze repository"), w')
  end.

(** [get_repository_activity] *)
Definition get_repository_activity (owner repo : string) (days : Z)
    (served : list GitHub.gh_call)
  : outcome ActivityResponse * list GitHub.gh_call :=
  let '(activity, served') :=
    GitHub.get_repository_activity api (repo_url_of owner repo) days
      served in
  (Ok {| repository_name := owner +:+ "/" +:+ repo;
         period_days := days;
         activity := activity;
         total_activities := length activity |}, served').

(** The [try] block of [get_repository_stats], and the endpoint. *)
Definition get_repository_stats_body (owner repo : string)
    (w : Analysis.world) : outcome Analysis.Stats.t * Analysis.world :=
  let '(stats, w') :=
    Analysis.get_repository_stats api stats_api (repo_url_of owner repo) w in
  match stats with
  | None =>
      (Raise (HTTPException 404 "Repository not found or inaccessible"), w')
  | Some s => (Ok s, w')
  end.

Definition get_repository_stats (owner repo : string) (w : Analysis.world)
  : outcome Analysis.Stats.t * Analysis.world :=
  match get_repository_stats_body owner repo w with
  | (Ok s, w') => (Ok s, w')
  | (Raise _, w') =>
      (Raise (HTTPException 500 "Failed to get repository stats"), w')
  end.

(** [settings.GITHUB_WEBHOOK_SECRET], the hex digest of
    [hmac.new(key, msg, sha256)], [json.loads(body)] and the cluster. *)
Record Env := {
  GITHUB_WEBHOOK_SECRET : string;
  hmac_sha256_hexdigest : string -> string -> string;
  json_loads : string -> outcome Event.t;
  client : Elastic.Client float activity_doc
}.

Variable env : Env.

Abbreviation es_call := (Elastic.es_call float activity_doc).

(** [_process_webhook_event]: one document, written under [doc_id]. *)
Definition _process_webhook_event (event_type : option string)
    (payload : Event.t) (served : list es_call) : list es_call :=
  let activity_doc := activity_doc_of event_type payload in
  snd (Elastic.index_document (client env) Settings.GITHUB_INDEX
         (doc_id_of activity_doc) activity_doc served).

(** The [try] block of [github_webhook], and the endpoint. *)
Definition github_webhook_body (body : string)
    (signature event_type : option string) (served : list es_call)
  : outcome processed * list es_call :=
  if negb (truthy_opt truthy_str signature)
     || negb (truthy_str (GITHUB_WEBHOOK_SECRET env))
  then (Raise (HTTPException 401 "Unauthorized webhook request"), served)
  else
    let expected_signature :=
      "sha256="
      +:+ hmac_sha256_hexdigest env (GITHUB_WEBHOOK_SECRET env) body in
    if negb (String.eqb (default "" signature) expected_signature)
    then (Raise (HTTPException 401 "Invalid webhook signature"), served)
    else
      match json_loads env body with
      | Raise e => (Raise e, served)
      | Ok payload =>
          (Ok {| status := "processed"; event := event_type |},
           _process_webhook_event event_type payload served)
      end.

Definition github_webhook (body : string)
    (signature event_type : option string) (served : list es_call)
  : outcome processed * list es_call :=
  match github_webhook_body body signature event_type served with
  | (Ok answer, served') => (Ok answer, served')
  | (Raise _, served') =>
      (Raise (HTTPException 500 "Failed to process webhook"), served')
  end.

End Endpoints.

Arguments Env : clear implicits.

End GitHubEndpoints.

(* ===================================================================== *)
(** * vertex_service.py: the real service *)
(* ===================================================================== *)

Module RealVertex.

Definition system_prompt : string :=
  "You are an expert AI-powered Hackathon Agent designed to help teams excel in hackathons. You are knowledgeable about:

1. Hackathon best practices and winning strategies
2. Google Cloud services (Vertex AI, Cloud Run, BigQuery, etc.)
3. Elastic search and hybrid search capabilities
4. Software development and project management
5. Presentation and pitching techniques
6. Technical implementation and architecture decisions

Your role is to:
- Provide helpful, accurate, and actionable advice based on retrieved information
- Help validate project ideas by analyzing similar past projects
- Answer questions about hackathon rules and partner technologies using official documentation
- Assist with progress tracking using real-time GitHub data
- Help create compelling presentations and pitches
- Always cite your sources when providing information

IMPORTANT INSTRUCTIONS:
- When provided with relevant information from documentation, projects, or GitHub activity, USE IT to inform your responses
- Be specific and reference the retrieved information directly
- If similar projects exist, help differentiate the user's idea
- Always be encouraging while being honest about challenges
- Provide actionable next steps and specific recommendations
- Format responses clearly with headers, bullet points, and emojis for better readability".

(** The two parts of the prompt of [generate_idea_validation_response],
    around the description of the idea, and the prompt of
    [generate_progress_summary]. *)
Definition idea_prompt_before : string :=
  "
Please analyze this hackathon project idea and provide validation feedback:

Project Idea: ".

Definition idea_prompt_after : string :=
  "

Based on the similar projects found, please provide:
1. Originality assessment (is this idea unique enough?)
2. Potential challenges and pitfalls to avoid
3. Suggestions for differentiation
4. Technical feasibility assessment
5. Recommendations for improvement

Be constructive and encouraging while being honest about potential issues.
".

Definition progress_prompt : string :=
  "
Based on the recent GitHub activity, please provide a comprehensive progress summary including:

1. Key accomplishments and milestones reached
2. Current development focus areas
3. Potential blockers or challenges
4. Recommendations for next steps
5. Overall project health assessment

Be specific about the technical progress and provide actionable insights.
".

Definition apology : string :=
  "I apologize, but I'm having trouble generating a response right now. Please try again.".

Definition idea_apology : string :=
  "I'm having trouble analyzing your idea right now. Please try again.".

Definition progress_apology : string :=
  "I'm having trouble analyzing your progress right now. Please try again.".

Section Service.

Context {float : Type}.

Abbreviation dict := (ChatEndpoints.payload float).
Abbreviation real_call := (Vertex.real_call float dict).

(** The [generation_config] dictionaries: the one of [health_check]
    (10 tokens, temperature 0.1) and the one of [generate_response]
    (with [top_p] 0.95 and [top_k] 40). *)
Inductive generation_config :=
| ProbeConfig
| ResponseConfig (max_output_tokens : Z) (temperature : float).

(** The models of the SDK, each answering from the requests the service
    has received; [generate_content] gives the [text] of the response.
    With them the two settings the service reads, the truth value of a
    float and the [:.2f] format. *)
Record Sdk := {
  generate_content :
    list real_call -> string -> generation_config -> outcome string;
  get_embeddings :
    list real_call -> list string -> outcome (list (list float));
  MAX_TOKENS : Z;
  TEMPERATURE : float;
  truthy_float : float -> bool;
  format_score : float -> string
}.

Variable sdk : Sdk.

(** [health_check] *)
Definition health_check (served : list real_call) : bool :=
  match generate_content sdk served "Hello" ProbeConfig with
  | Ok text => truthy_str text
  | Raise _ => false
  end.

(** [generate_embeddings] *)
Definition generate_embeddings (served : list real_call)
    (texts : list string) : list (list float) :=
  match get_embeddings sdk served texts with
  | Ok embeddings => embeddings
  | Raise _ => []
  end.

(** [generate_single_embedding] *)
Definition generate_single_embedding (served : list real_call)
    (text : string) : list float :=
  match generate_embeddings served [text] with
  | [] => []
  | embedding :: _ => embedding
  end.

(** The lines [_build_prompt] adds for the conversation history. *)
Definition history_lines (conversation_history : Vertex.history)
  : list string :=
  map (fun msg => capitalize (fst msg) +:+ ": " +:+ snd msg)
    (last_items 5 conversation_history).

(** [_build_prompt] *)
Definition _build_prompt (user_query : string) (context : option string)
    (conversation_history : option Vertex.history) : string :=
  let prompt_parts := [system_prompt] in
  let prompt_parts :=
    if truthy_opt truthy_list conversation_history
    then prompt_parts ++ [nl +:+ "--- Conversation History ---"]
         ++ history_lines (default [] conversation_history)
    else prompt_parts in
  let prompt_parts :=
    if truthy_opt truthy_str context
    then prompt_parts
         ++ [nl +:+ "--- Relevant Information ---" +:+ nl
             +:+ default "" context]
    else prompt_parts in
  join nl
    (prompt_parts
     ++ [nl +:+ "--- Current Question ---" +:+ nl +:+ "User: "
         +:+ user_query;
         nl +:+ "Assistant:"]).

(** [generate_response]; [max_tokens] and [temperature] are [None] when
    the caller leaves them out. *)
Definition generate_response (served : list real_call) (prompt : string)
    (context : option string) (conversation_history : option Vertex.history)
    (max_tokens : option Z) (temperature : option float) : string :=
  let full_prompt := _build_prompt prompt context conversation_history in
  let generation_config :=
    ResponseConfig
      (match max_tokens with
       | Some n => if n =? 0 then MAX_TOKENS sdk else n
       | None => MAX_TOKENS sdk
       end)
      (match temperature with
       | Some t => if truthy_float sdk t then t else TEMPERATURE sdk
       | None => TEMPERATURE sdk
       end) in
  match generate_content sdk served full_prompt generation_config with
  | Ok text => strip text
  | Raise _ => apology
  end.

(** One entry of [_format_similar_projects]; a dictionary without the
    keys of a project gets the defaults of [get]. *)
Definition project_entry (i : nat) (project : dict) : string :=
  match project with
  | ChatEndpoints.ProjectDict p =>
      nl +:+ pretty i +:+ ". " +:+ Elastic.Project.title p +:+ nl
      +:+ "   Description: "
      +:+ str_take 200 (Elastic.Project.description p) +:+ "..." +:+ nl
      +:+ "   Technologies: "
      +:+ join ", " (Elastic.Project.technologies p) +:+ nl
      +:+ "   Category: " +:+ Elastic.Project.category p +:+ nl
      +:+ "   Year: " +:+ Elastic.Project.year p +:+ nl
      +:+ "   Relevance Score: "
      +:+ format_score sdk (Elastic.Project.score p) +:+ nl
  | ChatEndpoints.ActivityDict _ =>
      nl +:+ pretty i +:+ ". " +:+ "Unknown Title" +:+ nl
      +:+ "   Description: " +:+ "No description" +:+ "..." +:+ nl
      +:+ "   Technologies: " +:+ "" +:+ nl
      +:+ "   Category: " +:+ "Unknown" +:+ nl
      +:+ "   Year: " +:+ "Unknown" +:+ nl
      +:+ "   Relevance Score: " +:+ "0.00" +:+ nl
  end.

(** The entries for [enumerate(projects, i)]. *)
Fixpoint project_entries (i : nat) (projects : list dict) : list string :=
  match projects with
  | [] => []
  | project :: projects' =>
      project_entry i project :: project_entries (S i) projects'
  end.

(** [_format_similar_projects] *)
Definition _format_similar_projects (projects : list dict) : string :=
  if truthy_list projects
  then join nl
         ("Similar Projects Found:" :: project_entries 1 (take 3 projects))
  else "No similar projects found in the database.".

(** One entry of [_format_github_activity]. *)
Definition activity_entry (item : dict) : string :=
  match item with
  | ChatEndpoints.ActivityDict a =>
      nl +:+ "- " +:+ GitHub.type a +:+ ": " +:+ GitHub.message a +:+ nl
      +:+ "  Author: " +:+ GitHub.author a +:+ nl
      +:+ "  Time: " +:+ GitHub.timestamp a +:+ nl
      +:+ "  Files: " +:+ join ", " (take 3 (Analysis.files_of a)) +:+ nl
  | ChatEndpoints.ProjectDict _ =>
      nl +:+ "- " +:+ "Unknown" +:+ ": " +:+ "No message" +:+ nl
      +:+ "  Author: " +:+ "Unknown" +:+ nl
      +:+ "  Time: " +:+ "Unknown" +:+ nl
      +:+ "  Files: " +:+ "" +:+ nl
  end.

(** [_format_github_activity] *)
Definition _format_github_activity (activity : list dict) : string :=
  if truthy_list activity
  then join nl
         ("Recent GitHub Activity:" :: map activity_entry (take 10 activity))
  else "No recent GitHub activity found.".

(** [generate_idea_validation_response] *)
Definition generate_idea_validation_response (served : list real_call)
    (idea_description : string) (similar_projects : list dict) : string :=
  let context := _format_similar_projects similar_projects in
  let prompt :=
    idea_prompt_before +:+ idea_description +:+ idea_prompt_after in
  generate_response served prompt (Some context) None None None.

(** [generate_progress_summary] *)
Definition generate_progress_summary (served : list real_call)
    (github_activity : list dict) : string :=
  let context := _format_github_activity github_activity in
  generate_response served progress_prompt (Some context) None None None.

(** The service as the facade of [smart_vertex_service.py] calls it.
    None of its methods raises; it has no method
    [build_comprehensive_prompt], so that call raises. *)
Definition service : Vertex.RealService float dict :=
  {| Vertex.real_health_check served := Ok (health_check served);
     Vertex.real_generate_embeddings served texts :=
       Ok (generate_embeddings served texts);
     Vertex.real_generate_single_embedding served text :=
       Ok (generate_single_embedding served text);
     Vertex.real_generate_response served prompt context
       conversation_history max_tokens temperature :=
       Ok (generate_response served prompt context conversation_history
             (Some max_tokens) (Some temperature));
     Vertex.real_generate_idea_validation_response served idea_description
       similar_projects :=
       Ok (generate_idea_validation_response served idea_description
             similar_projects);
     Vertex.real_generate_progress_summary served github_activity :=
       Ok (generate_progress_summary served github_activity);
     Vertex.real_build_comprehensive_prompt _ _ _ _ _ :=
       Raise (Error "AttributeError") |}.

End Service.

Arguments Sdk : clear implicits.
Arguments generation_config : clear implicits.

End RealVertex.

(* ===================================================================== *)
(** * health.py and config.py *)
(* ===================================================================== *)

Module Health.

(** The value stored under a service in [details]. *)
Inductive detail :=
| cluster_status (colour : string)
| model_available (b : bool)
| api_accessible (b : bool)
| error_text (e : exn).

Record HealthResponse := {
  status : string;
  services : list (string * string);
  details : list (string * detail)
}.

(** What the checks reach: the constructors [ElasticService()] and
    [GitHubService()], the [status] of [client.cluster.health()],
    whether a token is configured, and the [login] of
    [github.get_user()]. *)
Record Probes := {
  new_elastic_service : outcome unit;
  cluster_health_status : outcome string;
  new_github_service : outcome unit;
  github_token : bool;
  user_login : outcome string
}.

(** [ElasticService.health_check] *)
Definition elastic_health_check (p : Probes) : bool :=
  match cluster_health_status p with
  | Ok colour => String.eqb colour "green" || String.eqb colour "yellow"
  | Raise _ => false
  end.

(** [GitHubService.health_check] *)
Definition github_health_check (p : Probes) : bool :=
  if negb (github_token p) then false
  else
    match user_login p with
    | Ok login => truthy_str login
    | Raise _ => false
    end.

(** ["healthy" if health else "unhealthy"] *)
Definition status_of (health : bool) : string :=
  if health then "healthy" else "unhealthy".

Section Endpoint.

Context {float rng dict : Type}.
Variable vertex : Vertex.Env float rng dict.
Variable vertex_available : bool.
Variable probes : Probes.

(** [health_check] of [health.py], from the requests the real Vertex AI
    service has served and the state of [random]. *)
Definition health_check (served : list (Vertex.real_call float dict))
    (g : rng) : outcome HealthResponse :=
  let elastic :=
    match new_elastic_service probes with
    | Ok _ =>
        let elastic_health := elastic_health_check probes in
        (status_of elastic_health,
         cluster_status (if elastic_health then "green" else "red"))
    | Raise e => ("error", error_text e)
    end in
  let vertex_ai :=
    let vertex_health :=
      fst (Vertex.health_check vertex
             (Vertex.init vertex_available served g)) in
    (status_of vertex_health, model_available vertex_health) in
  let github :=
    match new_github_service probes with
    | Ok _ =>
        let github_health := github_health_check probes in
        (status_of github_health, api_accessible github_health)
    | Raise e => ("error", error_text e)
    end in
  let services_status :=
    [("elasticsearch", fst elastic); ("vertex_ai", fst vertex_ai);
     ("github", fst github)] in
  let overall_status :=
    if any (fun status =>
              String.eqb status "error" || String.eqb status "unhealthy")
         (map snd services_status)
    then "degraded" else "healthy" in
  Ok {| status := overall_status;
        services := services_status;
        details :=
          [("elasticsearch", snd elastic); ("vertex_ai", snd vertex_ai);
           ("github", snd github)] |}.

End Endpoint.

End Health.

Module Config.

(** The character [,]. *)
Definition comma : Ascii.ascii := Ascii.ascii_of_nat 44.

(** [cors_origins_list] *)
Definition cors_origins_list (CORS_ORIGINS : string) : list string :=
  map strip (split comma CORS_ORIGINS).

(** How many times the character [c] occurs in [s]. *)
Fixpoint count_char (c : Ascii.ascii) (s : string) : nat :=
  match s with
  | EmptyString => 0%nat
  | String c' s' =>
      if Ascii.eqb c' c then S (count_char c s') else count_char c s'
  end.

(** The first and the last character of a string. *)
Definition first_char (s : string) : option Ascii.ascii :=
  match s with
  | EmptyString => None
  | String c _ => Some c
  end.

Fixpoint last_char (s : string) : option Ascii.ascii :=
  match s with
  | EmptyString => None
  | String c EmptyString => Some c
  | String _ s' => last_char s'
  end.

End Config.

(* ===================================================================== *)
(** * Concrete collaborators, for the examples *)
(* ===================================================================== *)

Module Examples.

(** Floats are integers here, the state of [random] is a counter, and a
    [Dict[str, Any]] carries nothing. *)

Definition render (r : Vertex.fallback_reply) : string :=
  match r with
  | Vertex.IdeaValidationAnalysis score snippet n =>
      "Idea Validation Analysis " +:+ pretty score +:+ " " +:+ snippet
      +:+ " " +:+ pretty n
  | Vertex.HybridSearchGuide => "Implementing Hybrid Search"
  | Vertex.TechnicalDocumentation q => "Technical Documentation " +:+ q
  | Vertex.DevelopmentProgressAnalysis => "Development Progress Analysis"
  | Vertex.PitchDeckStructure => "Pitch Deck Structure"
  | Vertex.AssistantOverview q => "Hackathon Agent Assistant " +:+ q
  end.

(** A real service that answers, but with degenerate values: a text of
    five characters and no embedding. *)
Definition terse : Vertex.RealService Z unit :=
  {| Vertex.real_health_check _ := Ok true;
     Vertex.real_generate_embeddings _ _ := Ok [];
     Vertex.real_generate_single_embedding _ _ := Ok [];
     Vertex.real_generate_response _ _ _ _ _ _ := Ok "short";
     Vertex.real_generate_idea_validation_response _ _ _ := Ok "fine";
     Vertex.real_generate_progress_summary _ _ := Ok "fine";
     Vertex.real_build_comprehensive_prompt _ q _ _ _ := Ok q |}.

(** A real service that answers every request properly. *)
Definition fluent : Vertex.RealService Z unit :=
  {| Vertex.real_health_check _ := Ok true;
     Vertex.real_generate_embeddings _ texts := Ok (map (fun _ => [1; 2]) texts);
     Vertex.real_generate_single_embedding _ _ := Ok [1; 2];
     Vertex.real_generate_response _ _ _ _ _ _ :=
       Ok "A long enough answer.";
     Vertex.real_generate_idea_validation_response _ _ _ := Ok "fine";
     Vertex.real_generate_progress_summary _ _ := Ok "fine";
     Vertex.real_build_comprehensive_prompt _ q _ _ _ := Ok q |}.

Definition interpreter (real : Vertex.RealService Z unit)
  : Vertex.Env Z Z unit :=
  {| Vertex.real := real;
     Vertex.hash text := Z.of_nat (String.length text);
     Vertex.random_seed n := n;
     Vertex.random_uniform g := (g, g + 1);
     Vertex.random_randint low high g := (low, g + 1);
     Vertex.render := render |}.

(** A facade in the state REAL, and one with the fallback active. *)
Definition facade_real : Vertex.state Z Z unit := Vertex.init true [] 0.

Definition facade_fallback : Vertex.state Z Z unit :=
  Vertex.set_fallback_active true facade_real.


(** Clusters.  [answering] accepts every request and finds one document;
    [lexical_only] refuses every search but the pure lexical one;
    [down] refuses everything. *)

Definition stored_guide : Elastic.Stored.t :=
  {| Elastic.Stored.title := Some "Hybrid search";
     Elastic.Stored.description := Some "Lexical and vector search";
     Elastic.Stored.url := Some "https://example.org/guide";
     Elastic.Stored.technologies := Some ["elastic"];
     Elastic.Stored.category := Some "search";
     Elastic.Stored.year := Some "2024";
     Elastic.Stored.content := Some "Combine BM25 with kNN.";
     Elastic.Stored.section := Some "guide";
     Elastic.Stored.source := Some "docs" |}.

Definition one_hit : Elastic.response Z :=
  {| Elastic.hits_hits :=
       [{| Elastic._source := stored_guide; Elastic._score := 5 |}];
     Elastic.hits_total_value := Some 1;
     Elastic.hits_max_score := Some 5 |}.

Definition answering {document : Type} : Elastic.Client Z document :=
  {| Elastic.client_search _ _ _ := Ok one_hit;
     Elastic.client_index _ _ _ _ := Ok tt;
     Elastic.zero := 0 |}.

Definition lexical_only {document : Type} : Elastic.Client Z document :=
  {| Elastic.client_search _ _ body :=
       match body with
       | Elastic.MultiMatchQuery _ _ _ _ => Ok one_hit
       | _ => Raise (Error "search_phase_execution_exception")
       end;
     Elastic.client_index _ _ _ _ := Ok tt;
     Elastic.zero := 0 |}.

Definition down {document : Type} : Elastic.Client Z document :=
  {| Elastic.client_search _ _ _ := Raise (Error "ConnectionError");
     Elastic.client_index _ _ _ _ := Raise (Error "ConnectionError");
     Elastic.zero := 0 |}.

(** A GitHub API that finds one commit, and one that is unreachable. *)
Definition one_commit : GitHub.activity :=
  {| GitHub.type := "commit"; GitHub.message := "Add search";
     GitHub.author := "dev"; GitHub.timestamp := "2024-10-24T12:00:00";
     GitHub.url := "https://github.com/o/r/commit/abc";
     GitHub.more := GitHub.CommitDetails "abc" ["main.py"] |}.

Definition github_up : GitHub.Api :=
  {| GitHub.github := true;
     GitHub.repo_activity _ _ _ := Ok [one_commit] |}.

Definition github_down : GitHub.Api :=
  {| GitHub.github := true;
     GitHub.repo_activity _ _ _ := Raise (Error "RateLimitExceeded") |}.

Definition nothing_served {document : Type} : Gather.world Z document :=
  {| Gather.es := []; Gather.gh := [] |}.


(** The collaborators of the search endpoint. *)
Definition search_env : Search.Env Z Z unit unit :=
  {| Search.vertex := interpreter fluent;
     Search.vertex_available := true;
     Search.client := answering;
     Search.float_leb := Z.leb |}.

Definition search_world : Search.world Z Z unit unit :=
  {| Search.vertex_calls := []; Search.rnd := 0; Search.es := [] |}.

Definition search_everywhere : Search.SearchRequest :=
  {| Search.query := "hybrid search"; Search.search_type := "hybrid";
     Search.index := None; Search.size := 10 |}.


(** A push of two commits made at the same time to one repository. *)
Definition commit_at (id time : string) : Webhook.Commit.t :=
  {| Webhook.Commit.id := Some id;
     Webhook.Commit.message := Some "Add search";
     Webhook.Commit.author :=
       Some {| Webhook.Author.name := Some "dev";
               Webhook.Author.email := Some "dev@example.org" |};
     Webhook.Commit.timestamp := Some time;
     Webhook.Commit.url := None;
     Webhook.Commit.added := Some ["main.py"];
     Webhook.Commit.modified := None;
     Webhook.Commit.removed := None |}.

Definition push_payload : Webhook.Payload.t :=
  {| Webhook.Payload.action := None;
     Webhook.Payload.repository :=
       Some {| Webhook.Repository.full_name := Some "o/r";
               Webhook.Repository.html_url :=
                 Some "https://github.com/o/r" |};
     Webhook.Payload.commits :=
       Some [commit_at "a1" "2024-10-24T12:00:00Z";
             commit_at "b2" "2024-10-24T12:00:00Z"];
     Webhook.Payload.pusher := Some {| Webhook.Pusher.name := Some "dev" |};
     Webhook.Payload.pull_request := None;
     Webhook.Payload.issue := None |}.

(** A deployment with the secret [s3cret]; the digest is a stand-in. *)
Definition webhook_env : Webhook.Env Z :=
  {| Webhook.GITHUB_WEBHOOK_SECRET := "s3cret";
     Webhook.hmac_sha256_hexdigest key msg := key +:+ ":" +:+ msg;
     Webhook.json_loads _ := Ok push_payload;
     Webhook.client := answering |}.


(** An API that knows the repository but finds no activity, statistics of
    a repository with two contributors, and an API without them. *)
Definition github_idle : GitHub.Api :=
  {| GitHub.github := true; GitHub.repo_activity _ _ _ := Ok [] |}.

Definition two_contributors : Analysis.Repo.t :=
  {| Analysis.Repo.name := "r";
     Analysis.Repo.description := None;
     Analysis.Repo.stargazers_count := 3;
     Analysis.Repo.forks_count := 0;
     Analysis.Repo.open_issues_count := 12;
     Analysis.Repo.languages := [("Python", 1000)];
     Analysis.Repo.contributors :=
       [{| Analysis.Contributor.login := "a";
           Analysis.Contributor.contributions := 5;
           Analysis.Contributor.avatar_url := "" |};
        {| Analysis.Contributor.login := "b";
           Analysis.Contributor.contributions := 2;
           Analysis.Contributor.avatar_url := "" |}];
     Analysis.Repo.releases := [];
     Analysis.Repo.created_at := "2024-10-01T00:00:00";
     Analysis.Repo.updated_at := "2024-10-24T12:00:00";
     Analysis.Repo.default_branch := "main" |}.

Definition stats_up : Analysis.StatsApi :=
  {| Analysis.repo_details _ _ := Ok two_contributors |}.


Definition nothing_analysed : Analysis.world :=
  {| Analysis.activity_served := []; Analysis.stats_served := [] |}.


(** The collaborators of the chat endpoints: no real Vertex AI service
    is available, the cluster finds one document, the API one commit. *)
Definition chat_service : Vertex.RealService Z (ChatEndpoints.payload Z) :=
  {| Vertex.real_health_check _ := Ok true;
     Vertex.real_generate_embeddings _ texts :=
       Ok (map (fun _ => [1; 2]) texts);
     Vertex.real_generate_single_embedding _ _ := Ok [1; 2];
     Vertex.real_generate_response _ _ _ _ _ _ :=
       Ok "A long enough answer.";
     Vertex.real_generate_idea_validation_response _ _ _ := Ok "fine";
     Vertex.real_generate_progress_summary _ _ := Ok "fine";
     Vertex.real_build_comprehensive_prompt _ q _ _ _ := Ok q |}.

Definition chat_env : ChatEndpoints.Env Z Z unit :=
  {| ChatEndpoints.vertex :=
       {| Vertex.real := chat_service;
          Vertex.hash text := Z.of_nat (String.length text);
          Vertex.random_seed n := n;
          Vertex.random_uniform g := (g, g + 1);
          Vertex.random_randint low high g := (low, g + 1);
          Vertex.render := render |};
     ChatEndpoints.vertex_available := false;
     ChatEndpoints.temperature := 7;
     ChatEndpoints.client := answering;
     ChatEndpoints.api := github_up;
     ChatEndpoints.stats_api := stats_up;
     ChatEndpoints.true_div n m := Z.of_nat n;
     ChatEndpoints.format_score := pretty |}.

Definition chat_world : ChatEndpoints.world Z Z unit :=
  {| ChatEndpoints.vertex_calls := []; ChatEndpoints.rnd := 0;
     ChatEndpoints.es := []; ChatEndpoints.activity_served := [];
     ChatEndpoints.stats_served := [] |}.

Definition ask (message : string) (repo_url : option string)
  : ChatEndpoints.ChatRequest :=
  {| ChatEndpoints.message := message;
     ChatEndpoints.conversation_history := Some [];
     ChatEndpoints.repo_url := repo_url;
     ChatEndpoints.context_type := None |}.





(** An SDK whose models are unreachable, the facade over the real
    service that uses it, and the chat endpoints over that facade. *)
Definition unreachable_sdk : RealVertex.Sdk Z :=
  {| RealVertex.generate_content _ _ _ := Raise (Error "ServiceUnavailable");
     RealVertex.get_embeddings _ _ := Raise (Error "ServiceUnavailable");
     RealVertex.MAX_TOKENS := 2048;
     RealVertex.TEMPERATURE := 7;
     RealVertex.truthy_float t := negb (t =? 0);
     RealVertex.format_score := pretty |}.

Definition own_vertex : Vertex.Env Z Z (ChatEndpoints.payload Z) :=
  {| Vertex.real := RealVertex.service unreachable_sdk;
     Vertex.hash text := Z.of_nat (String.length text);
     Vertex.random_seed n := n;
     Vertex.random_uniform g := (g, g + 1);
     Vertex.random_randint low high g := (low, g + 1);
     Vertex.render := render |}.

Definition own_chat_env : ChatEndpoints.Env Z Z unit :=
  {| ChatEndpoints.vertex := own_vertex;
     ChatEndpoints.vertex_available := true;
     ChatEndpoints.temperature := 7;
     ChatEndpoints.client := answering;
     ChatEndpoints.api := github_up;
     ChatEndpoints.stats_api := stats_up;
     ChatEndpoints.true_div n m := Z.of_nat n;
     ChatEndpoints.format_score := pretty |}.

(** Six messages of a conversation. *)
Definition six_messages : Vertex.history :=
  [("user", "one"); ("assistant", "two"); ("user", "three");
   ("assistant", "four"); ("user", "five"); ("assistant", "six")].



Definition chat_env_down : ChatEndpoints.Env Z Z unit :=
  {| ChatEndpoints.vertex := ChatEndpoints.vertex chat_env;
     ChatEndpoints.vertex_available := false;
     ChatEndpoints.temperature := 7;
     ChatEndpoints.client := down;
     ChatEndpoints.api := github_up;
     ChatEndpoints.stats_api := stats_up;
     ChatEndpoints.true_div n m := Z.of_nat n;
     ChatEndpoints.format_score := pretty |}.

End Examples.

(* ===================================================================== *)
(** * Properties *)
(* ===================================================================== *)

(** ** Strings and lists *)

Module PyFacts.

Lemma app_String (c : Ascii.ascii) (s t : string) :
  String c s +:+ t = String c (s +:+ t).
Proof. reflexivity. Qed.

Lemma app_empty_r (s : string) : s +:+ "" = s.
Proof.
  induction s as [|c s IH]; [reflexivity|]. rewrite app_String. congruence.
Qed.

Lemma app_assoc (s t u : string) : (s +:+ t) +:+ u = s +:+ t +:+ u.
Proof.
  induction s as [|c s IH]; [reflexivity|]. rewrite !app_String. congruence.
Qed.

Lemma startswith_spec (p s : string) :
  startswith p s = true <-> exists suf, s = p +:+ suf.
Proof.
  revert s. induction p as [|a p IH]; intros s; simpl.
  - split; [intros _; exists s; reflexivity | reflexivity].
  - destruct s as [|b s].
    + split; [discriminate | intros [suf H]; discriminate].
    + rewrite andb_true_iff, Ascii.eqb_eq, IH. split.
      * intros [-> [suf ->]]. exists suf. reflexivity.
      * intros [suf H]. injection H as -> ->. eauto.
Qed.

Lemma str_in_spec (sub s : string) : str_in sub s = true <-> Occurs sub s.
Proof.
  unfold Occurs. induction s as [|c s IH].
  - simpl. rewrite orb_false_r, startswith_spec. split.
    + intros [suf H]. exists "", suf. exact H.
    + intros [pre [suf H]]. destruct pre; [eauto | discriminate].
  - cbn [str_in]. rewrite orb_true_iff, IH, startswith_spec. split.
    + intros [[suf H] | [pre [suf H]]].
      * exists "", suf. exact H.
      * exists (String c pre), suf. rewrite H. reflexivity.
    + intros [pre [suf H]]. destruct pre as [|a pre].
      * left. exists suf. exact H.
      * right. injection H as -> ->. eauto.
Qed.

Lemma any_spec {A} (p : A -> bool) (l : list A) :
  any p l = true <-> exists x, x ∈ l /\ p x = true.
Proof.
  unfold any. rewrite existsb_exists. split; intros [x [H1 H2]]; exists x.
  - split; [apply list_elem_of_In; exact H1 | exact H2].
  - split; [apply list_elem_of_In; exact H1 | exact H2].
Qed.

Section SortFacts.
Context {A K : Type} (leb : K -> K -> bool) (key : A -> K).

Lemma insert_reverse_perm (x : A) (l : list A) :
  insert_reverse leb key x l ≡ₚ x :: l.
Proof.
  induction l as [|y l IH]; simpl; [reflexivity|].
  destruct (leb (key y) (key x)); [reflexivity|].
  rewrite IH. apply Permutation_swap.
Qed.

Lemma sort_reverse_perm (l : list A) : sort_reverse leb key l ≡ₚ l.
Proof.
  induction l as [|x l IH]; simpl; [reflexivity|].
  rewrite insert_reverse_perm, IH. reflexivity.
Qed.

Lemma sort_reverse_length (l : list A) :
  length (sort_reverse leb key l) = length l.
Proof. apply Permutation_length, sort_reverse_perm. Qed.

Hypothesis leb_total : forall a b, leb a b = true \/ leb b a = true.

Lemma insert_reverse_sorted (x : A) (l : list A) :
  Sorted (before leb key) l -> Sorted (before leb key) (insert_reverse leb key x l).
Proof.
  induction 1 as [|y l Hl IH Hhd]; simpl.
  - repeat constructor.
  - destruct (leb (key y) (key x)) eqn:E.
    + constructor; [constructor; assumption|]. constructor. exact E.
    + constructor; [exact IH|].
      destruct Hhd as [|z l Hz]; simpl.
      * constructor. unfold before.
        destruct (leb_total (key x) (key y)) as [H|H]; [exact H | congruence].
      * destruct (leb (key z) (key x)); constructor; [|exact Hz].
        unfold before.
        destruct (leb_total (key x) (key y)) as [H|H]; [exact H | congruence].
Qed.

Lemma sort_reverse_sorted (l : list A) : Sorted (before leb key) (sort_reverse leb key l).
Proof.
  induction l as [|x l IH]; simpl; [constructor|].
  apply insert_reverse_sorted, IH.
Qed.

Lemma Sorted_take (R : A -> A -> Prop) (n : nat) (l : list A) :
  Sorted R l -> Sorted R (take n l).
Proof.
  intros H. revert n. induction H as [|x l Hl IH Hhd]; intros [|n]; simpl;
    try constructor.
  - apply IH.
  - destruct Hhd; destruct n; simpl; constructor. assumption.
Qed.

End SortFacts.

End PyFacts.

(** ** The intent classifier *)

Module ChatFacts.
Import Chat PyFacts.

Lemma any_keyword (keywords : list string) (message : string) :
  any (fun keyword => str_in keyword (lower message)) keywords = true
  <-> Mentions keywords message.
Proof.
  rewrite any_spec. unfold Mentions.
  split; intros [k [H1 H2]]; exists k; split; try exact H1;
    apply str_in_spec; exact H2.
Qed.

Lemma no_keyword (keywords : list string) (message : string) :
  any (fun keyword => str_in keyword (lower message)) keywords = false
  <-> ~ Mentions keywords message.
Proof.
  rewrite <- any_keyword.
  destruct (any _ keywords); split; intros H; try reflexivity;
    try discriminate; try (intros H'; discriminate).
  exfalso. apply H. reflexivity.
Qed.

(** C4. The classifier is a function of the message alone, and it checks
    the categories in a fixed order: a message that mentions an
    idea-validation keyword is [idea_validation], whatever else it
    mentions (in particular when it also mentions a progress keyword);
    otherwise a message that mentions a progress keyword is [progress];
    otherwise a message that mentions a documentation keyword is
    [documentation]; a message that mentions none is [general]. *)
Theorem detect_context_type_priority (message : string) :
  (Mentions idea_keywords message ->
   _detect_context_type message = "idea_validation") /\
  (~ Mentions idea_keywords message ->
   Mentions progress_keywords message ->
   _detect_context_type message = "progress") /\
  (~ Mentions idea_keywords message ->
   ~ Mentions progress_keywords message ->
   Mentions documentation_keywords message ->
   _detect_context_type message = "documentation") /\
  (~ Mentions idea_keywords message ->
   ~ Mentions progress_keywords message ->
   ~ Mentions documentation_keywords message ->
   _detect_context_type message = "general") /\
  (Mentions idea_keywords message ->
   Mentions progress_keywords message ->
   _detect_context_type message = "idea_validation").
Proof.
  unfold _detect_context_type.
  repeat split; intros;
    repeat match goal with
      | H : Mentions _ _ |- _ => apply any_keyword in H; rewrite H
      | H : ~ Mentions _ _ |- _ => apply no_keyword in H; rewrite H
      end; reflexivity.
Qed.

(** The priority at work: both an idea keyword and a progress keyword. *)
Lemma detect_context_type_priority_witness :
  _detect_context_type "Is my IDEA still on track? Check the commit log"
  = "idea_validation".
Proof.
  apply (proj2 (proj2 (proj2 (proj2
    (detect_context_type_priority
       "Is my IDEA still on track? Check the commit log"))))).
  - exists "idea". split; [set_solver|].
    exists "is my ", " still on track? check the commit log". reflexivity.
  - exists "commit". split; [set_solver|].
    exists "is my idea still on track? check the ", " log". reflexivity.
Defined.

End ChatFacts.

(** ** The generation facade *)

Module VertexFacts.
Import Vertex.

Section Facts.
Context {float rng dict : Type} (env : Env float rng dict).

Implicit Types s : state float rng dict.

Lemma set_rnd_rnd s : set_rnd (rnd s) s = s.
Proof. destruct s; reflexivity. Qed.

Lemma set_rnd_set_rnd (g1 g2 : rng) s :
  set_rnd g2 (set_rnd g1 s) = set_rnd g2 s.
Proof. reflexivity. Qed.

Lemma uniforms_length (n : nat) (g : rng) :
  length (fst (uniforms env n g)) = n.
Proof.
  revert g. induction n as [|n IH]; intros g; simpl; [reflexivity|].
  destruct (random_uniform env g) as [x g1].
  specialize (IH g1). destruct (uniforms env n g1) as [xs g2].
  simpl in *. congruence.
Qed.

(** The incoming state of [random] plays no part: each text re-seeds. *)
Lemma fallback_embeddings_map (texts : list string) (g : rng) :
  fst (fallback_embeddings env texts g)
  = map (fun text => fst (fallback_embedding env text)) texts.
Proof.
  revert g. induction texts as [|text texts IH]; intros g; simpl;
    [reflexivity|].
  destruct (fallback_embedding env text) as [e g1].
  specialize (IH g1). destruct (fallback_embeddings env texts g1) as [es g2].
  simpl in *. congruence.
Qed.

(** The test that guards the real path. *)
Lemma guard_off s :
  real_service s = false \/ fallback_active s = true ->
  real_service s && negb (fallback_active s) = false.
Proof. intros [-> | ->]; [reflexivity | apply andb_false_r]. Qed.

Lemma generate_embeddings_off (texts : list string) s :
  real_service s = false \/ fallback_active s = true ->
  generate_embeddings env texts s = use_fallback_embeddings env texts s.
Proof. intros H. unfold generate_embeddings. rewrite (guard_off s H). reflexivity. Qed.

Lemma use_fallback_embeddings_eq (texts : list string) s :
  use_fallback_embeddings env texts s
  = (fst (fallback_embeddings env texts (rnd s)),
     set_rnd (snd (fallback_embeddings env texts (rnd s))) s).
Proof.
  unfold use_fallback_embeddings.
  destruct (fallback_embeddings env texts (rnd s)); reflexivity.
Qed.

Lemma use_fallback_response_eq (prompt : string) (context : option string) s :
  use_fallback_response env prompt context s
  = (fst (_generate_fallback_response env prompt context (rnd s)),
     set_rnd (snd (_generate_fallback_response env prompt context (rnd s))) s).
Proof.
  unfold use_fallback_response.
  destruct (_generate_fallback_response env prompt context (rnd s));
    reflexivity.
Qed.

(** With the fallback active, a generation call is the fallback backend's
    answer, and only the state of [random] moves. *)
Lemma generate_with_fallback_active (g0 : generation float dict) s :
  fallback_active s = true ->
  generate env g0 s
  = (fst (fallback_backend env g0 (rnd s)),
     set_rnd (snd (fallback_backend env g0 (rnd s))) s).
Proof.
  intros H.
  assert (G : real_service s && negb (fallback_active s) = false)
    by (apply guard_off; right; exact H).
  destruct g0; cbn [generate fallback_backend].
  - unfold generate_embeddings. rewrite G, use_fallback_embeddings_eq.
    destruct (fallback_embeddings env texts (rnd s)); reflexivity.
  - unfold generate_single_embedding, single_via_embeddings,
      generate_embeddings.
    rewrite G, use_fallback_embeddings_eq.
    destruct (fallback_embeddings env [text] (rnd s)); reflexivity.
  - unfold generate_response. rewrite G, use_fallback_response_eq.
    destruct (_generate_fallback_response env prompt context (rnd s));
      reflexivity.
  - unfold generate_idea_validation_response, use_fallback_idea_validation.
    rewrite G.
    destruct (_fallback_idea_validation env idea_description _ (rnd s));
      reflexivity.
  - unfold generate_progress_summary, use_fallback_progress. rewrite G.
    simpl. rewrite set_rnd_rnd. reflexivity.
  - unfold build_comprehensive_prompt. rewrite G. simpl.
    rewrite set_rnd_rnd. reflexivity.
Qed.

Lemma serve_all_with_fallback_active (gs : list (generation float dict)) s :
  fallback_active s = true ->
  serve_all env (map Generation gs) s
  = (fst (fallback_backend_all env gs (rnd s)),
     set_rnd (snd (fallback_backend_all env gs (rnd s))) s).
Proof.
  revert s. induction gs as [|g0 gs IH]; intros s H; simpl.
  - rewrite set_rnd_rnd. reflexivity.
  - rewrite (generate_with_fallback_active g0 s H).
    destruct (fallback_backend env g0 (rnd s)) as [a g1]. simpl.
    rewrite (IH (set_rnd g1 s) H). simpl.
    destruct (fallback_backend_all env gs g1) as [answers g2]. reflexivity.
Qed.

(** No generation call clears the flag. *)
Lemma generate_keeps_fallback_active (g0 : generation float dict) s :
  fallback_active s = true ->
  fallback_active (snd (generate env g0 s)) = true.
Proof.
  intros H. rewrite (generate_with_fallback_active g0 s H). exact H.
Qed.

Lemma health_check_flag s :
  fallback_active (snd (health_check env s)) = false
  <-> real_service s = true
      /\ real_health_check (real env) (calls s) = Ok true.
Proof.
  unfold health_check. destruct (real_service s).
  - destruct (real_health_check (real env) (calls s)) as [[|]|e]; simpl;
      split; try discriminate; try (intros [_ H]; discriminate); auto.
  - simpl. split; [discriminate | intros [H _]; discriminate].
Qed.

(** C1. Once [fallback_active] is true, every sequence of generation
    calls is answered by the fallback backend alone: the answers are
    those of the fallback backend, the real service receives no request,
    and the flag stays true.  One call clears the flag exactly when it
    is a health check on a facade that has a real service whose probe
    succeeds: the health check is the only way back to REAL. *)
Theorem fallback_active_is_sticky s :
  fallback_active s = true ->
  (forall gs : list (generation float dict),
     fst (serve_all env (map Generation gs) s)
     = fst (fallback_backend_all env gs (rnd s))
     /\ calls (snd (serve_all env (map Generation gs) s)) = calls s
     /\ fallback_active (snd (serve_all env (map Generation gs) s)) = true)
  /\ (forall r : request float dict,
        fallback_active (snd (serve env r s)) = false
        <-> r = HealthCheck
            /\ real_service s = true
            /\ real_health_check (real env) (calls s) = Ok true).
Proof.
  intros H. split.
  - intros gs. rewrite (serve_all_with_fallback_active gs s H). simpl.
    auto.
  - intros [|g0]; cbn [serve].
    + pose proof (health_check_flag s) as F.
      destruct (health_check env s) as [b s']. cbn [snd] in *.
      rewrite F. split; [intros [? ?]; auto | intros [_ [? ?]]; auto].
    + pose proof (generate_keeps_fallback_active g0 s H) as K.
      destruct (generate env g0 s) as [a s']. simpl in *.
      split; [congruence | intros [? _]; discriminate].
Qed.

(** C10. [health_check] always answers [True], and it writes the flag on
    every call: the flag is cleared exactly when there is a real service
    and its probe returns [True]; when the real service is absent, or its
    probe returns [False] or raises, the flag is set. *)
Theorem health_check_always_healthy s :
  fst (health_check env s) = true
  /\ (fallback_active (snd (health_check env s)) = false
      <-> real_service s = true
          /\ real_health_check (real env) (calls s) = Ok true)
  /\ (fallback_active (snd (health_check env s)) = true
      <-> real_service s = false
          \/ real_health_check (real env) (calls s) <> Ok true).
Proof.
  split; [|split].
  - unfold health_check. destruct (real_service s); [|reflexivity].
    destruct (real_health_check (real env) (calls s)) as [[|]|e];
      reflexivity.
  - apply health_check_flag.
  - pose proof (health_check_flag s) as F.
    destruct (fallback_active (snd (health_check env s))).
    + split; [intros _ | reflexivity].
      destruct (real_service s); [|left; reflexivity].
      right. intros P. destruct F as [_ F]. discriminate F. auto.
    + split; [discriminate|].
      destruct F as [F _]. destruct (F eq_refl) as [F1 F2].
      intros [K | K]; congruence.
Qed.

(** C7. The fallback embeddings are a function of the texts alone: two
    facades that serve from the fallback (whatever the state of [random]
    and the requests seen so far) return the same vectors for the same
    texts, under one hashing scheme [hash env]; there is one vector per
    text, in the order of the texts, and each has 768 components. *)
Theorem fallback_embeddings_deterministic (texts : list string) s1 s2 :
  real_service s1 = false \/ fallback_active s1 = true ->
  real_service s2 = false \/ fallback_active s2 = true ->
  fst (generate_embeddings env texts s1)
  = fst (generate_embeddings env texts s2)
  /\ length (fst (generate_embeddings env texts s1)) = length texts
  /\ (forall (i : nat) (text : string),
        texts !! i = Some text ->
        fst (generate_embeddings env texts s1) !! i
        = Some (fst (fallback_embedding env text)))
  /\ Forall (fun v => length v = 768%nat)
       (fst (generate_embeddings env texts s1)).
Proof.
  intros H1 H2.
  rewrite !generate_embeddings_off, !use_fallback_embeddings_eq by assumption.
  simpl. rewrite !fallback_embeddings_map. repeat split.
  - apply length_map.
  - intros i text Hi. rewrite list_lookup_fmap, Hi. reflexivity.
  - apply Forall_fmap, Forall_forall. intros text _. simpl.
    unfold fallback_embedding. apply uniforms_length.
Qed.

(** [embeddings[0]] in [generate_single_embedding] never raises. *)
Lemma fallback_embeddings_first (text : string) (g : rng) :
  first_item (fst (fallback_embeddings env [text] g))
  = Ok (fst (fallback_embedding env text)).
Proof.
  cbn [fallback_embeddings]. destruct (fallback_embedding env text).
  reflexivity.
Qed.

Lemma single_via_embeddings_ok (text : string) s :
  exists v, fst (single_via_embeddings env text s) = Ok v.
Proof.
  unfold single_via_embeddings, generate_embeddings.
  destruct (real_service s && negb (fallback_active s)).
  - destruct (real_generate_embeddings _ _ _) as [[|v embeddings]|e].
    + cbn [truthy_list andb]. rewrite use_fallback_embeddings_eq.
      cbn [fst]. rewrite fallback_embeddings_first. eauto.
    + cbn. eauto.
    + rewrite use_fallback_embeddings_eq.
      cbn [fst]. rewrite fallback_embeddings_first. eauto.
  - rewrite use_fallback_embeddings_eq.
    cbn [fst]. rewrite fallback_embeddings_first. eauto.
Qed.

Lemma generate_single_embedding_ok (text : string) s :
  exists v, fst (generate_single_embedding env text s) = Ok v.
Proof.
  unfold generate_single_embedding.
  destruct (real_service s && negb (fallback_active s)).
  - destruct (real_generate_single_embedding _ _ _) as [[|x v]|e].
    + cbn [truthy_list andb]. apply single_via_embeddings_ok.
    + cbn. eauto.
    + apply single_via_embeddings_ok.
  - apply single_via_embeddings_ok.
Qed.

Lemma guard_on s :
  real_service s = true -> fallback_active s = false ->
  real_service s && negb (fallback_active s) = true.
Proof. intros -> ->. reflexivity. Qed.

Lemma long_is_truthy (t : string) :
  (10 < String.length t)%nat ->
  truthy_str t && (10 <? String.length t)%nat = true.
Proof.
  intros H. destruct t; simpl in *; [lia|].
  apply Nat.ltb_lt. exact H.
Qed.

Lemma short_is_degenerate (t : string) :
  (String.length t <= 10)%nat ->
  truthy_str t && (10 <? String.length t)%nat = false.
Proof.
  intros H. apply andb_false_iff. right. apply Nat.ltb_ge. exact H.
Qed.

Lemma nonempty_is_truthy {A} (l : list A) :
  l <> [] -> truthy_list l && (0 <? length l)%nat = true.
Proof. destruct l; [congruence | reflexivity]. Qed.

(** C5, as the code has it. In the state REAL (a real service, the flag
    clear) every generation call goes to the real service first.  A text
    longer than 10 characters, a non-empty list of embeddings or a
    non-empty embedding is returned as it is and the facade stays in
    REAL.  An exception sets [fallback_active] and the call is answered
    by the fallback backend.  A degenerate answer that is returned
    without an exception leaves the flag as it was: [generate_response]
    and [generate_embeddings] answer this call from the fallback backend,
    and [generate_single_embedding] hands the text to
    [generate_embeddings], still in REAL. *)
Theorem real_state_generation s :
  real_service s = true ->
  fallback_active s = false ->
  (forall prompt context conversation_history max_tokens temperature,
     let s1 :=
       sent (RealGenerateResponse prompt context conversation_history
               max_tokens temperature) s in
     let r :=
       generate_response env prompt context conversation_history
         max_tokens temperature s in
     match real_generate_response (real env) (calls s) prompt context
             conversation_history max_tokens temperature with
     | Ok response =>
         ((10 < String.length response)%nat ->
          r = (response, s1) /\ fallback_active (snd r) = false)
         /\ ((String.length response <= 10)%nat ->
             fst r
             = fst (_generate_fallback_response env prompt context (rnd s))
             /\ calls (snd r) = calls s1
             /\ fallback_active (snd r) = false)
     | Raise _ =>
         fst r = fst (_generate_fallback_response env prompt context (rnd s))
         /\ calls (snd r) = calls s1
         /\ fallback_active (snd r) = true
     end)
  /\ (forall texts,
        let s1 := sent (RealGenerateEmbeddings texts) s in
        let r := generate_embeddings env texts s in
        match real_generate_embeddings (real env) (calls s) texts with
        | Ok embeddings =>
            (embeddings <> [] ->
             r = (embeddings, s1) /\ fallback_active (snd r) = false)
            /\ (embeddings = [] ->
                fst r = fst (fallback_embeddings env texts (rnd s))
                /\ calls (snd r) = calls s1
                /\ fallback_active (snd r) = false)
        | Raise _ =>
            fst r = fst (fallback_embeddings env texts (rnd s))
            /\ calls (snd r) = calls s1
            /\ fallback_active (snd r) = true
        end)
  /\ (forall text,
        let s1 := sent (RealGenerateSingleEmbedding text) s in
        let r := generate_single_embedding env text s in
        match real_generate_single_embedding (real env) (calls s) text with
        | Ok embedding =>
            (embedding <> [] ->
             r = (Ok embedding, s1) /\ fallback_active (snd r) = false)
            /\ (embedding = [] ->
                r = single_via_embeddings env text s1
                /\ fallback_active s1 = false)
        | Raise _ =>
            fst r = Ok (fst (fallback_embedding env text))
            /\ calls (snd r) = calls s1
            /\ fallback_active (snd r) = true
        end).
Proof.
  intros Hreal Hflag. pose proof (guard_on s Hreal Hflag) as G.
  split; [|split].
  - intros prompt context conversation_history max_tokens temperature.
    cbv zeta. unfold generate_response. rewrite G.
    destruct (real_generate_response _ _ _ _ _ _ _) as [response|e].
    + split; intros L.
      * rewrite (long_is_truthy _ L). simpl. auto.
      * rewrite (short_is_degenerate _ L), use_fallback_response_eq.
        simpl. auto.
    + rewrite use_fallback_response_eq. simpl. auto.
  - intros texts. cbv zeta. unfold generate_embeddings. rewrite G.
    destruct (real_generate_embeddings _ _ _) as [embeddings|e].
    + split; intros L.
      * rewrite (nonempty_is_truthy _ L). simpl. auto.
      * subst embeddings. cbn [truthy_list andb].
        rewrite use_fallback_embeddings_eq. simpl. auto.
    + rewrite use_fallback_embeddings_eq. simpl. auto.
  - intros text. cbv zeta. unfold generate_single_embedding. rewrite G.
    destruct (real_generate_single_embedding _ _ _) as [embedding|e].
    + split; intros L.
      * rewrite (nonempty_is_truthy _ L). simpl. auto.
      * subst embedding. cbn [truthy_list andb]. simpl. auto.
    + unfold single_via_embeddings.
      rewrite generate_embeddings_off by (right; reflexivity).
      rewrite use_fallback_embeddings_eq.
      cbn [fallback_embeddings].
      destruct (fallback_embedding env text) as [v g1]. simpl. auto.
Qed.

End Facts.

(** Concrete runs. *)

Lemma fallback_active_is_sticky_witness :
  calls
    (snd (serve_all (Examples.interpreter Examples.fluent)
            (map Generation
               [GenerateResponse "How do I start?" None None 2048 7;
                GenerateEmbeddings ["x"; "y"];
                GenerateSingleEmbedding "x"])
            Examples.facade_fallback))
  = calls Examples.facade_fallback.
Proof.
  exact (proj1 (proj2 (proj1
    (fallback_active_is_sticky (Examples.interpreter Examples.fluent)
       Examples.facade_fallback eq_refl) _))).
Defined.

Lemma fallback_embeddings_deterministic_witness :
  fst (generate_embeddings (Examples.interpreter Examples.fluent)
         ["x"; "y"] Examples.facade_fallback)
  = fst (generate_embeddings (Examples.interpreter Examples.fluent)
           ["x"; "y"] (set_rnd 42 Examples.facade_fallback)).
Proof.
  exact (proj1
    (fallback_embeddings_deterministic
       (Examples.interpreter Examples.fluent) ["x"; "y"]
       Examples.facade_fallback (set_rnd 42 Examples.facade_fallback)
       (or_intror eq_refl) (or_intror eq_refl))).
Defined.

Lemma health_check_always_healthy_witness :
  fallback_active
    (snd (health_check (Examples.interpreter Examples.fluent)
            Examples.facade_fallback)) = false.
Proof.
  apply (proj1 (proj2
    (health_check_always_healthy (Examples.interpreter Examples.fluent)
       Examples.facade_fallback))).
  split; reflexivity.
Defined.

Lemma real_state_generation_witness :
  generate_response (Examples.interpreter Examples.fluent)
    "How do I start?" None None 2048 7 Examples.facade_real
  = ("A long enough answer.",
     sent (RealGenerateResponse "How do I start?" None None 2048 7)
       Examples.facade_real).
Proof.
  apply (proj1 (proj1
    (real_state_generation (Examples.interpreter Examples.fluent)
       Examples.facade_real eq_refl eq_refl)
    "How do I start?" None None 2048 7)).
  simpl. lia.
Defined.

(** C5 as the specification words it fails here: the real service answers
    with five characters, the call is answered by the fallback backend,
    and the facade is still in REAL afterwards. *)
Lemma degenerate_answer_keeps_real :
  real_service Examples.facade_real = true
  /\ fallback_active Examples.facade_real = false
  /\ real_generate_response Examples.terse (calls Examples.facade_real)
       "hello" None None 2048 7 = Ok "short"
  /\ fst (generate_response (Examples.interpreter Examples.terse)
            "hello" None None 2048 7 Examples.facade_real)
     = "Hackathon Agent Assistant hello"
  /\ fallback_active
       (snd (generate_response (Examples.interpreter Examples.terse)
               "hello" None None 2048 7 Examples.facade_real)) <> true.
Proof.
  repeat split; try reflexivity. vm_compute. discriminate.
Qed.

End VertexFacts.

(** ** The search service *)

Module ElasticFacts.
Import Elastic.

Section Facts.
Context {float document : Type} (client : Client float document).

(** C2. When the search request built first is refused, [hybrid_search]
    sends exactly one more request, the pure lexical multi-field query
    with the same query text, fields and size.  It returns what that
    retry yields; when the retry raises - the cluster's exception, or the
    [KeyError] of a response that carries no [total] - it returns the
    empty result with total 0 and maximal score 0.  The function returns
    a result in every case: nothing is raised to the caller. *)
Theorem hybrid_search_falls_back (query index vector_field : string)
    (text_fields : option (list string)) (size : Z)
    (vector_query : option (list float))
    (served : list (es_call float document)) (e : exn) :
  let fields := default default_text_fields text_fields in
  let primary :=
    search_body_for query vector_field fields size vector_query in
  let lexical := MultiMatchQuery size query fields [vector_field] in
  let r :=
    hybrid_search client query index vector_field text_fields size
      vector_query served in
  client_search client served index primary = Raise e ->
  snd r = served ++ [Search index primary; Search index lexical]
  /\ match client_search client (served ++ [Search index primary]) index
             lexical with
     | Ok response =>
         match hits_total_value response with
         | Some value =>
             fst r = {| hits := hits_hits response; total := value;
                        max_score := hits_max_score response |}
         | None =>
             fst r = {| hits := []; total := 0;
                        max_score := Some (zero client) |}
         end
     | Raise _ =>
         fst r = {| hits := []; total := 0;
                    max_score := Some (zero client) |}
     end.
Proof.
  cbv zeta. intros H. unfold hybrid_search, attempt, fallback_body.
  rewrite H.
  destruct (client_search client (served ++ [Search index _]) index _)
    as [response|e'].
  - unfold shape_fallback.
    destruct (hits_total_value response); simpl;
      rewrite <- app_assoc; auto.
  - simpl. rewrite <- app_assoc. auto.
Qed.

Lemma hybrid_search_refused (query index vector_field : string)
    (text_fields : option (list string)) (size : Z)
    (vector_query : option (list float))
    (served : list (es_call float document)) :
  refused client query index vector_field text_fields size vector_query
    served ->
  hits (fst (hybrid_search client query index vector_field text_fields
               size vector_query served)) = [].
Proof.
  intros [[e1 H1] [e2 H2]].
  unfold hybrid_search, attempt. rewrite H1, H2. reflexivity.
Qed.

Lemma search_documentation_refused (query : string)
    (vector_query : option (list float)) (size : Z)
    (served : list (es_call float document)) :
  refused client query Settings.DOCUMENTATION_INDEX "embedding"
    (Some ["title"; "content"; "section"; "tags"]) size vector_query
    served ->
  fst (search_documentation client query vector_query size served) = [].
Proof.
  intros H. apply hybrid_search_refused in H. unfold search_documentation.
  destruct (hybrid_search _ _ _ _ _ _ _ _) as [result served'].
  simpl in *. rewrite H. reflexivity.
Qed.

Lemma search_devpost_projects_refused (query : string)
    (vector_query : option (list float)) (size : Z)
    (served : list (es_call float document)) :
  refused client query Settings.DEVPOST_INDEX "embedding"
    (Some ["title"; "description"; "technologies"; "category"]) size
    vector_query served ->
  fst (search_devpost_projects client query vector_query size served) = [].
Proof.
  intros H. apply hybrid_search_refused in H.
  unfold search_devpost_projects.
  destruct (hybrid_search _ _ _ _ _ _ _ _) as [result served'].
  simpl in *. rewrite H. reflexivity.
Qed.

End Facts.

(** The cluster refuses the combined query and answers the lexical one. *)
Lemma hybrid_search_falls_back_witness :
  hits (fst (hybrid_search (@Examples.lexical_only unit) "hybrid search"
               "hackathon_docs" "embedding" None 10 (Some [1; 2]) []))
  = Elastic.hits_hits Examples.one_hit.
Proof.
  exact (f_equal hits (proj2
    (hybrid_search_falls_back (@Examples.lexical_only unit)
       "hybrid search" "hackathon_docs" "embedding" None 10
       (Some [1; 2]) [] (Error "search_phase_execution_exception")
       eq_refl))).
Defined.

End ElasticFacts.

(** ** The activity feed *)

Module GitHubFacts.
Import GitHub.

Lemma get_repository_activity_unreachable (api : Api) (repo_url : string)
    (days : Z) (served : list gh_call) :
  (forall full_name, exists e,
      repo_activity api served full_name days = Raise e) ->
  fst (get_repository_activity api repo_url days served) = [].
Proof.
  intros H. unfold get_repository_activity.
  destruct (_parse_repo_url repo_url) as [[owner|] [repo_name|]];
    try reflexivity.
  destruct (negb (truthy_str owner) || negb (truthy_str repo_name));
    [reflexivity|].
  destruct (github api); [|reflexivity].
  destruct (H (owner +:+ "/" +:+ repo_name)) as [e ->]. reflexivity.
Qed.

End GitHubFacts.

(** ** The context aggregator *)

Module GatherFacts.
Import Gather PyFacts.

Section Facts.
Context {float document : Type} (format_score : float -> string).
Context (client : Elastic.Client float document) (api : GitHub.Api).

Abbreviation gather :=
  (_gather_context format_score (deployed client api)).

(** With the deployed services no step raises, and the bundle is put
    together from the results of the three steps. *)
Lemma gather_context_deployed (message : string)
    (message_embedding : list float) (context_type repo_url : option string)
    (w : world float document) :
  let ctype := effective_context_type context_type message in
  let docs :=
    Elastic.search_documentation client message (Some message_embedding) 3
      (es w) in
  let projects :=
    if wants_projects ctype
    then Elastic.search_devpost_projects client message
           (Some message_embedding) 3 (snd docs)
    else ([], snd docs) in
  let activity :=
    if wants_activity ctype repo_url
    then GitHub.get_repository_activity api (default "" repo_url) 3 (gh w)
    else ([], gh w) in
  gather message message_embedding context_type repo_url w
  = ({| formatted_context :=
          documentation_context (fst docs)
          +:+ project_context format_score (fst projects)
          +:+ activity_context (fst activity);
        sources :=
          map documentation_source (fst docs)
          ++ map project_source (fst projects);
        Gather.context_type := ctype |},
     {| es := snd projects; gh := snd activity |}).
Proof.
  cbv zeta. unfold _gather_context, documentation_step, project_step,
    activity_step, add_context. cbn [deployed search_documentation
    search_devpost_projects get_repository_activity].
  destruct (Elastic.search_documentation client message _ 3 (es w))
    as [docs es1].
  cbn [fst snd Gather.context_type formatted_context sources es gh].
  destruct (wants_projects _).
  - destruct (Elastic.search_devpost_projects client message _ 3 es1)
      as [projects es2].
    cbn [fst snd Gather.context_type formatted_context sources es gh].
    destruct (wants_activity _ repo_url).
    + destruct (GitHub.get_repository_activity api _ 3 (gh w))
        as [activity gh1].
      cbn [fst snd Gather.context_type formatted_context sources es gh].
      rewrite List.app_nil_r, !app_assoc. reflexivity.
    + cbn [fst snd activity_context truthy_list].
      rewrite app_empty_r, app_assoc. reflexivity.
  - cbn [fst snd project_context truthy_list map
           Gather.context_type formatted_context sources es gh].
    destruct (wants_activity _ repo_url).
    + destruct (GitHub.get_repository_activity api _ 3 (gh w))
        as [activity gh1].
      cbn [fst snd Gather.context_type formatted_context sources es gh].
      rewrite !List.app_nil_r. reflexivity.
    + cbn [fst snd activity_context truthy_list].
      rewrite !List.app_nil_r, !app_empty_r. reflexivity.
Qed.

(** [_gather_context] as it is written: a collaborator that raises ends
    the [try] block, and the bundle built up to that point is returned. *)
Lemma gather_context_returns_bundle_so_far
    (services : Services float document) (message : string)
    (message_embedding : list float) (context_type repo_url : option string)
    (w w' : world float document) (e : exn) :
  search_documentation services message (Some message_embedding) 3 w
  = (Raise e, w') ->
  _gather_context format_score services message message_embedding
    context_type repo_url w
  = ({| formatted_context := ""; sources := [];
        Gather.context_type :=
          effective_context_type context_type message |}, w').
Proof.
  intros H. unfold _gather_context, documentation_step. rewrite H.
  reflexivity.
Qed.

(** C3. With the services the endpoint deploys, [_gather_context] returns
    the bundle assembled from the documentation, project and activity
    steps, whatever the cluster and the GitHub API do.  When the cluster
    refuses the requests of the documentation search, that step yields no
    results and adds nothing, and the project and activity steps still
    contribute; likewise for the project search; an activity fetch that
    the API refuses yields no activity, and the bundle keeps what the
    earlier steps added.  When the context type is [progress] and no
    repository URL is given, no request is sent to the GitHub API. *)
Theorem gather_context_is_resilient (message : string)
    (message_embedding : list float) (context_type repo_url : option string)
    (w : world float document) :
  let ctype := effective_context_type context_type message in
  let docs :=
    Elastic.search_documentation client message (Some message_embedding) 3
      (es w) in
  let projects :=
    if wants_projects ctype
    then Elastic.search_devpost_projects client message
           (Some message_embedding) 3 (snd docs)
    else ([], snd docs) in
  let activity :=
    if wants_activity ctype repo_url
    then GitHub.get_repository_activity api (default "" repo_url) 3 (gh w)
    else ([], gh w) in
  let r := gather message message_embedding context_type repo_url w in
  fst r
  = {| formatted_context :=
         documentation_context (fst docs)
         +:+ project_context format_score (fst projects)
         +:+ activity_context (fst activity);
       sources :=
         map documentation_source (fst docs)
         ++ map project_source (fst projects);
       Gather.context_type := ctype |}
  /\ es (snd r) = snd projects
  /\ gh (snd r) = snd activity
  /\ (Elastic.refused client message Settings.DOCUMENTATION_INDEX
        "embedding" (Some ["title"; "content"; "section"; "tags"]) 3
        (Some message_embedding) (es w) ->
      fst docs = []
      /\ formatted_context (fst r)
         = project_context format_score (fst projects)
           +:+ activity_context (fst activity)
      /\ sources (fst r) = map project_source (fst projects))
  /\ (wants_projects ctype = true ->
      Elastic.refused client message Settings.DEVPOST_INDEX "embedding"
        (Some ["title"; "description"; "technologies"; "category"]) 3
        (Some message_embedding) (snd docs) ->
      fst projects = []
      /\ formatted_context (fst r)
         = documentation_context (fst docs)
           +:+ activity_context (fst activity)
      /\ sources (fst r) = map documentation_source (fst docs))
  /\ (wants_activity ctype repo_url = true ->
      (forall full_name, exists e,
          GitHub.repo_activity api (gh w) full_name 3 = Raise e) ->
      fst activity = []
      /\ formatted_context (fst r)
         = documentation_context (fst docs)
           +:+ project_context format_score (fst projects)
      /\ sources (fst r)
         = map documentation_source (fst docs)
           ++ map project_source (fst projects))
  /\ (ctype = "progress" ->
      truthy_opt truthy_str repo_url = false ->
      gh (snd r) = gh w).
Proof.
  cbv zeta.
  rewrite (gather_context_deployed message message_embedding context_type
             repo_url w).
  cbn [fst snd formatted_context sources es gh].
  split; [reflexivity|]. split; [reflexivity|]. split; [reflexivity|].
  split; [|split; [|split]].
  - intros H. apply ElasticFacts.search_documentation_refused in H.
    rewrite H. auto.
  - intros W H. rewrite W in *.
    apply ElasticFacts.search_devpost_projects_refused in H.
    rewrite H. cbn [project_context truthy_list map].
    rewrite List.app_nil_r. auto.
  - intros W H. rewrite W.
    rewrite (GitHubFacts.get_repository_activity_unreachable api _ 3 _ H).
    cbn [activity_context truthy_list]. rewrite !app_empty_r. auto.
  - intros C U. unfold wants_activity. rewrite U, andb_false_r.
    reflexivity.
Qed.

End Facts.

(** The cluster is down and the message asks for an idea validation:
    the documentation search yields nothing, and the bundle is the one
    the other steps build. *)
Lemma gather_context_is_resilient_witness :
  fst (Elastic.search_documentation (@Examples.down unit)
         "validate my idea" (Some [1]) 3 [])
  = [].
Proof.
  apply (proj1 (proj2 (proj2 (proj2
    (gather_context_is_resilient pretty (@Examples.down unit)
       Examples.github_up "validate my idea" [1] None None
       Examples.nothing_served))))).
  split; eexists; reflexivity.
Defined.

End GatherFacts.

(** ** The search endpoint *)

Module SearchFacts.
Import Search PyFacts.

Section Facts.
Context {float rng dict document : Type}.
Context (env : Env float rng dict document).

Lemma slice_to_nonneg {A} (n : Z) (l : list A) :
  0 <= n -> slice_to n l = take (Z.to_nat n) l.
Proof.
  intros H. unfold slice_to.
  destruct (0 <=? n) eqn:E; [reflexivity|]. apply Z.leb_gt in E. lia.
Qed.

(** The loop over the two indices. *)
Lemma search_all_indices (request : SearchRequest)
    (query_embedding : option (list float))
    (served : list (Elastic.es_call float document)) :
  let vector_query :=
    if negb (String.eqb (search_type request) "keyword")
    then query_embedding else None in
  let projects :=
    Elastic.search_devpost_projects (client env) (query request)
      vector_query (size request) served in
  let docs :=
    Elastic.search_documentation (client env) (query request) vector_query
      (size request) (snd projects) in
  fold_left (fun acc index =>
               search_index env request query_embedding index acc)
    ["devpost_projects"; "hackathon_docs"] ([], served)
  = (map (result_of_project) (fst projects)
     ++ map (result_of_doc) (fst docs), snd docs).
Proof.
  cbv zeta. cbn [fold_left]. unfold search_index at 2.
  change (String.eqb "devpost_projects" "devpost_projects") with true.
  cbv iota.
  destruct (Elastic.search_devpost_projects _ _ _ _ served)
    as [projects served1].
  unfold search_index.
  change (String.eqb "hackathon_docs" "devpost_projects") with false.
  change (String.eqb "hackathon_docs" "hackathon_docs") with true.
  cbv iota. cbn [fst snd].
  destruct (Elastic.search_documentation _ _ _ _ served1) as [docs served2].
  reflexivity.
Qed.

Hypothesis float_leb_total :
  forall a b, float_leb env a b = true \/ float_leb env b a = true.

(** What remains once the two indices are searched: sorting and cutting. *)
Lemma ranked (query_text search_kind : string) (n : Z)
    (merged : list (SearchResult float)) (projects : list _) (docs : list _)
    (served : list (Elastic.es_call float document))
    (vs : Vertex.state float rng dict) :
  merged = map result_of_project projects ++ map result_of_doc docs ->
  0 <= n ->
  exists response : SearchResponse float,
    fst (Ok {| results :=
                 slice_to n (sort_reverse (float_leb env) score merged);
               total := Z.of_nat (length merged);
               response_query := query_text;
               response_search_type := search_kind |},
         {| vertex_calls := Vertex.calls vs; rnd := Vertex.rnd vs;
            es := served |}) = Ok response
    /\ (forall r, r ∈ map result_of_project projects -> source r = "devpost")
    /\ (forall r, r ∈ map result_of_doc docs -> source r = "documentation")
    /\ (exists sorted,
           sorted ≡ₚ merged
           /\ Sorted (before (float_leb env) score) sorted
           /\ results response = take (Z.to_nat n) sorted)
    /\ Sorted (before (float_leb env) score) (results response)
    /\ (forall r, r ∈ results response -> r ∈ merged)
    /\ total response = Z.of_nat (length merged)
    /\ Z.of_nat (length (results response)) <= total response.
Proof.
  intros Hmerged Hsize. eexists. cbn [fst].
  split; [reflexivity|]. cbn [results total].
  split; [|split; [|split; [|split; [|split; [|split]]]]].
  - intros r Hr. apply list_elem_of_fmap in Hr as [p [-> _]]. reflexivity.
  - intros r Hr. apply list_elem_of_fmap in Hr as [d [-> _]]. reflexivity.
  - exists (sort_reverse (float_leb env) score merged).
    split; [apply sort_reverse_perm|].
    split; [apply sort_reverse_sorted, float_leb_total|].
    apply slice_to_nonneg, Hsize.
  - rewrite (slice_to_nonneg _ _ Hsize).
    apply Sorted_take, sort_reverse_sorted, float_leb_total.
  - intros r Hr. rewrite (slice_to_nonneg _ _ Hsize) in Hr.
    apply elem_of_take in Hr as [i [Hr _]].
    apply list_elem_of_lookup_2 in Hr.
    rewrite sort_reverse_perm in Hr. exact Hr.
  - reflexivity.
  - rewrite (slice_to_nonneg _ _ Hsize), length_take, sort_reverse_length.
    lia.
Qed.

(** C9. A search that names no index queries the project index and the
    documentation index, and answers with one sequence: the results of
    both indices, each carrying the label of the index it came from in
    its [source] field ([devpost] for [devpost_projects],
    [documentation] for [hackathon_docs]), sorted by score with the
    greatest first, and cut to the first [size] items.  [total] counts
    the merged results before the cut, so it may exceed the number of
    results returned. *)
Theorem search_merges_and_ranks (request : SearchRequest)
    (w : world float rng dict document) :
  truthy_opt truthy_str (index request) = false ->
  0 <= size request ->
  exists (vector_query : option (list float))
         (response : SearchResponse float),
    let projects :=
      Elastic.search_devpost_projects (client env) (query request)
        vector_query (size request) (es w) in
    let docs :=
      Elastic.search_documentation (client env) (query request)
        vector_query (size request) (snd projects) in
    let merged :=
      map result_of_project (fst projects) ++ map result_of_doc (fst docs) in
    fst (search env request w) = Ok response
    /\ es (snd (search env request w)) = snd docs
    /\ (forall r, r ∈ map result_of_project (fst projects) ->
                  source r = "devpost")
    /\ (forall r, r ∈ map result_of_doc (fst docs) ->
                  source r = "documentation")
    /\ (exists sorted,
           sorted ≡ₚ merged
           /\ Sorted (before (float_leb env) score) sorted
           /\ results response = take (Z.to_nat (size request)) sorted)
    /\ Sorted (before (float_leb env) score) (results response)
    /\ (forall r, r ∈ results response -> r ∈ merged)
    /\ total response = Z.of_nat (length merged)
    /\ Z.of_nat (length (results response)) <= total response.
Proof.
  intros Hindex Hsize.
  assert (Hindices : indices_to_search request
                     = ["devpost_projects"; "hackathon_docs"]).
  { unfold indices_to_search. destruct (index request) as [i|];
      [|reflexivity]. simpl in Hindex. rewrite Hindex. reflexivity. }
  unfold search. rewrite Hindices.
  set (vs := Vertex.init _ _ _).
  destruct (VertexFacts.generate_single_embedding_ok (vertex env)
              (query request) vs) as [v Hv].
  match goal with
  | |- context [if ?c then _ else (Ok None, vs)] => destruct c
  end.
  - destruct (Vertex.generate_single_embedding (vertex env) (query request)
                vs) as [e vs'].
    cbn [fst] in Hv. subst e.
    rewrite (search_all_indices request (Some v) (es w)). cbv zeta.
    set (vq := if negb (String.eqb (search_type request) "keyword")
               then Some v else None).
    set (projects := Elastic.search_devpost_projects (client env)
                       (query request) vq (size request) (es w)).
    set (docs := Elastic.search_documentation (client env) (query request)
                   vq (size request) (snd projects)).
    exists vq.
    destruct (ranked (query request) (search_type request) (size request)
                _ (fst projects) (fst docs) (snd docs) vs' eq_refl Hsize)
      as (response & H1 & Hrest).
    exists response. split; [exact H1|]. split; [reflexivity|]. exact Hrest.
  - rewrite (search_all_indices request None (es w)). cbv zeta.
    set (vq := if negb (String.eqb (search_type request) "keyword")
               then None else None).
    set (projects := Elastic.search_devpost_projects (client env)
                       (query request) vq (size request) (es w)).
    set (docs := Elastic.search_documentation (client env) (query request)
                   vq (size request) (snd projects)).
    exists vq.
    destruct (ranked (query request) (search_type request) (size request)
                _ (fst projects) (fst docs) (snd docs) vs eq_refl Hsize)
      as (response & H1 & Hrest).
    exists response. split; [exact H1|]. split; [reflexivity|]. exact Hrest.
Qed.

End Facts.

Lemma Z_leb_total (a b : Z) : Z.leb a b = true \/ Z.leb b a = true.
Proof. rewrite !Z.leb_le. lia. Qed.

Lemma search_merges_and_ranks_witness :
  exists response,
    fst (search Examples.search_env Examples.search_everywhere
           Examples.search_world) = Ok response
    /\ Z.of_nat (length (results response)) <= total response.
Proof.
  destruct (search_merges_and_ranks Examples.search_env Z_leb_total
              Examples.search_everywhere Examples.search_world eq_refl
              ltac:(simpl; lia))
    as (vq & response & H1 & _ & _ & _ & _ & _ & _ & _ & H8).
  exists response. split; assumption.
Defined.

End SearchFacts.

(** ** The documents of the cluster *)

Module StoreFacts.
Import Elastic.

Section Facts.
Context {float document : Type} (client : Client float document).

Implicit Types store : gmap (string * string) document.
Implicit Types todo : list (es_call float document).

Lemma replay_accepts todo (before : list (es_call float document)) store :
  accepts client -> replay client before todo store = writes todo store.
Proof.
  intros A. revert before store.
  induction todo as [|c todo IH]; intros before store; [reflexivity|].
  cbn [replay]. rewrite IH. unfold writes. cbn [fold_left]. f_equal.
  destruct c as [index body | index id body]; [reflexivity|].
  destruct (A before index id body) as [u ->]. reflexivity.
Qed.

Lemma writes_lookup todo store (k : string * string) :
  writes todo store !! k
  = match last_write k todo with
    | Some body => Some body
    | None => store !! k
    end.
Proof.
  revert store. induction todo as [|c todo IH]; intros store; [reflexivity|].
  unfold writes in *. cbn [fold_left last_write]. rewrite IH.
  destruct (last_write k todo); [reflexivity|].
  destruct c as [index body | index id body]; [reflexivity|].
  cbn [write]. rewrite lookup_insert.
  destruct (decide ((index, id) = k)); reflexivity.
Qed.

(** Writing the same documents under the same ids again changes
    nothing. *)
Lemma writes_twice todo store :
  writes todo (writes todo store) = writes todo store.
Proof.
  apply map_eq. intros k. rewrite !writes_lookup.
  destruct (last_write k todo); reflexivity.
Qed.

Lemma contents_redelivered todo (served : list (es_call float document)) :
  accepts client ->
  contents client ((served ++ todo) ++ todo) = contents client (served ++ todo).
Proof.
  intros A. unfold contents. rewrite !(replay_accepts _ _ _ A).
  unfold writes. rewrite !fold_left_app. apply writes_twice.
Qed.

Lemma last_write_elem todo (index id : string) (body : document) :
  Elastic.Index index id body ∈ todo ->
  is_Some (last_write (index, id) todo).
Proof.
  induction todo as [|c todo IH]; intros H.
  - apply elem_of_nil in H. destruct H.
  - cbn [last_write]. destruct (last_write (index, id) todo) eqn:E; [eauto|].
    apply elem_of_cons in H as [<- | H].
    + rewrite decide_True by reflexivity. eauto.
    + destruct (IH H) as [b Hb]. discriminate Hb.
Qed.

(** After writes the cluster accepted, every id written holds a
    document. *)
Lemma contents_written todo (served : list (es_call float document))
    (index id : string) (body : document) :
  accepts client ->
  Elastic.Index index id body ∈ todo ->
  is_Some (contents client (served ++ todo) !! (index, id)).
Proof.
  intros A H. unfold contents. rewrite (replay_accepts _ _ _ A).
  rewrite writes_lookup.
  destruct (last_write_elem (served ++ todo) index id body) as [b ->];
    [|eauto].
  apply elem_of_app. right. exact H.
Qed.

End Facts.

End StoreFacts.

(** ** The webhook *)

Module WebhookFacts.
Import Webhook.

Section Facts.
Context {float : Type} (env : Env float).

(** The write [_process_push_event] sends for one commit. *)
Lemma process_push_event_calls (payload : Payload.t)
    (served : list (Elastic.es_call float document)) :
  _process_push_event env payload served
  = served
    ++ map (fun commit =>
              Elastic.Index Settings.GITHUB_INDEX
                ("commit_" +:+ default "" (Commit.id commit))
                (commit_data (commit_data_of payload commit)))
        (default [] (Payload.commits payload)).
Proof.
  unfold _process_push_event.
  generalize (default [] (Payload.commits payload)) as commits.
  intros commits. revert served.
  induction commits as [|commit commits IH]; intros served.
  - cbn. rewrite app_nil_r. reflexivity.
  - cbn [fold_left map]. rewrite IH. cbn [Elastic.index_document snd].
    rewrite <- app_assoc. reflexivity.
Qed.

(** C6, as the code has it. A push event with N commits sends exactly N
    writes to the activity index, one per commit and in their order; the
    id of each is [commit_] followed by the id of the commit (for a pull
    request, one write under [pr_] followed by the id of the pull
    request; for an issue, one under [issue_] followed by the id of the
    issue).  Delivering the same payload again sends the same writes,
    with the same ids and the same documents, and when the cluster
    accepts the writes the index holds the same documents after the
    second delivery as after the first, one under the id of each
    commit. *)
Theorem push_event_writes_by_commit_id (payload : Payload.t)
    (served : list (Elastic.es_call float document)) :
  let commits := default [] (Payload.commits payload) in
  let sent :=
    map (fun commit =>
           Elastic.Index Settings.GITHUB_INDEX
             ("commit_" +:+ default "" (Commit.id commit))
             (commit_data (commit_data_of payload commit)))
      commits in
  let served1 := _process_push_event env payload served in
  let served2 := _process_push_event env payload served1 in
  served1 = served ++ sent
  /\ length sent = length commits
  /\ served2 = served1 ++ sent
  /\ (Elastic.accepts (client env) ->
      Elastic.contents (client env) served2
      = Elastic.contents (client env) served1
      /\ forall commit, commit ∈ commits ->
           is_Some (Elastic.contents (client env) served1
                    !! (Settings.GITHUB_INDEX,
                        "commit_" +:+ default "" (Commit.id commit))))
  /\ _process_pr_event env payload served
     = served
       ++ [Elastic.Index Settings.GITHUB_INDEX
             ("pr_"
              +:+ format_id
                    (get (Payload.pull_request payload) PullRequest.id))
             (pr_data (pr_data_of payload))]
  /\ _process_issue_event env payload served
     = served
       ++ [Elastic.Index Settings.GITHUB_INDEX
             ("issue_" +:+ format_id (get (Payload.issue payload) Issue.id))
             (issue_data (issue_data_of payload))].
Proof.
  cbv zeta. rewrite !process_push_event_calls.
  split; [reflexivity|]. split; [apply length_map|].
  split; [reflexivity|]. split; [|split; reflexivity].
  intros A. split; [apply StoreFacts.contents_redelivered, A|].
  intros commit H.
  apply (StoreFacts.contents_written (client env) _ served _ _
           (commit_data (commit_data_of payload commit)) A).
  apply list_elem_of_fmap. exists commit. auto.
Qed.

(** What [_verify_signature] decides. *)
Lemma verify_signature_false (body : string) (signature : option string) :
  GITHUB_WEBHOOK_SECRET env = ""
  \/ signature = None
  \/ signature = Some ""
  \/ (exists s, signature = Some s
                /\ s <> "sha256="
                        +:+ hmac_sha256_hexdigest env
                              (GITHUB_WEBHOOK_SECRET env) body) ->
  _verify_signature env body signature = false.
Proof.
  unfold _verify_signature. intros [H | [-> | [-> | [s [-> H]]]]].
  - rewrite H. cbn [truthy_str negb]. rewrite orb_true_r. reflexivity.
  - reflexivity.
  - reflexivity.
  - destruct (negb _ || negb _); [reflexivity|]. cbn [default].
    apply (proj2 (String.eqb_neq _ _)). intros E. apply H. symmetry.
    exact E.
Qed.

(** C8, on the code. A request whose secret is not configured, whose
    signature header is missing or empty, or whose signature does not
    match the digest of the body is turned away: the [try] block raises
    the status 401, no task is added and nothing is written to the
    index.  But the [except Exception] around the block catches that
    exception too, and the endpoint answers with the status 500
    ("Webhook processing failed"), not with 401. *)
Theorem rejected_signature_is_answered_500 (body : string)
    (signature event_type : option string)
    (served : list (Elastic.es_call float document)) :
  GITHUB_WEBHOOK_SECRET env = ""
  \/ signature = None
  \/ signature = Some ""
  \/ (exists s, signature = Some s
                /\ s <> "sha256="
                        +:+ hmac_sha256_hexdigest env
                              (GITHUB_WEBHOOK_SECRET env) body) ->
  github_webhook_body env body signature event_type
  = (Raise (HTTPException 401 "Invalid signature"), [])
  /\ github_webhook env body signature event_type
     = (Raise (HTTPException 500 "Webhook processing failed"), [])
  /\ snd (deliver env body signature event_type served) = served.
Proof.
  intros H. apply verify_signature_false in H.
  unfold deliver, github_webhook, github_webhook_body. rewrite H.
  repeat split.
Qed.

End Facts.

(** A push of two commits, delivered twice to a cluster that accepts the
    writes. *)
Lemma push_event_writes_by_commit_id_witness :
  Elastic.contents (client Examples.webhook_env)
    (_process_push_event Examples.webhook_env Examples.push_payload
       (_process_push_event Examples.webhook_env Examples.push_payload []))
  = Elastic.contents (client Examples.webhook_env)
      (_process_push_event Examples.webhook_env Examples.push_payload []).
Proof.
  apply (proj1 (proj2 (proj2 (proj2
    (push_event_writes_by_commit_id Examples.webhook_env
       Examples.push_payload []))))).
  intros served index id body. exists tt. reflexivity.
Defined.

(** A push without the signature header. *)
Lemma rejected_signature_is_answered_500_witness :
  github_webhook Examples.webhook_env "{}" None (Some "push")
  = (Raise (HTTPException 500 "Webhook processing failed"), []).
Proof.
  apply (proj1 (proj2
    (rejected_signature_is_answered_500 Examples.webhook_env "{}" None
       (Some "push") [] (or_intror (or_introl eq_refl))))).
Defined.

(** C6 as the specification words it fails: the id of the document is
    not derived from repository, event type and timestamp.  Two commits
    of one push, made at the same time, get different ids. *)
Lemma commit_id_is_not_derived_from_timestamp :
  ~ exists derive : string -> string -> string -> string,
      forall (payload : Payload.t) (commit : Commit.t),
        CommitData.id (commit_data_of payload commit)
        = derive (CommitData.repository (commit_data_of payload commit))
            (CommitData.event_type (commit_data_of payload commit))
            (CommitData.timestamp (commit_data_of payload commit)).
Proof.
  intros [derive H].
  pose proof (H Examples.push_payload
                (Examples.commit_at "a1" "2024-10-24T12:00:00Z")) as Ha.
  pose proof (H Examples.push_payload
                (Examples.commit_at "b2" "2024-10-24T12:00:00Z")) as Hb.
  cbn in Ha, Hb. rewrite <- Hb in Ha. discriminate Ha.
Qed.

End WebhookFacts.

(** ** The model at work on concrete inputs *)

Module Runs.

Example detect_documentation :
  Chat._detect_context_type "How to use Elastic with Google Cloud?"
  = "documentation".
Proof. reflexivity. Qed.

Example detect_progress :
  Chat._detect_context_type "What is the STATUS of the team?" = "progress".
Proof. reflexivity. Qed.

Example detect_general : Chat._detect_context_type "hello there" = "general".
Proof. reflexivity. Qed.

(** "development" is a progress keyword, checked before "documentation". *)
Example detect_overlap :
  Chat._detect_context_type "development documentation" = "progress".
Proof. reflexivity. Qed.

Example split_path : split slash "a//b/" = ["a"; ""; "b"; ""].
Proof. reflexivity. Qed.

Example count_title :
  str_count "title" "title: a, subtitle: b titletitle" = 4%nat.
Proof. reflexivity. Qed.

Example sort_is_stable :
  sort_reverse Z.leb fst [(1, "a"); (3, "b"); (1, "c"); (3, "d"); (2, "e")]
  = [(3, "b"); (3, "d"); (2, "e"); (1, "a"); (1, "c")].
Proof. reflexivity. Qed.

Example slice_negative : slice_to (-1) [1; 2; 3] = [1; 2].
Proof. reflexivity. Qed.

Example parse_repo_url :
  GitHub._parse_repo_url "https://github.com/octo/repo.git"
  = (Some "octo", Some "repo").
Proof. reflexivity. Qed.

Example parse_other_host :
  GitHub._parse_repo_url "https://gitlab.com/octo/repo" = (None, None).
Proof. reflexivity. Qed.

(** A cluster that is down: two requests, the empty result. *)
Example hybrid_search_down :
  Elastic.hybrid_search (@Examples.down unit) "q" "hackathon_docs"
    "embedding" None 10 None []
  = ({| Elastic.hits := []; Elastic.total := 0;
        Elastic.max_score := Some 0 |},
     [Elastic.Search "hackathon_docs"
        (Elastic.MultiMatchQuery 10 "q" ["title"; "description"; "content"]
           ["embedding"]);
      Elastic.Search "hackathon_docs"
        (Elastic.MultiMatchQuery 10 "q" ["title"; "description"; "content"]
           ["embedding"])]).
Proof. reflexivity. Qed.

(** A healthy cluster: one request. *)
Example hybrid_search_up :
  snd (Elastic.hybrid_search (@Examples.answering unit) "q"
         "hackathon_docs" "embedding" None 10 (Some [1; 2]) [])
  = [Elastic.Search "hackathon_docs"
       (Elastic.HybridQuery 10 "q" ["title"; "description"; "content"] 1
          "embedding" [1; 2] 10 100 1 ["embedding"])].
Proof. reflexivity. Qed.

(** The facade in REAL with a real service that raises nothing but
    answers too briefly: served by the fallback, still REAL. *)
Example terse_answer :
  let r :=
    Vertex.generate_response (Examples.interpreter Examples.terse)
      "A pitch deck, please" None None 2048 7 Examples.facade_real in
  fst r = "Pitch Deck Structure"
  /\ Vertex.fallback_active (snd r) = false
  /\ Vertex.calls (snd r)
     = [Vertex.RealGenerateResponse "A pitch deck, please" None None 2048 7].
Proof. vm_compute. repeat split. Qed.

(** A signed push of two commits: two writes, under the commit ids. *)
Example signed_push :
  map (fun c => match c with
                | Elastic.Index _ id _ => id
                | Elastic.Search _ _ => ""
                end)
    (snd (Webhook.deliver Examples.webhook_env "{}"
            (Some "sha256=s3cret:{}") (Some "push") []))
  = ["commit_a1"; "commit_b2"].
Proof. reflexivity. Qed.

(** The same push with a wrong signature. *)
Example forged_push :
  Webhook.deliver Examples.webhook_env "{}" (Some "sha256=forged")
    (Some "push") []
  = (Raise (HTTPException 500 "Webhook processing failed"), []).
Proof. reflexivity. Qed.

(** A progress question with a repository: documentation and activity. *)
Example gather_progress :
  let r :=
    Gather._gather_context pretty
      (Gather.deployed (@Examples.answering unit) Examples.github_up)
      "what is our progress" [1] None (Some "https://github.com/o/r")
      Examples.nothing_served in
  Gather.context_type (fst r) = "progress"
  /\ length (Gather.sources (fst r)) = 1%nat
  /\ Gather.gh (snd r) = [GitHub.RepoActivity "o/r" 3].
Proof. vm_compute. repeat split. Qed.

(** The same question without a repository: the API is not asked. *)
Example gather_progress_without_repo :
  Gather.gh
    (snd (Gather._gather_context pretty
            (Gather.deployed (@Examples.answering unit) Examples.github_up)
            "what is our progress" [1] None None Examples.nothing_served))
  = [].
Proof. reflexivity. Qed.

End Runs.

(* ===================================================================== *)
(** * Further properties *)
(* ===================================================================== *)

(** ** Counters *)

Module PyMoreFacts.

Lemma sum_counts_bump (k : string) (d : list (string * nat)) :
  sum_counts (bump k d) = S (sum_counts d).
Proof.
  unfold sum_counts. induction d as [|[k' n] d IH]; [reflexivity|].
  cbn [bump]. destruct (String.eqb k' k); cbn; [reflexivity|].
  cbn in IH. rewrite IH. lia.
Qed.

Lemma count_of_bump (k k0 : string) (d : list (string * nat)) :
  count_of k0 (bump k d)
  = if decide (k = k0) then S (count_of k0 d) else count_of k0 d.
Proof.
  induction d as [|[k' n] d IH].
  - cbn. destruct (String.eqb_spec k k0); destruct (decide (k = k0));
      congruence.
  - cbn [bump]. destruct (String.eqb_spec k' k) as [->|Hne]; cbn [count_of].
    + destruct (String.eqb_spec k k0); destruct (decide (k = k0));
        congruence.
    + destruct (String.eqb_spec k' k0) as [->|Hne'].
      * destruct (decide (k = k0)); congruence.
      * exact IH.
Qed.

Lemma keys_bump (k : string) (d : list (string * nat)) :
  map fst (bump k d)
  = if decide (k ∈ map fst d) then map fst d else map fst d ++ [k].
Proof.
  induction d as [|[k' n] d IH].
  - cbn. destruct (decide (k ∈ [])) as [H|_]; [|reflexivity].
    apply elem_of_nil in H. destruct H.
  - cbn [bump]. destruct (String.eqb_spec k' k) as [->|Hne]; cbn [map fst].
    + rewrite decide_True by (left). reflexivity.
    + rewrite IH. destruct (decide (k ∈ map fst d)) as [H|H].
      * rewrite decide_True by (right; exact H). reflexivity.
      * rewrite decide_False; [reflexivity|].
        intros H'. apply elem_of_cons in H' as [H'|H']; congruence.
Qed.

Lemma NoDup_keys_bump (k : string) (d : list (string * nat)) :
  NoDup (map fst d) -> NoDup (map fst (bump k d)).
Proof.
  intros H. rewrite keys_bump. destruct (decide (k ∈ map fst d)); [exact H|].
  apply NoDup_app. split; [exact H|]. split.
  - intros x Hx Hk. apply list_elem_of_singleton in Hk. congruence.
  - apply NoDup_singleton.
Qed.

Lemma tally_snoc (keys : list string) (k : string) :
  tally (keys ++ [k]) = bump k (tally keys).
Proof. unfold tally. rewrite fold_left_app. reflexivity. Qed.

Lemma occurrences_snoc (k0 : string) (keys : list string) (k : string) :
  occurrences k0 (keys ++ [k])
  = if decide (k = k0) then S (occurrences k0 keys) else occurrences k0 keys.
Proof.
  unfold occurrences. rewrite filter_app, length_app.
  rewrite filter_cons, filter_nil.
  destruct (decide (k = k0)); cbn; lia.
Qed.

(** The counters of a tally add up to the number of keys counted. *)
Lemma sum_counts_tally (keys : list string) :
  sum_counts (tally keys) = length keys.
Proof.
  induction keys as [|k keys IH] using rev_ind; [reflexivity|].
  rewrite tally_snoc, sum_counts_bump, IH, length_app. cbn. lia.
Qed.

Lemma count_of_tally (k0 : string) (keys : list string) :
  count_of k0 (tally keys) = occurrences k0 keys.
Proof.
  induction keys as [|k keys IH] using rev_ind; [reflexivity|].
  rewrite tally_snoc, count_of_bump, occurrences_snoc, IH. reflexivity.
Qed.

Lemma NoDup_keys_tally (keys : list string) : NoDup (map fst (tally keys)).
Proof.
  induction keys as [|k keys IH] using rev_ind; [constructor|].
  rewrite tally_snoc. apply NoDup_keys_bump, IH.
Qed.

Lemma keys_tally (k0 : string) (keys : list string) :
  k0 ∈ map fst (tally keys) <-> k0 ∈ keys.
Proof.
  induction keys as [|k keys IH] using rev_ind; [reflexivity|].
  rewrite tally_snoc, keys_bump, elem_of_app, list_elem_of_singleton.
  destruct (decide (k ∈ map fst (tally keys))) as [H|H].
  - rewrite IH. split; [auto|]. intros [?| ->]; [assumption|].
    apply IH, H.
  - rewrite elem_of_app, list_elem_of_singleton, IH. reflexivity.
Qed.

Lemma count_of_item (k : string) (n : nat) (d : list (string * nat)) :
  NoDup (map fst d) -> (k, n) ∈ d -> count_of k d = n.
Proof.
  induction d as [|[k' n'] d IH]; intros Hd H.
  - apply elem_of_nil in H. destruct H.
  - cbn [map fst] in Hd. apply NoDup_cons in Hd as [Hk Hd].
    cbn [count_of]. apply elem_of_cons in H as [H|H].
    + injection H as <- <-. rewrite String.eqb_refl. reflexivity.
    + destruct (String.eqb_spec k' k) as [->|_]; [|auto].
      exfalso. apply Hk. apply list_elem_of_fmap. exists (k, n). auto.
Qed.

(** An item of a tally carries the number of occurrences of its key. *)
Lemma tally_item (k : string) (n : nat) (keys : list string) :
  (k, n) ∈ tally keys -> k ∈ keys /\ n = occurrences k keys.
Proof.
  intros H. split.
  - apply keys_tally. apply list_elem_of_fmap. exists (k, n). auto.
  - rewrite <- count_of_tally. symmetry.
    apply count_of_item; [apply NoDup_keys_tally | exact H].
Qed.

Lemma item_of_count (k : string) (d : list (string * nat)) :
  k ∈ map fst d -> (k, count_of k d) ∈ d.
Proof.
  induction d as [|[k' n'] d IH]; intros H.
  - apply elem_of_nil in H. destruct H.
  - cbn [count_of]. destruct (String.eqb_spec k' k) as [->|Hne].
    + left.
    + right. apply IH. cbn in H. apply elem_of_cons in H as [H|H];
        [congruence | exact H].
Qed.

Lemma max_item_spec (best : string * nat) (items : list (string * nat)) :
  max_item best items ∈ best :: items
  /\ forall e, e ∈ best :: items ->
               (snd e <= snd (max_item best items))%nat.
Proof.
  revert best. induction items as [|e items IH]; intros best; cbn [max_item].
  - split; [left|]. intros e He. apply list_elem_of_singleton in He.
    subst. lia.
  - destruct (Nat.ltb_spec (snd best) (snd e)) as [L|L].
    + destruct (IH e) as [H1 H2]. split.
      * right. exact H1.
      * intros x Hx. apply elem_of_cons in Hx as [->|Hx].
        -- specialize (H2 e (ltac:(left))). lia.
        -- apply H2, Hx.
    + destruct (IH best) as [H1 H2]. split.
      * apply elem_of_cons in H1 as [H1|H1]; [rewrite H1; left|].
        right. right. exact H1.
      * intros x Hx. apply elem_of_cons in Hx as [->|Hx];
          [apply H2; left|].
        apply elem_of_cons in Hx as [->|Hx].
        -- specialize (H2 best (ltac:(left))). lia.
        -- apply H2. right. exact Hx.
Qed.

Lemma max_by_count_spec (d : list (string * nat)) (e : string * nat) :
  max_by_count d = Some e ->
  e ∈ d /\ forall x, x ∈ d -> (snd x <= snd e)%nat.
Proof.
  destruct d as [|b d]; [discriminate|]. cbn. intros [= <-].
  apply max_item_spec.
Qed.

End PyMoreFacts.

(** ** The activity feed, continued *)

Module ActivityFacts.
Import GitHub PyFacts.

Lemma elem_of_sort_reverse {A K} (leb : K -> K -> bool) (key : A -> K)
    (x : A) (l : list A) :
  x ∈ sort_reverse leb key l <-> x ∈ l.
Proof. rewrite (sort_reverse_perm leb key l). reflexivity. Qed.

Lemma get_repository_activity_offline (api : Api) (repo_url : string)
    (days : Z) (served : list gh_call) :
  github api = false \/ str_in "github.com" repo_url = false ->
  get_repository_activity api repo_url days served = ([], served).
Proof.
  intros H. unfold get_repository_activity.
  destruct (_parse_repo_url repo_url) as [[owner|] [repo_name|]] eqn:P;
    try reflexivity.
  destruct (negb _ || negb _); [reflexivity|].
  destruct H as [H|H].
  - rewrite H. reflexivity.
  - unfold _parse_repo_url in P. rewrite H in P. discriminate.
Qed.

(** X1. Whatever the API answers, [get_repository_activity] returns at
    most 20 items, the most recent timestamp first, and every item is one
    the API listed for the repository named in the URL.  When no token is
    configured, or the URL does not mention github.com, the result is
    empty and no request is sent. *)
Theorem repository_activity_is_bounded_and_sorted (api : Api)
    (repo_url : string) (days : Z) (served : list gh_call) :
  let r := get_repository_activity api repo_url days served in
  (length (fst r) <= 20)%nat
  /\ Sorted (before String.leb timestamp) (fst r)
  /\ (forall a, a ∈ fst r ->
        exists owner repo_name found,
          _parse_repo_url repo_url = (Some owner, Some repo_name)
          /\ repo_activity api served (owner +:+ "/" +:+ repo_name) days
             = Ok found
          /\ a ∈ found)
  /\ (github api = false \/ str_in "github.com" repo_url = false ->
      r = ([], served)).
Proof.
  cbv zeta. unfold get_repository_activity.
  destruct (_parse_repo_url repo_url) as [[owner|] [repo_name|]] eqn:P;
    cbn [fst snd length];
    try (split; [lia|]; split; [constructor|]; split;
         [intros a H; apply elem_of_nil in H; destruct H | reflexivity]).
  destruct (negb (truthy_str owner) || negb (truthy_str repo_name));
    cbn [fst snd length];
    try (split; [lia|]; split; [constructor|]; split;
         [intros a H; apply elem_of_nil in H; destruct H | reflexivity]).
  destruct (github api) eqn:G; cbn [fst snd length];
    try (split; [lia|]; split; [constructor|]; split;
         [intros a H; apply elem_of_nil in H; destruct H | reflexivity]).
  destruct (repo_activity api served _ days) as [found|e] eqn:F;
    cbn [fst snd length].
  - split; [rewrite length_take; lia|].
    split; [apply Sorted_take, sort_reverse_sorted, String.leb_total|].
    split.
    + intros a H. apply elem_of_take in H as [i [H _]].
      apply list_elem_of_lookup_2 in H. apply elem_of_sort_reverse in H.
      exists owner, repo_name, found. auto.
    + intros [H|H]; [discriminate|].
      unfold _parse_repo_url in P. rewrite H in P. discriminate.
  - split; [lia|]. split; [constructor|]. split.
    + intros a H. apply elem_of_nil in H. destruct H.
    + intros [H|H]; [discriminate|].
      unfold _parse_repo_url in P. rewrite H in P. discriminate.
Qed.

(** Splitting at [/]. *)
Lemma split_app (sep : Ascii.ascii) (s t : string) :
  split sep (s +:+ String sep t) = split sep s ++ split sep t.
Proof.
  induction s as [|c s IH]; cbn [split String.append].
  - change ("" +:+ String sep t) with (String sep t). cbn [split].
    rewrite Ascii.eqb_refl. reflexivity.
  - rewrite app_String. cbn [split]. destruct (Ascii.eqb c sep).
    + rewrite IH. reflexivity.
    + rewrite IH. destruct (split sep s) as [|p ps] eqn:E; [|reflexivity].
      destruct s; cbn in E; [discriminate|].
      destruct (Ascii.eqb _ sep); [discriminate|].
      destruct (split sep s); discriminate.
Qed.

Lemma split_nonempty (sep : Ascii.ascii) (s : string) : split sep s <> [].
Proof.
  destruct s as [|c s]; cbn; [discriminate|].
  destruct (Ascii.eqb c sep); [discriminate|].
  destruct (split sep s); discriminate.
Qed.

Lemma split_free (sep : Ascii.ascii) (s : string) :
  ~ Occurs (String sep "") s -> split sep s = [s].
Proof.
  induction s as [|c s IH]; intros H; [reflexivity|]. cbn [split].
  destruct (Ascii.eqb_spec c sep) as [->|Hne].
  - exfalso. apply H. exists "", s. reflexivity.
  - rewrite IH; [reflexivity|].
    intros [pre [suf E]]. apply H. exists (String c pre), suf.
    rewrite E. reflexivity.
Qed.

Lemma remove_from_free (fuel : nat) (sub s : string) :
  ~ Occurs sub s -> remove_from fuel sub s = s.
Proof.
  revert s. induction fuel as [|fuel IH]; intros s H; [reflexivity|].
  destruct s as [|c s]; [reflexivity|]. cbn [remove_from].
  destruct (startswith sub (String c s)) eqn:E.
  - exfalso. apply H. apply startswith_spec in E as [suf E].
    exists "", suf. exact E.
  - rewrite IH; [reflexivity|].
    intros [pre [suf E']]. apply H. exists (String c pre), suf.
    rewrite E'. reflexivity.
Qed.

Lemma last_snoc2 {A} (l : list A) (x y : A) :
  last_item (l ++ [x; y]) = Some y
  /\ before_last_item (l ++ [x; y]) = Some x.
Proof.
  unfold last_item, before_last_item.
  change (l ++ [x; y]) with (l ++ [x] ++ [y]).
  rewrite List.app_assoc, last_snoc, removelast_last, last_snoc. auto.
Qed.

Lemma occurs_char_app (c : Ascii.ascii) (s t : string) :
  Occurs (String c "") (s +:+ t) ->
  Occurs (String c "") s \/ Occurs (String c "") t.
Proof.
  induction s as [|a s IH]; intros H; [right; exact H|].
  rewrite app_String in H. destruct (Ascii.eqb_spec a c) as [->|Hne].
  - left. exists "", s. reflexivity.
  - destruct H as [pre [suf E]]. destruct pre as [|b pre].
    + injection E as E _. congruence.
    + injection E as _ E. destruct IH as [[p [q E']]|H'].
      * exists pre, suf. exact E.
      * left. exists (String a p), q. rewrite E'. reflexivity.
      * right. exact H'.
Qed.

Lemma startswith_git_app (s : string) :
  startswith ".git" (s +:+ ".git") = true ->
  s = "" \/ startswith ".git" s = true.
Proof.
  intros H. apply startswith_spec in H as [suf H].
  destruct s as [|c1 [|c2 [|c3 [|c4 s]]]]; [left; reflexivity| | | |];
    cbv [String.append] in H; fold String.append in H.
  - exfalso. congruence.
  - exfalso. congruence.
  - exfalso. congruence.
  - right. apply startswith_spec. exists s.
    injection H as -> -> -> -> _. reflexivity.
Qed.

Lemma remove_git_suffix (fuel : nat) (s : string) :
  ~ Occurs ".git" s ->
  (String.length s < fuel)%nat ->
  remove_from fuel ".git" (s +:+ ".git") = s.
Proof.
  revert s. induction fuel as [|fuel IH]; intros s H L; [lia|].
  destruct s as [|c s].
  - cbn. destruct fuel; reflexivity.
  - rewrite app_String. cbn [remove_from].
    destruct (startswith ".git" (String c (s +:+ ".git"))) eqn:E.
    + exfalso. rewrite <- app_String in E.
      apply startswith_git_app in E as [E|E]; [discriminate|].
      apply H. apply startswith_spec in E as [suf E]. exists "", suf.
      exact E.
    + rewrite IH; [reflexivity| |cbn in L; lia].
      intros [pre [suf E']]. apply H. exists (String c pre), suf.
      rewrite E'. reflexivity.
Qed.

Lemma length_append (s t : string) :
  String.length (s +:+ t) = (String.length s + String.length t)%nat.
Proof.
  induction s as [|c s IH]; [reflexivity|]. rewrite app_String. cbn.
  rewrite IH. reflexivity.
Qed.

(** The URL the endpoints of [github.py] build from their path
    parameters. *)
Lemma parse_built_url (owner last : string) :
  ~ Occurs "/" owner ->
  ~ Occurs "/" last ->
  _parse_repo_url ("https://github.com/" +:+ owner +:+ "/" +:+ last)
  = (Some owner, Some (str_remove ".git" last)).
Proof.
  intros Ho Hl. unfold _parse_repo_url.
  assert (In : str_in "github.com"
                 ("https://github.com/" +:+ owner +:+ "/" +:+ last) = true).
  { apply str_in_spec.
    exists "https://", ("/" +:+ owner +:+ "/" +:+ last). reflexivity. }
  rewrite In.
  change ("https://github.com/" +:+ owner +:+ "/" +:+ last)
    with ("https:" +:+ String slash
            ("" +:+ String slash
               ("github.com" +:+ String slash
                  (owner +:+ String slash last)))).
  rewrite !split_app. rewrite (split_free slash owner Ho).
  rewrite (split_free slash last Hl).
  change (split slash "https:" ++ split slash "" ++ split slash "github.com"
          ++ [owner] ++ [last])
    with (["https:"; ""; "github.com"] ++ [owner; last]).
  destruct (last_snoc2 ["https:"; ""; "github.com"] owner last) as [L B].
  rewrite L, B. reflexivity.
Qed.

(** X2. [_parse_repo_url] reads back the owner and the name of a URL of
    the form [https://github.com/<owner>/<name>], as the endpoints of
    [github.py] build it, and of the clone URL that ends in [.git]: for
    an owner and a name without [/], and a name that does not contain
    [.git], the two parts come back unchanged. *)
Theorem parse_repo_url_reads_back (owner name : string) :
  ~ Occurs "/" owner ->
  ~ Occurs "/" name ->
  ~ Occurs ".git" name ->
  _parse_repo_url ("https://github.com/" +:+ owner +:+ "/" +:+ name)
  = (Some owner, Some name)
  /\ _parse_repo_url
       ("https://github.com/" +:+ owner +:+ "/" +:+ name +:+ ".git")
     = (Some owner, Some name).
Proof.
  intros Ho Hn Hg.
  assert (Hn' : ~ Occurs "/" (name +:+ ".git")).
  { intros H. apply (occurs_char_app slash) in H as [H|H]; [auto|].
    apply str_in_spec in H. discriminate H. }
  assert (Parts : forall last,
             ~ Occurs "/" last ->
             split slash ("https://github.com/" +:+ owner +:+ "/" +:+ last)
             = ["https:"; ""; "github.com"] ++ [owner; last]).
  { intros last Hl.
    change ("https://github.com/" +:+ owner +:+ "/" +:+ last)
      with ("https:" +:+ String slash
              ("" +:+ String slash
                 ("github.com" +:+ String slash
                    (owner +:+ String slash last)))).
    rewrite !split_app. rewrite (split_free slash owner Ho).
    rewrite (split_free slash last Hl). reflexivity. }
  assert (In : forall last,
             str_in "github.com"
               ("https://github.com/" +:+ owner +:+ "/" +:+ last) = true).
  { intros last. apply str_in_spec.
    exists "https://", ("/" +:+ owner +:+ "/" +:+ last). reflexivity. }
  unfold _parse_repo_url. split.
  - rewrite In, (Parts name Hn).
    destruct (last_snoc2 ["https:"; ""; "github.com"] owner name) as [L B].
    rewrite L, B. cbn [length app Nat.leb].
    unfold str_remove. rewrite remove_from_free by exact Hg. reflexivity.
  - rewrite In, (Parts _ Hn').
    destruct (last_snoc2 ["https:"; ""; "github.com"] owner
                (name +:+ ".git")) as [L B].
    rewrite L, B. cbn [length app Nat.leb].
    unfold str_remove. rewrite remove_git_suffix; [reflexivity|exact Hg|].
    rewrite length_append. cbn. lia.
Qed.

Lemma parse_repo_url_reads_back_witness :
  _parse_repo_url ("https://github.com/" +:+ "octo" +:+ "/" +:+ "repo")
  = (Some "octo", Some "repo").
Proof.
  apply (parse_repo_url_reads_back "octo" "repo");
    intros H; apply str_in_spec in H; discriminate H.
Defined.

End ActivityFacts.

(** ** The progress analysis *)

Module AnalysisFacts.
Import Analysis PyFacts PyMoreFacts.

Lemma truthy_list_nonempty {A} (l : list A) : l <> [] -> truthy_list l = true.
Proof. destruct l; [congruence | reflexivity]. Qed.

Lemma count_of_notin (k : string) (d : list (string * nat)) :
  k ∉ map fst d -> count_of k d = 0%nat.
Proof.
  induction d as [|[k' n] d IH]; intros H; [reflexivity|]. cbn [count_of].
  destruct (String.eqb_spec k' k) as [->|_].
  - exfalso. apply H. left.
  - apply IH. intros H'. apply H. right. exact H'.
Qed.

Lemma keys_increment (k : string) (d : list (string * nat)) :
  map fst (increment k d) = map fst d.
Proof.
  induction d as [|[k' n] d IH]; [reflexivity|]. cbn [increment].
  destruct (String.eqb k' k); cbn; [reflexivity | congruence].
Qed.

Lemma count_of_increment (k k0 : string) (d : list (string * nat)) :
  k ∈ map fst d ->
  count_of k0 (increment k d)
  = if decide (k = k0) then S (count_of k0 d) else count_of k0 d.
Proof.
  induction d as [|[k' n] d IH]; intros H.
  - apply elem_of_nil in H. destruct H.
  - cbn [increment]. destruct (String.eqb_spec k' k) as [->|Hne];
      cbn [count_of].
    + destruct (String.eqb_spec k k0); destruct (decide (k = k0));
        congruence.
    + destruct (String.eqb_spec k' k0) as [->|Hne'].
      * destruct (decide (k = k0)); congruence.
      * apply IH. cbn in H. apply elem_of_cons in H as [H|H];
          [congruence | exact H].
Qed.

Lemma sum_counts_increment (k : string) (d : list (string * nat)) :
  k ∈ map fst d -> sum_counts (increment k d) = S (sum_counts d).
Proof.
  unfold sum_counts. induction d as [|[k' n] d IH]; intros H.
  - apply elem_of_nil in H. destruct H.
  - cbn [increment]. destruct (String.eqb_spec k' k) as [->|Hne]; cbn.
    + reflexivity.
    + cbn in IH. rewrite IH; [lia|]. cbn in H.
      apply elem_of_cons in H as [H|H]; [congruence | exact H].
Qed.

Lemma category_of_known (message_lower category : string)
    (ps : list (string * list string)) :
  category_of message_lower ps = Some category -> category ∈ map fst ps.
Proof.
  induction ps as [|[c kws] ps IH]; [discriminate|]. cbn.
  destruct (any _ kws); [intros [= ->]; left | intros H; right; auto].
Qed.

(** The loop of [_analyze_commit_messages], from any dictionary that has
    the categories as its keys. *)
Lemma categorize_loop (messages : list string) (d : list (string * nat)) :
  map fst d = map fst patterns ->
  let r :=
    fold_left
      (fun categorized message =>
         match category_of (lower message) patterns with
         | Some category => increment category categorized
         | None => categorized
         end) messages d in
  map fst r = map fst patterns
  /\ (forall c,
        count_of c r
        = (count_of c d
           + length (filter (fun m => category_of (lower m) patterns = Some c)
                       messages))%nat)
  /\ sum_counts r
     = (sum_counts d
        + length (filter (fun m => category_of (lower m) patterns <> None)
                    messages))%nat.
Proof.
  revert d. induction messages as [|m messages IH]; intros d Hd.
  - cbv zeta. cbn [fold_left]. rewrite !filter_nil. cbn [length].
    split; [exact Hd|].
    split; [intros c; rewrite filter_nil; cbn [length]; lia | lia].
  - cbn [fold_left]. cbv zeta.
    destruct (category_of (lower m) patterns) as [category|] eqn:E.
    + assert (K : category ∈ map fst d)
        by (rewrite Hd; eapply category_of_known, E).
      destruct (IH (increment category d)) as (H1 & H2 & H3).
      { rewrite keys_increment. exact Hd. }
      split; [exact H1|]. split.
      * intros c. rewrite H2, (count_of_increment _ _ _ K), filter_cons.
        destruct (decide (category = c)) as [->|Hne].
        -- rewrite decide_True by exact E. cbn. lia.
        -- rewrite decide_False by congruence. lia.
      * rewrite H3, (sum_counts_increment _ _ K), filter_cons.
        rewrite decide_True by congruence. cbn. lia.
    + destruct (IH d Hd) as (H1 & H2 & H3).
      split; [exact H1|]. split.
      * intros c. rewrite H2, filter_cons.
        rewrite decide_False by congruence. reflexivity.
      * rewrite H3, filter_cons.
        rewrite decide_False by (intros H; apply H; exact E). reflexivity.
Qed.

Lemma count_of_zeros {B} (c : string) (ps : list (string * B)) :
  count_of c (map (fun p => (fst p, 0%nat)) ps) = 0%nat.
Proof.
  induction ps as [|[k v] ps IH]; [reflexivity|]. cbn [map fst count_of].
  destruct (String.eqb k c); [reflexivity | exact IH].
Qed.

(** X3. [_analyze_commit_messages] counts every message at most once,
    under the first category of the fixed order feature, fix, refactor,
    docs, style, test that has a keyword occurring in the lower-cased
    message: the result has exactly these six keys in this order, the
    counter of a category is the number of messages whose first matching
    category it is, and the counters add up to the number of messages
    that match some category. *)
Theorem commit_messages_are_counted_once (messages : list string) :
  messages <> [] ->
  let r := _analyze_commit_messages messages in
  map fst r = ["feature"; "fix"; "refactor"; "docs"; "style"; "test"]
  /\ (forall c,
        count_of c r
        = length (filter (fun m => category_of (lower m) patterns = Some c)
                    messages))
  /\ sum_counts r
     = length (filter (fun m => category_of (lower m) patterns <> None)
                 messages)
  /\ (sum_counts r <= length messages)%nat.
Proof.
  intros H. cbv zeta. unfold _analyze_commit_messages.
  rewrite (truthy_list_nonempty _ H).
  destruct (categorize_loop messages (map (fun p => (fst p, 0%nat)) patterns))
    as (H1 & H2 & H3); [reflexivity|].
  split; [exact H1|]. split; [|split].
  - intros c. rewrite H2.
    rewrite count_of_zeros. reflexivity.
  - rewrite H3. reflexivity.
  - rewrite H3.
    change (sum_counts (map (fun p => (fst p, 0%nat)) patterns)) with 0%nat.
    cbn [Nat.add]. apply length_filter.
Qed.

Lemma commit_messages_are_counted_once_witness :
  count_of "feature" (_analyze_commit_messages ["Add search and fix typo"])
  = 1%nat.
Proof.
  rewrite (proj1 (proj2
    (commit_messages_are_counted_once ["Add search and fix typo"]
       ltac:(discriminate)))).
  reflexivity.
Defined.

(** X4. For a non-empty list of commits, [_get_most_active_author]
    returns the author of one of the commits, and no author has more
    commits than the one returned. *)
Theorem most_active_author_is_maximal (commits : list GitHub.activity) :
  commits <> [] ->
  let authors := map GitHub.author commits in
  _get_most_active_author commits ∈ authors
  /\ forall b,
       (occurrences b authors
        <= occurrences (_get_most_active_author commits) authors)%nat.
Proof.
  intros H. cbv zeta. unfold _get_most_active_author.
  rewrite (truthy_list_nonempty _ H).
  destruct (max_by_count (tally (map GitHub.author commits)))
    as [[a n]|] eqn:E.
  - apply max_by_count_spec in E as [E1 E2].
    apply tally_item in E1 as [E1 ->]. split; [exact E1|].
    intros b. rewrite <- (count_of_tally b).
    destruct (decide (b ∈ map fst (tally (map GitHub.author commits))))
      as [Hb|Hb].
    + apply (E2 (b, count_of b _)). apply item_of_count, Hb.
    + rewrite count_of_notin by exact Hb. lia.
  - exfalso. destruct commits as [|c commits]; [congruence|].
    assert (K : GitHub.author c
                ∈ map fst (tally (map GitHub.author (c :: commits))))
      by (apply keys_tally; left).
    destruct (tally _); [|discriminate].
    apply elem_of_nil in K. exact K.
Qed.

Lemma most_active_author_is_maximal_witness :
  _get_most_active_author [Examples.one_commit]
  ∈ map GitHub.author [Examples.one_commit].
Proof.
  apply (most_active_author_is_maximal [Examples.one_commit]).
  discriminate.
Defined.

Lemma length_tally_pos (keys : list string) :
  keys <> [] -> (0 < length (tally keys))%nat.
Proof.
  intros H. destruct keys as [|k keys]; [congruence|].
  assert (K : k ∈ map fst (tally (k :: keys))) by (apply keys_tally; left).
  destruct (tally (k :: keys)); [|cbn; lia].
  apply elem_of_nil in K. destruct K.
Qed.

Lemma tally_item_positive (k : string) (n : nat) (keys : list string) :
  (k, n) ∈ tally keys -> (0 < n)%nat.
Proof.
  intros H. apply tally_item in H as [H ->]. unfold occurrences.
  apply list_elem_of_In, in_split in H as (l1 & l2 & ->).
  rewrite filter_app, filter_cons, decide_True by reflexivity.
  rewrite length_app. cbn. lia.
Qed.

Section Commits.
Context {float : Type} (true_div : nat -> nat -> float).

(** X5. [_analyze_commits] reports no commits exactly when the activity
    has no item of type commit.  Otherwise [total_commits] is the number
    of these items, [commit_frequency] has one positive counter per day
    (the first ten characters of a commit's timestamp), no day twice,
    the counters add up to [total_commits], and the average divides
    [total_commits] by the number of days. *)
Theorem commit_frequency_adds_up (activity : list GitHub.activity) :
  let commits := of_type "commit" activity in
  match _analyze_commits true_div activity with
  | NoCommits => commits = []
  | Commits total_commits commit_frequency average_per_day _ author =>
      total_commits = length commits
      /\ (0 < total_commits)%nat
      /\ sum_counts commit_frequency = total_commits
      /\ NoDup (map fst commit_frequency)
      /\ (forall day n,
            (day, n) ∈ commit_frequency ->
            (0 < n)%nat
            /\ exists commit,
                 commit ∈ commits
                 /\ day = str_take 10 (GitHub.timestamp commit))
      /\ average_per_day = true_div total_commits (length commit_frequency)
      /\ author = _get_most_active_author commits
  end.
Proof.
  cbv zeta. unfold _analyze_commits.
  destruct (of_type "commit" activity) as [|c commits] eqn:E;
    [reflexivity|].
  cbn [truthy_list]. split; [reflexivity|]. split; [cbn; lia|].
  split; [rewrite sum_counts_tally, length_map; reflexivity|].
  split; [apply NoDup_keys_tally|]. split; [|split; [|reflexivity]].
  - intros day n H. split; [eapply tally_item_positive, H|].
    apply tally_item in H as [H _].
    apply list_elem_of_fmap in H as [commit [-> H]]. eauto.
  - f_equal. apply Nat.max_l.
    pose proof (length_tally_pos
                  (map (fun commit => str_take 10 (GitHub.timestamp commit))
                     (c :: commits)) ltac:(discriminate)).
    lia.
Qed.

End Commits.

Lemma before_counts_transitive :
  Transitive (before Nat.leb (snd : string * nat -> nat)).
Proof.
  intros x y z. unfold before. rewrite !Nat.leb_le. lia.
Qed.

Lemma length_omap_le {A B} (f : A -> option B) (l : list A) :
  (length (omap f l) <= length l)%nat.
Proof.
  induction l as [|x l IH]; [reflexivity|]. cbn.
  destruct (f x); cbn; lia.
Qed.

(** X6. [_analyze_file_changes] reports no file changes exactly when the
    activity has no commit.  Otherwise [total_files_changed] is the
    number of distinct files of the commits; [most_changed_files] has at
    most five entries, the greatest counter first, no file twice, each
    entry a file of the commits with the number of times it occurs; and
    a file that is left out occurs no more often than any file listed. *)
Theorem most_changed_files_are_the_top_five
    (activity : list GitHub.activity) :
  let files := concat (map files_of (of_type "commit" activity)) in
  match _analyze_file_changes activity with
  | NoFileChanges => of_type "commit" activity = []
  | FileChanges total_files_changed most_changed_files file_types focus =>
      total_files_changed = length (remove_dups files)
      /\ (length most_changed_files <= 5)%nat
      /\ Sorted (before Nat.leb snd) most_changed_files
      /\ NoDup (map fst most_changed_files)
      /\ (forall f n,
            (f, n) ∈ most_changed_files ->
            f ∈ files /\ n = occurrences f files)
      /\ (forall f,
            f ∈ files ->
            f ∉ map fst most_changed_files ->
            forall e, e ∈ most_changed_files ->
                      (occurrences f files <= snd e)%nat)
      /\ (sum_counts file_types <= length files)%nat
      /\ focus = _determine_development_focus file_types
  end.
Proof.
  cbv zeta. unfold _analyze_file_changes.
  destruct (of_type "commit" activity) as [|c commits] eqn:E;
    [reflexivity|].
  cbn [truthy_list].
  set (files := concat (map files_of (c :: commits))).
  set (sorted := sort_reverse Nat.leb snd (tally files)).
  assert (P : sorted ≡ₚ tally files) by apply sort_reverse_perm.
  assert (S : Sorted (before Nat.leb snd) sorted).
  { apply sort_reverse_sorted. intros a b. rewrite !Nat.leb_le. lia. }
  split.
  { rewrite <- (length_map fst (tally files)).
    apply Permutation_length, NoDup_Permutation.
    - apply NoDup_keys_tally.
    - apply NoDup_remove_dups.
    - intros x. rewrite keys_tally, elem_of_remove_dups. reflexivity. }
  split; [rewrite length_take; lia|].
  split; [apply Sorted_take, S|].
  split.
  { rewrite fmap_take. eapply sublist_NoDup; [|apply sublist_take].
    rewrite P. apply NoDup_keys_tally. }
  split.
  { intros f n H. apply elem_of_take in H as [i [H _]].
    apply list_elem_of_lookup_2 in H. rewrite P in H.
    apply tally_item, H. }
  split; [|split; [|reflexivity]].
  - intros f Hf Hout e He.
    assert (K : (f, occurrences f files) ∈ sorted).
    { rewrite P, <- count_of_tally. apply item_of_count, keys_tally, Hf. }
    rewrite <- (take_drop 5 sorted) in K, S.
    apply elem_of_app in K as [K|K].
    + exfalso. apply Hout. apply list_elem_of_fmap.
      exists (f, occurrences f files). auto.
    + pose proof (@Sorted_StronglySorted _ _ before_counts_transitive _ S)
        as S'.
      pose proof (StronglySorted_app_1_elem_of _ _ _ _ _ S' He K) as R.
      unfold before in R. apply Nat.leb_le in R. exact R.
  - rewrite sum_counts_tally. apply length_omap_le.
Qed.

(** The four recommendations, in the order of the rules. *)
Lemma recommendations_cases (activity : list GitHub.activity)
    (stats : option Stats.t) :
  exists b1 b2 b3 b4 : bool,
    _generate_recommendations activity stats
    = (if b1
       then ["Consider increasing commit frequency for better progress tracking"]
       else [])
      ++ (if b2
          then ["Consider creating releases to mark project milestones"]
          else [])
      ++ (if b3
          then ["Encourage team collaboration with more contributors"]
          else [])
      ++ (if b4
          then ["Focus on resolving open issues to maintain project health"]
          else [])
    /\ b1 = (length (of_type "commit" activity) <? 5)%nat
    /\ b2 = negb (truthy_list (recent_releases_of stats))
    /\ b3 = (length (contributors_of stats) =? 1)%nat
    /\ b4 = (10 <? open_issues_of stats).
Proof.
  eexists _, (negb (truthy_list (recent_releases_of stats))), _, _.
  split; [|repeat split]. unfold _generate_recommendations.
  destruct (truthy_list (recent_releases_of stats)); reflexivity.
Qed.

(** X7. [_generate_recommendations] returns a selection of its four
    fixed sentences, in the order of the rules.  The advice to commit
    more often is given exactly when the activity has fewer than five
    commits, the advice to create releases exactly when there are no
    recent releases (or no statistics), the advice on collaboration
    exactly when there is one contributor, and the advice on open issues
    exactly when more than ten are open. *)
Theorem recommendations_follow_the_rules (activity : list GitHub.activity)
    (stats : option Stats.t) :
  let r := _generate_recommendations activity stats in
  r `sublist_of`
    ["Consider increasing commit frequency for better progress tracking";
     "Consider creating releases to mark project milestones";
     "Encourage team collaboration with more contributors";
     "Focus on resolving open issues to maintain project health"]
  /\ ("Consider increasing commit frequency for better progress tracking"
        ∈ r
      <-> (length (of_type "commit" activity) < 5)%nat)
  /\ ("Consider creating releases to mark project milestones" ∈ r
      <-> recent_releases_of stats = [])
  /\ ("Encourage team collaboration with more contributors" ∈ r
      <-> length (contributors_of stats) = 1%nat)
  /\ ("Focus on resolving open issues to maintain project health" ∈ r
      <-> 10 < open_issues_of stats).
Proof.
  cbv zeta.
  destruct (recommendations_cases activity stats)
    as (b1 & b2 & b3 & b4 & -> & H1 & H2 & H3 & H4).
  assert (R1 : b1 = true <-> (length (of_type "commit" activity) < 5)%nat)
    by (rewrite H1; apply Nat.ltb_lt).
  assert (R2 : b2 = true <-> recent_releases_of stats = []).
  { rewrite H2. destruct (recent_releases_of stats); cbn;
      split; congruence. }
  assert (R3 : b3 = true <-> length (contributors_of stats) = 1%nat)
    by (rewrite H3; apply Nat.eqb_eq).
  assert (R4 : b4 = true <-> 10 < open_issues_of stats)
    by (rewrite H4; apply Z.ltb_lt).
  rewrite <- R1, <- R2, <- R3, <- R4. clear.
  destruct b1, b2, b3, b4; cbn [app];
    (split; [repeat first [apply sublist_nil | apply sublist_skip
                          | apply sublist_cons] |]);
    repeat split; intros H; try reflexivity; try discriminate;
    try (repeat first [left | right]; fail);
    exfalso; repeat (apply elem_of_cons in H as [H|H]; [discriminate|]);
    apply elem_of_nil in H; exact H.
Qed.

(** X8. In the metrics of [_calculate_progress_metrics] the commits and
    the issues are counted apart and never exceed the activity score;
    the intensity is High above ten commits, Medium from six to ten, Low
    up to five; and the maturity is Unknown without statistics, Mature
    with at least three contributors and a recent release, Developing
    with two contributors or a recent release, Early Stage otherwise. *)
Theorem progress_metrics_are_consistent (activity : list GitHub.activity)
    (stats : option Stats.t) :
  let m := _calculate_progress_metrics activity stats in
  let commits := length (of_type "commit" activity) in
  let contributors := length (contributors_of stats) in
  let releases := length (recent_releases_of stats) in
  (commit_velocity m + issue_activity m <= activity_score m)%nat
  /\ activity_score m = length activity
  /\ (development_intensity m = "High" <-> (10 < commits)%nat)
  /\ (development_intensity m = "Medium"
      <-> (5 < commits)%nat /\ (commits <= 10)%nat)
  /\ (development_intensity m = "Low" <-> (commits <= 5)%nat)
  /\ (project_maturity m = "Unknown" <-> stats = None)
  /\ (project_maturity m = "Mature"
      <-> stats <> None /\ (3 <= contributors)%nat /\ (1 <= releases)%nat)
  /\ (project_maturity m = "Early Stage"
      <-> stats <> None /\ (contributors <= 1)%nat /\ releases = 0%nat).
Proof.
  cbv zeta. unfold _calculate_progress_metrics.
  cbn [commit_velocity issue_activity activity_score development_intensity
         project_maturity].
  split.
  { unfold of_type. induction activity as [|a activity IH]; [cbn; lia|].
    rewrite !filter_cons.
    destruct (decide (GitHub.type a = "commit")) as [T|T];
      destruct (decide (GitHub.type a = "issue")) as [T'|T']; cbn in *;
      try lia.
    rewrite T in T'. discriminate. }
  split; [reflexivity|].
  split; [|split; [|split]].
  - destruct (Nat.ltb_spec 10 (length (of_type "commit" activity)));
      [split; [lia | reflexivity]|].
    destruct (Nat.ltb_spec 5 (length (of_type "commit" activity)));
      split; try discriminate; lia.
  - destruct (Nat.ltb_spec 10 (length (of_type "commit" activity)));
      [split; [discriminate | lia]|].
    destruct (Nat.ltb_spec 5 (length (of_type "commit" activity)));
      split; try discriminate; try reflexivity; lia.
  - destruct (Nat.ltb_spec 10 (length (of_type "commit" activity)));
      [split; [discriminate | lia]|].
    destruct (Nat.ltb_spec 5 (length (of_type "commit" activity)));
      split; try discriminate; try reflexivity; lia.
  - unfold _assess_project_maturity. destruct stats as [stats|];
      cbn [contributors_of recent_releases_of].
    + destruct (Nat.leb_spec 3 (length (Stats.contributors stats)));
        destruct (Nat.leb_spec 1 (length (Stats.recent_releases stats)));
        destruct (Nat.leb_spec 2 (length (Stats.contributors stats)));
        cbn [andb orb];
        (split; [|split]); split; try discriminate; try reflexivity;
        try (intros [? [? ?]]; lia); try (intros _; repeat split;
                                          try discriminate; lia);
        try congruence.
    + cbn. (split; [|split]); split; try discriminate; try reflexivity;
        intros [? _]; congruence.
Qed.

Section Progress.
Context {float : Type} (true_div : nat -> nat -> float).
Context (api : GitHub.Api) (stats_api : StatsApi).

Lemma get_repository_stats_offline (repo_url : string) (w : world) :
  str_in "github.com" repo_url = false \/ GitHub.github api = false ->
  get_repository_stats api stats_api repo_url w = (None, w).
Proof.
  intros H. unfold get_repository_stats.
  destruct (GitHub._parse_repo_url repo_url) as [[owner|] [repo_name|]]
    eqn:P; try reflexivity.
  destruct (negb _ || negb _); [reflexivity|].
  destruct H as [H|H].
  - unfold GitHub._parse_repo_url in P. rewrite H in P. discriminate.
  - rewrite H. reflexivity.
Qed.


(** Without a token, or for a URL that does not mention github.com,
    nothing is asked and nothing is analysed. *)
Lemma analyze_project_progress_offline (repo_url : string) (w : world) :
  str_in "github.com" repo_url = false \/ GitHub.github api = false ->
  analyze_project_progress true_div api stats_api repo_url w
  = (error "Unable to analyze repository", w).
Proof.
  intros H. unfold analyze_project_progress.
  assert (A : GitHub.get_repository_activity api repo_url 7
                (activity_served w) = ([], activity_served w)).
  { apply ActivityFacts.get_repository_activity_offline.
    destruct H; auto. }
  rewrite A. rewrite (get_repository_stats_offline _ _ H).
  destruct w; reflexivity.
Qed.

Lemma analysis_period_is_fixed (repo_url : string) (w : world)
    (p : progress float) :
  fst (analyze_project_progress true_div api stats_api repo_url w)
  = analysed p ->
  analysis_period p = "Last 7 days".
Proof.
  unfold analyze_project_progress.
  destruct (GitHub.get_repository_activity api repo_url 7 _)
    as [activity served].
  destruct (get_repository_stats api stats_api repo_url _) as [stats w2].
  destruct (negb (truthy_list activity) && negb _); [discriminate|].
  cbn [fst]. intros [= <-]. reflexivity.
Qed.


(** X10. When [analyze_project_progress] has data but the activity holds
    no commit, the analysis says so throughout: [total_commits] is 0,
    there are no file changes, the intensity is Low, and the first
    recommendation is to commit more often.  In every analysis the
    recent activity is the first five items of the activity. *)
Theorem analysis_without_commits (repo_url : string) (w : world)
    (p : progress float) :
  let activity :=
    fst (GitHub.get_repository_activity api repo_url 7 (activity_served w)) in
  fst (analyze_project_progress true_div api stats_api repo_url w)
  = analysed p ->
  recent_activity p = take 5 activity
  /\ (length (recent_activity p) <= 5)%nat
  /\ (of_type "commit" activity = [] ->
      total_commits_of (commit_analysis_of p) = 0%nat
      /\ file_analysis_of p = NoFileChanges
      /\ development_intensity (metrics p) = "Low"
      /\ head (recommendations p)
         = Some "Consider increasing commit frequency for better progress tracking").
Proof.
  cbv zeta. unfold analyze_project_progress.
  destruct (GitHub.get_repository_activity api repo_url 7 _)
    as [activity served].
  destruct (get_repository_stats api stats_api repo_url _) as [stats w2].
  cbn [fst].
  destruct (negb (truthy_list activity) && negb _); [discriminate|].
  intros [= <-].
  cbn [recent_activity commit_analysis_of file_analysis_of metrics
         recommendations].
  split; [reflexivity|]. split; [rewrite length_take; lia|].
  intros E. unfold _analyze_commits, _analyze_file_changes,
    _calculate_progress_metrics, _generate_recommendations.
  rewrite E. cbn. auto.
Qed.

End Progress.


(** A repository with statistics and no activity. *)
Lemma analysis_without_commits_witness :
  exists p,
    fst (analyze_project_progress (fun n m => Z.of_nat n)
           Examples.github_idle Examples.stats_up "https://github.com/o/r"
           Examples.nothing_analysed) = analysed p
    /\ total_commits_of (commit_analysis_of p) = 0%nat.
Proof.
  assert (H : exists p,
             fst (analyze_project_progress (fun n m => Z.of_nat n)
                    Examples.github_idle Examples.stats_up
                    "https://github.com/o/r" Examples.nothing_analysed)
             = analysed p) by (eexists; reflexivity).
  destruct H as [p H]. exists p. split; [exact H|].
  apply (proj2 (proj2
    (analysis_without_commits (fun n m => Z.of_nat n) Examples.github_idle
       Examples.stats_up "https://github.com/o/r"
       Examples.nothing_analysed p H))).
  reflexivity.
Defined.

End AnalysisFacts.

(** ** The other search endpoints *)

Module SearchMoreFacts.
Import SearchMore PyFacts.

Lemma slice_to_take {A} (n : Z) (l : list A) :
  0 <= n -> slice_to n l = take (Z.to_nat n) l.
Proof.
  intros H. unfold slice_to.
  destruct (0 <=? n) eqn:E; [reflexivity|]. apply Z.leb_gt in E. lia.
Qed.

(** X11. For a limit that is not negative, [get_search_suggestions]
    returns at most [limit] suggestions, and exactly [limit] of them when
    the limit is at most 5, whatever the query; each is one of the ten
    common suggestions or one of the five made from the query. *)
Theorem suggestions_respect_the_limit (q : string) (limit : Z) :
  0 <= limit ->
  let r := get_search_suggestions q limit in
  query r = q
  /\ Z.of_nat (length (suggestions r)) <= limit
  /\ (limit <= 5 -> Z.of_nat (length (suggestions r)) = limit)
  /\ (forall s, s ∈ suggestions r ->
                s ∈ common_suggestions \/ s ∈ generic_suggestions q).
Proof.
  intros H. cbv zeta. unfold get_search_suggestions.
  cbn [query suggestions]. rewrite slice_to_take by exact H.
  rewrite length_take. split; [reflexivity|]. split; [lia|]. split.
  - intros L. destruct (Z.ltb_spec (Z.of_nat (length (matching q))) limit).
    + rewrite length_app. cbn [generic_suggestions length]. lia.
    + lia.
  - intros s Hs. apply elem_of_take in Hs as [i [Hs _]].
    apply list_elem_of_lookup_2 in Hs.
    assert (M : forall x, x ∈ matching q -> x ∈ common_suggestions).
    { intros x Hx. apply list_elem_of_In in Hx. apply list_elem_of_In.
      unfold matching in Hx. apply filter_In in Hx. tauto. }
    destruct (Z.of_nat (length (matching q)) <? limit).
    + apply elem_of_app in Hs as [Hs|Hs]; auto.
    + auto.
Qed.

Lemma suggestions_respect_the_limit_witness :
  Z.of_nat (length (suggestions (get_search_suggestions "elastic search" 3)))
  = 3.
Proof.
  apply (proj1 (proj2 (proj2
    (suggestions_respect_the_limit "elastic search" 3 ltac:(lia)))));
    lia.
Defined.

Section Facts.
Context {float rng dict document : Type}.
Context (env : Search.Env float rng dict document).



End Facts.

End SearchMoreFacts.

(** ** The chat endpoints *)

Module ChatEndpointsFacts.
Import ChatEndpoints PyFacts.

Lemma length_str_take (n : nat) (s : string) :
  String.length (str_take n s) = Nat.min n (String.length s).
Proof.
  revert s. induction n as [|n IH]; intros [|c s]; cbn; try reflexivity.
  rewrite IH. reflexivity.
Qed.

Lemma length_excerpt (n : nat) (s : string) :
  (String.length (str_take n s +:+ "...") <= n + 3)%nat.
Proof.
  rewrite ActivityFacts.length_append, length_str_take. cbn. lia.
Qed.

Lemma suggestions_four (message ctype : string) :
  length (_generate_suggestions message ctype) = 4%nat.
Proof.
  unfold _generate_suggestions, context_suggestions. cbn [get_or].
  repeat destruct (String.eqb _ ctype); reflexivity.
Qed.

Section Facts.
Context {float rng document : Type} (env : Env float rng document).

(** The answer of [chat], put together from its steps. *)
Lemma chat_answer (request : ChatRequest) (w : world float rng document) :
  let ctype :=
    Gather.effective_context_type (context_type request) (message request) in
  exists user_embedding text w',
    let docs :=
      Elastic.search_documentation (client env) (message request)
        (Some user_embedding) 3 (es w) in
    let projects :=
      if Gather.wants_projects ctype
      then Elastic.search_devpost_projects (client env) (message request)
             (Some user_embedding) 3 (snd docs)
      else ([], snd docs) in
    let activity :=
      if Gather.wants_activity ctype (repo_url request)
      then GitHub.get_repository_activity (api env)
             (default "" (repo_url request)) 3 (activity_served w)
      else ([], activity_served w) in
    chat env request w
    = (Ok {| response := text;
             sources :=
               map gathered
                 (map Gather.documentation_source (fst docs)
                  ++ map Gather.project_source (fst projects));
             suggestions := _generate_suggestions (message request) ctype;
             conversation_id := None |}, w')
    /\ es w' = snd projects
    /\ activity_served w' = snd activity
    /\ stats_served w' = stats_served w.
Proof.
  cbv zeta. unfold chat.
  destruct (VertexFacts.generate_single_embedding_ok (vertex env)
              (message request) (new_vertex_service env w)) as [v Hv].
  destruct (Vertex.generate_single_embedding _ _ _) as [e s].
  cbn [fst] in Hv. subst e.
  rewrite (GatherFacts.gather_context_deployed (format_score env)
             (client env) (api env) (message request) v
             (context_type request) (repo_url request)
             {| Gather.es := es w; Gather.gh := activity_served w |}).
  cbn [Gather.es Gather.gh Gather.formatted_context Gather.sources
       Gather.context_type].
  destruct (Vertex.generate_response _ _ _ _ _ _ _) as [text s'].
  exists v, text. eexists. split; [reflexivity|].
  cbn [es activity_served stats_served]. auto.
Qed.

(** X13. Once its services are constructed, [chat] answers every
    request, whatever the cluster, the API and the generation service
    do: it never raises.  The answer carries
    four suggestions and no conversation id; its sources are provenance
    records whose excerpts are cut to 300 characters (documentation) or
    200 characters (projects) plus the dots; no request goes to the
    GitHub API unless the context is [progress] and a repository URL is
    given. *)
Theorem chat_always_answers (request : ChatRequest)
    (w : world float rng document) :
  exists answer w',
    chat env request w = (Ok answer, w')
    /\ length (suggestions answer) = 4%nat
    /\ conversation_id answer = None
    /\ (forall s, s ∈ sources answer ->
          match s with
          | gathered (Gather.documentation _ content _ _ _) =>
              (String.length content <= 303)%nat
          | gathered (Gather.devpost_project _ description _ _ _ _) =>
              (String.length description <= 203)%nat
          | _ => False
          end)
    /\ stats_served w' = stats_served w
    /\ (Gather.wants_activity
          (Gather.effective_context_type (context_type request)
             (message request)) (repo_url request) = false ->
        activity_served w' = activity_served w).
Proof.
  destruct (chat_answer request w) as [v [text [w' [H [_ [Ha Hs]]]]]].
  eexists. exists w'. split; [exact H|].
  cbn [suggestions conversation_id sources].
  split; [apply suggestions_four|]. split; [reflexivity|]. split.
  - intros s Hs'. apply list_elem_of_fmap in Hs' as [record [-> Hr]].
    apply elem_of_app in Hr as [Hr|Hr];
      apply list_elem_of_fmap in Hr as [x [-> _]];
      apply length_excerpt.
  - split; [exact Hs|]. intros W. rewrite W in Ha. exact Ha.
Qed.



End Facts.


Section Reports.
Context {float rng document : Type} (env : Env float rng document).

(** X15. [progress_report] never answers with the status 400 it raises
    for a missing repository URL or a failed analysis: both are raised
    inside its [try] block and leave it as the status 500 "Failed to
    generate progress report".  Without a repository URL nothing is
    requested; without a token, or for a URL that does not mention
    github.com, the analysis fails and the answer is that 500.  An
    answer that is returned has one source, the analysis of the last
    seven days, and four suggestions. *)
Theorem progress_report_never_answers_400 (request : ChatRequest)
    (w : world float rng document) :
  let r := progress_report env request w in
  (truthy_opt truthy_str (repo_url request) = false ->
   r = (Raise (HTTPException 500 "Failed to generate progress report"), w))
  /\ (forall url,
        repo_url request = Some url ->
        str_in "github.com" url = false \/ GitHub.github (api env) = false ->
        r = (Raise (HTTPException 500 "Failed to generate progress report"),
             w))
  /\ (forall e,
        fst r = Raise e ->
        e = HTTPException 500 "Failed to generate progress report")
  /\ (forall answer,
        fst r = Ok answer ->
        truthy_opt truthy_str (repo_url request) = true
        /\ (exists p,
              fst (Analysis.analyze_project_progress (true_div env) (api env)
                     (stats_api env) (default "" (repo_url request))
                     {| Analysis.activity_served := activity_served w;
                        Analysis.stats_served := stats_served w |})
              = Analysis.analysed p
              /\ sources answer
                 = [github_analysis (Analysis.repository p) "Last 7 days"
                      (Analysis.total_commits_of
                         (Analysis.commit_analysis_of p))
                      (Analysis.metrics p)])
        /\ length (suggestions answer) = 4%nat
        /\ es (snd r) = es w).
Proof.
  cbv zeta. unfold progress_report, progress_report_body.
  split; [|split; [|split]].
  - intros H. rewrite H. reflexivity.
  - intros url U H. rewrite U. cbn [truthy_opt default].
    destruct (truthy_str url); [|reflexivity]. cbn [negb].
    rewrite (AnalysisFacts.analyze_project_progress_offline (true_div env)
               (api env) (stats_api env) url _ H).
    destruct w; reflexivity.
  - intros e.
    destruct (negb (truthy_opt truthy_str (repo_url request)));
      cbn [fst]; [congruence|].
    destruct (Analysis.analyze_project_progress _ _ _ _ _) as [[detail|p] a];
      cbn [fst]; [congruence|].
    destruct (Vertex.generate_progress_summary _ _ _) as [text s'].
    cbn [fst]. discriminate.
  - intros answer.
    destruct (truthy_opt truthy_str (repo_url request));
      cbn [negb fst]; [|discriminate].
    pose proof (AnalysisFacts.analysis_period_is_fixed (true_div env)
                  (api env) (stats_api env) (default "" (repo_url request))
                  {| Analysis.activity_served := activity_served w;
                     Analysis.stats_served := stats_served w |}) as P.
    destruct (Analysis.analyze_project_progress _ _ _ _ _) as [[detail|p] a];
      cbn [fst]; [discriminate|].
    destruct (Vertex.generate_progress_summary _ _ _) as [text s'].
    cbn [fst snd]. intros [= <-]. cbn [sources suggestions es length].
    split; [reflexivity|]. split; [|auto].
    exists p. split; [reflexivity|]. rewrite (P p eq_refl). reflexivity.
Qed.

(** X16. Once its services are constructed, [validate_idea] answers
    every request, whatever the cluster and the generation service do.
    Its sources are the projects the
    search for five similar projects returned, one source per project and
    in that order, each with its description cut to 200 characters plus
    the dots; when the cluster refuses the search the answer has no
    sources.  It carries four suggestions and sends nothing to GitHub. *)
Theorem validate_idea_always_answers (request : ChatRequest)
    (w : world float rng document) :
  exists idea_embedding answer w',
    let similar :=
      Elastic.search_devpost_projects (client env) (message request)
        (Some idea_embedding) 5 (es w) in
    validate_idea env request w = (Ok answer, w')
    /\ map (fun s =>
              match s with
              | similar_project title _ url score => Some (title, url, score)
              | _ => None
              end) (sources answer)
       = map (fun project =>
                Some (Elastic.Project.title project,
                      Elastic.Project.url project,
                      Elastic.Project.score project)) (fst similar)
    /\ (forall s, s ∈ sources answer ->
          match s with
          | similar_project _ description _ _ =>
              exists project,
                project ∈ fst similar
                /\ description
                   = str_take 200 (Elastic.Project.description project)
                     +:+ "..."
                /\ (String.length description <= 203)%nat
          | _ => False
          end)
    /\ length (suggestions answer) = 4%nat
    /\ es w' = snd similar
    /\ activity_served w' = activity_served w
    /\ stats_served w' = stats_served w
    /\ (Elastic.refused (client env) (message request)
          Settings.DEVPOST_INDEX "embedding"
          (Some ["title"; "description"; "technologies"; "category"]) 5
          (Some idea_embedding) (es w) ->
        sources answer = []).
Proof.
  unfold validate_idea.
  destruct (VertexFacts.generate_single_embedding_ok (vertex env)
              (message request) (new_vertex_service env w)) as [v Hv].
  destruct (Vertex.generate_single_embedding _ _ _) as [e s].
  cbn [fst] in Hv. subst e. exists v. cbv zeta.
  pose proof (ElasticFacts.search_devpost_projects_refused (client env)
                (message request) (Some v) 5 (es w)) as R.
  destruct (Elastic.search_devpost_projects _ _ _ _ _)
    as [similar served].
  destruct (Vertex.generate_idea_validation_response _ _ _ _) as [text s'].
  eexists. eexists. split; [reflexivity|].
  cbn [sources suggestions es activity_served stats_served fst snd length].
  split; [|split; [|split; [reflexivity|split; [reflexivity|
    split; [reflexivity|split; [reflexivity|]]]]]].
  - rewrite map_map. reflexivity.
  - intros x Hx. apply list_elem_of_fmap in Hx as [project [-> Hp]].
    exists project. split; [exact Hp|]. split; [reflexivity|].
    apply length_excerpt.
  - intros H. cbn [fst] in R. rewrite (R H). reflexivity.
Qed.

End Reports.

(** A request without a repository URL. *)
Lemma progress_report_never_answers_400_witness :
  progress_report Examples.chat_env (Examples.ask "How far are we?" None)
    Examples.chat_world
  = (Raise (HTTPException 500 "Failed to generate progress report"),
     Examples.chat_world).
Proof.
  apply (proj1 (progress_report_never_answers_400 Examples.chat_env
                  (Examples.ask "How far are we?" None)
                  Examples.chat_world)).
  reflexivity.
Defined.

End ChatEndpointsFacts.

(** ** Deliveries the webhook accepts *)

Module DeliveryFacts.
Import Webhook.

Section Facts.
Context {float : Type} (env : Env float).

Lemma truthy_str_nonempty (s : string) : truthy_str s = true <-> s <> "".
Proof. destruct s; cbn; split; congruence. Qed.

(** [_verify_signature] accepts exactly the header that carries the
    digest of the body under the configured secret. *)
Lemma verify_signature_true (body : string) (signature : option string) :
  _verify_signature env body signature = true
  <-> GITHUB_WEBHOOK_SECRET env <> ""
      /\ signature
         = Some ("sha256="
                 +:+ hmac_sha256_hexdigest env (GITHUB_WEBHOOK_SECRET env)
                       body).
Proof.
  unfold _verify_signature. split.
  - destruct signature as [s|]; cbn [truthy_opt negb orb default];
      [|discriminate].
    destruct (truthy_str s); cbn [negb orb]; [|discriminate].
    destruct (truthy_str (GITHUB_WEBHOOK_SECRET env)) eqn:T;
      cbn [negb]; [|discriminate].
    intros E. apply String.eqb_eq in E. split.
    + apply truthy_str_nonempty. exact T.
    + rewrite E. reflexivity.
  - intros [S ->]. apply truthy_str_nonempty in S.
    cbn [truthy_opt default]. rewrite S. cbn [negb orb].
    rewrite PyFacts.app_String. cbn [truthy_str negb orb].
    rewrite <- PyFacts.app_String. apply String.eqb_refl.
Qed.

(** X17. A delivery is accepted exactly when a secret is configured and
    the signature header is [sha256=] followed by the digest of the body
    under that secret.  An accepted delivery whose body parses is
    answered with the status [received] and the event type of the
    header, for every event type; it starts one background task for a
    [push], a [pull_request] or an [issues] event and none for any other
    event type or without the header, and then nothing is written.  An
    accepted delivery whose body does not parse is answered with the
    status 500 and starts no task. *)
Theorem accepted_delivery_dispatches_by_event (body : string)
    (signature event_type : option string)
    (served : list (Elastic.es_call float document)) :
  (_verify_signature env body signature = true
   <-> GITHUB_WEBHOOK_SECRET env <> ""
       /\ signature
          = Some ("sha256="
                  +:+ hmac_sha256_hexdigest env (GITHUB_WEBHOOK_SECRET env)
                        body))
  /\ (_verify_signature env body signature = true ->
      (forall e,
          json_loads env body = Raise e ->
          github_webhook env body signature event_type
          = (Raise (HTTPException 500 "Webhook processing failed"), []))
      /\ (forall payload,
            json_loads env body = Ok payload ->
            fst (github_webhook env body signature event_type)
            = Ok {| status := "received"; event := event_type |}
            /\ (event_type = Some "push" ->
                snd (github_webhook env body signature event_type)
                = [process_push_event payload]
                /\ snd (deliver env body signature event_type served)
                   = _process_push_event env payload served)
            /\ (event_type = Some "pull_request" ->
                snd (github_webhook env body signature event_type)
                = [process_pr_event payload]
                /\ snd (deliver env body signature event_type served)
                   = _process_pr_event env payload served)
            /\ (event_type = Some "issues" ->
                snd (github_webhook env body signature event_type)
                = [process_issue_event payload]
                /\ snd (deliver env body signature event_type served)
                   = _process_issue_event env payload served)
            /\ (event_type <> Some "push" ->
                event_type <> Some "pull_request" ->
                event_type <> Some "issues" ->
                snd (github_webhook env body signature event_type) = []
                /\ snd (deliver env body signature event_type served)
                   = served))).
Proof.
  split; [apply verify_signature_true|]. intros V.
  unfold deliver, github_webhook, github_webhook_body. rewrite V.
  cbn [negb]. split.
  - intros e ->. reflexivity.
  - intros payload ->. cbn [fst snd]. split; [reflexivity|].
    split; [|split; [|split]].
    + intros ->. cbn. auto.
    + intros ->. cbn. auto.
    + intros ->. cbn. auto.
    + intros H1 H2 H3. destruct event_type as [e|]; [|cbn; auto].
      destruct (String.eqb_spec e "push") as [->|_]; [congruence|].
      destruct (String.eqb_spec e "pull_request") as [->|_]; [congruence|].
      destruct (String.eqb_spec e "issues") as [->|_]; [congruence|].
      cbn. auto.
Qed.

End Facts.

(** A signed delivery of an event the endpoint does not process. *)
Lemma accepted_delivery_dispatches_by_event_witness :
  fst (github_webhook Examples.webhook_env "{}" (Some "sha256=s3cret:{}")
         (Some "ping"))
  = Ok {| status := "received"; event := Some "ping" |}.
Proof.
  apply (proj2 (proj2
    (accepted_delivery_dispatches_by_event Examples.webhook_env "{}"
       (Some "sha256=s3cret:{}") (Some "ping") []) eq_refl)
    Examples.push_payload eq_refl).
Defined.

End DeliveryFacts.

(** ** The endpoints of github.py *)

Module GitHubEndpointsFacts.
Import GitHubEndpoints.

Section Facts.
Context {float : Type} (true_div : nat -> nat -> float).
Context (api : GitHub.Api) (stats_api : Analysis.StatsApi).

(** X18. [get_repository_activity] of [github.py] always answers, for
    path parameters without [/]: the answer names the repository as the
    path does, counts at most 20 activities, and [total_activities] is
    the length of the list.  With a token and non-empty names, the one
    request it sends asks for the repository whose name is the path's
    with every [.git] removed: the name of the path itself only when it
    does not contain [.git]. *)
Theorem activity_endpoint_asks_for_the_stripped_name (owner repo : string)
    (days : Z) (served : list GitHub.gh_call) :
  ~ Occurs "/" owner ->
  ~ Occurs "/" repo ->
  exists answer,
    fst (get_repository_activity api owner repo days served) = Ok answer
    /\ repository_name answer = owner +:+ "/" +:+ repo
    /\ period_days answer = days
    /\ total_activities answer = length (activity answer)
    /\ (total_activities answer <= 20)%nat
    /\ (GitHub.github api = true ->
        owner <> "" ->
        str_remove ".git" repo <> "" ->
        snd (get_repository_activity api owner repo days served)
        = served
          ++ [GitHub.RepoActivity
                (owner +:+ "/" +:+ str_remove ".git" repo) days])
    /\ (~ Occurs ".git" repo -> str_remove ".git" repo = repo).
Proof.
  intros Ho Hr. unfold get_repository_activity.
  pose proof (ActivityFacts.parse_built_url owner repo Ho Hr) as P.
  unfold GitHub.get_repository_activity, repo_url_of. rewrite P.
  assert (Free : ~ Occurs ".git" repo -> str_remove ".git" repo = repo).
  { intros H. apply ActivityFacts.remove_from_free. exact H. }
  destruct (negb (truthy_str owner) || negb (truthy_str (str_remove _ repo)))
    eqn:T.
  - eexists. split; [reflexivity|].
    cbn [repository_name period_days total_activities activity length snd].
    split; [reflexivity|]. split; [reflexivity|]. split; [reflexivity|].
    split; [lia|]. split; [|exact Free].
    intros _ O R. exfalso.
    apply DeliveryFacts.truthy_str_nonempty in O.
    apply DeliveryFacts.truthy_str_nonempty in R.
    rewrite O, R in T. discriminate.
  - destruct (GitHub.github api).
    + eexists. split; [reflexivity|].
      cbn [repository_name period_days total_activities activity snd].
      split; [reflexivity|]. split; [reflexivity|]. split; [reflexivity|].
      split; [|split; [reflexivity|exact Free]].
      destruct (GitHub.repo_activity api served _ days);
        [rewrite length_take; lia | cbn; lia].
    + eexists. split; [reflexivity|].
      cbn [repository_name period_days total_activities activity length
           snd].
      split; [reflexivity|]. split; [reflexivity|]. split; [reflexivity|].
      split; [lia|]. split; [|exact Free].
      discriminate.
Qed.

(** X19. The status 400 of [analyze_repository] and the status 404 of
    [get_repository_stats] never reach the client: both are raised
    inside the [try] block and leave the endpoint as the status 500.
    [analyze_repository] answers with the analysis exactly when there is
    one and with the status 500 exactly when the service reports an
    error; [get_repository_stats] answers with the statistics exactly
    when the service has them and with the status 500 exactly when it
    has none.  Without a token both answer with the status 500. *)
Theorem service_errors_are_answered_500 (repo_url owner repo : string)
    (w : Analysis.world) :
  let analysis :=
    fst (Analysis.analyze_project_progress true_div api stats_api
           repo_url w) in
  let stats :=
    fst (Analysis.get_repository_stats api stats_api
           (repo_url_of owner repo) w) in
  (forall p,
      fst (analyze_repository true_div api stats_api repo_url w) = Ok p
      <-> analysis = Analysis.analysed p)
  /\ (forall e,
        fst (analyze_repository true_div api stats_api repo_url w) = Raise e
        <-> (exists detail, analysis = Analysis.error detail)
            /\ e = HTTPException 500 "Failed to analyze repository")
  /\ (forall s,
        fst (get_repository_stats api stats_api owner repo w) = Ok s
        <-> stats = Some s)
  /\ (forall e,
        fst (get_repository_stats api stats_api owner repo w) = Raise e
        <-> stats = None
            /\ e = HTTPException 500 "Failed to get repository stats")
  /\ (GitHub.github api = false ->
      analyze_repository true_div api stats_api repo_url w
      = (Raise (HTTPException 500 "Failed to analyze repository"), w)
      /\ get_repository_stats api stats_api owner repo w
         = (Raise (HTTPException 500 "Failed to get repository stats"), w)).
Proof.
  cbv zeta. unfold analyze_repository, analyze_repository_body,
    get_repository_stats, get_repository_stats_body.
  split; [|split; [|split; [|split]]].
  - intros p.
    destruct (Analysis.analyze_project_progress _ _ _ _ _)
      as [[detail|p'] w']; cbn [fst]; split; congruence.
  - intros e.
    destruct (Analysis.analyze_project_progress _ _ _ _ _)
      as [[detail|p'] w']; cbn [fst]; split.
    + intros [= <-]. eauto.
    + intros [_ ->]. reflexivity.
    + discriminate.
    + intros [[detail H] _]. discriminate.
  - intros s.
    destruct (Analysis.get_repository_stats _ _ _ _) as [[s'|] w'];
      cbn [fst]; split; congruence.
  - intros e.
    destruct (Analysis.get_repository_stats _ _ _ _) as [[s'|] w'];
      cbn [fst]; split.
    + discriminate.
    + intros [H _]. discriminate.
    + intros [= <-]. auto.
    + intros [_ ->]. reflexivity.
  - intros G.
    rewrite (AnalysisFacts.analyze_project_progress_offline true_div api
               stats_api repo_url w (or_intror G)).
    rewrite (AnalysisFacts.get_repository_stats_offline api stats_api
               (repo_url_of owner repo) w (or_intror G)).
    auto.
Qed.

End Facts.

Section Hook.
Context {float : Type} (env : Env float).




End Hook.

(** A GitHub Pages repository: the request goes to another name. *)
Lemma activity_endpoint_asks_for_the_stripped_name_witness :
  snd (get_repository_activity Examples.github_up "octo" "octo.github.io" 7
         [])
  = [GitHub.RepoActivity "octo/octohub.io" 7].
Proof.
  destruct (activity_endpoint_asks_for_the_stripped_name Examples.github_up
              "octo" "octo.github.io" 7 [])
    as [answer [_ [_ [_ [_ [_ [H _]]]]]]].
  - intros H. apply PyFacts.str_in_spec in H. discriminate H.
  - intros H. apply PyFacts.str_in_spec in H. discriminate H.
  - apply H; [reflexivity|discriminate|discriminate].
Defined.

(** Without a token. *)
Lemma service_errors_are_answered_500_witness :
  get_repository_stats
    {| GitHub.github := false;
       GitHub.repo_activity _ _ _ := Ok [Examples.one_commit] |}
    Examples.stats_up "o" "r" Examples.nothing_analysed
  = (Raise (HTTPException 500 "Failed to get repository stats"),
     Examples.nothing_analysed).
Proof.
  apply (proj2 (proj2 (proj2 (proj2
    (service_errors_are_answered_500 (fun n m => Z.of_nat n)
       {| GitHub.github := false;
          GitHub.repo_activity _ _ _ := Ok [Examples.one_commit] |}
       Examples.stats_up "https://github.com/o/r" "o" "r"
       Examples.nothing_analysed)))) eq_refl).
Defined.



End GitHubEndpointsFacts.

(** ** The real service, and the facade over it *)

Module RealVertexFacts.
Import RealVertex.

Lemma last_items_app {A} (old recent : list A) (n : nat) :
  length recent = n -> last_items n (old ++ recent) = recent.
Proof.
  intros <-. unfold last_items. rewrite length_app.
  replace (length old + length recent - length recent)%nat
    with (length old) by lia.
  apply drop_app_length.
Qed.

Lemma last_items_all {A} (l : list A) (n : nat) :
  (length l <= n)%nat -> last_items n l = l.
Proof.
  intros H. unfold last_items.
  replace (length l - n)%nat with 0%nat by lia. reflexivity.
Qed.

(** X22. [_build_prompt] reads the last five messages of the
    conversation only: any earlier messages change nothing in the
    prompt.  A conversation of at most five messages is rendered in
    full, one line per message; an empty conversation and an empty
    context are left out of the prompt like missing ones. *)
Theorem build_prompt_reads_the_last_five_messages (user_query : string)
    (context : option string) (old recent : Vertex.history) :
  (length recent = 5%nat ->
   _build_prompt user_query context (Some (old ++ recent))
   = _build_prompt user_query context (Some recent))
  /\ ((length recent <= 5)%nat ->
      history_lines recent
      = map (fun msg => capitalize (fst msg) +:+ ": " +:+ snd msg) recent)
  /\ length (history_lines (old ++ recent)) = Nat.min 5 (length (old ++ recent))
  /\ _build_prompt user_query context (Some [])
     = _build_prompt user_query context None
  /\ _build_prompt user_query (Some "") (Some recent)
     = _build_prompt user_query None (Some recent).
Proof.
  split; [|split; [|split; [|split]]].
  - intros L. unfold _build_prompt, history_lines.
    cbn [truthy_opt default from_option id].
    rewrite (last_items_app old recent 5 L).
    rewrite (last_items_all recent 5) by lia.
    destruct recent as [|m recent]; [discriminate|].
    destruct old; reflexivity.
  - intros L. unfold history_lines. rewrite last_items_all by exact L.
    reflexivity.
  - unfold history_lines, last_items. rewrite length_map, length_drop. lia.
  - reflexivity.
  - reflexivity.
Qed.

Lemma build_prompt_reads_the_last_five_messages_witness :
  _build_prompt "What next?" None (Some Examples.six_messages)
  = _build_prompt "What next?" None (Some (drop 1 Examples.six_messages)).
Proof.
  apply (proj1 (build_prompt_reads_the_last_five_messages "What next?" None
                  (take 1 Examples.six_messages)
                  (drop 1 Examples.six_messages))).
  reflexivity.
Defined.

Section Facts.
Context {float rng : Type}.
Context (sdk : Sdk float).
Context (env : Vertex.Env float rng (ChatEndpoints.payload float)).
Hypothesis own : Vertex.real env = service sdk.

Lemma apology_is_long : (10 <? String.length apology)%nat = true.
Proof. reflexivity. Qed.

(** The text of [generate_response] when the model raises. *)
Lemma generate_response_down served prompt context conversation_history
    max_tokens temperature :
  (forall served prompt config, exists e,
      generate_content sdk served prompt config = Raise e) ->
  generate_response sdk served prompt context conversation_history
    max_tokens temperature = apology.
Proof.
  intros D. unfold generate_response.
  destruct (D served
              (_build_prompt prompt context conversation_history)
              (ResponseConfig
                 match max_tokens with
                 | Some n => if n =? 0 then MAX_TOKENS sdk else n
                 | None => MAX_TOKENS sdk
                 end
                 match temperature with
                 | Some t =>
                     if truthy_float sdk t then t else TEMPERATURE sdk
                 | None => TEMPERATURE sdk
                 end)) as [e ->].
  reflexivity.
Qed.

Lemma use_fallback_embeddings_flags texts
    (s : Vertex.state float rng (ChatEndpoints.payload float)) :
  Vertex.fallback_active (snd (Vertex.use_fallback_embeddings env texts s))
  = Vertex.fallback_active s
  /\ Vertex.real_service (snd (Vertex.use_fallback_embeddings env texts s))
     = Vertex.real_service s.
Proof.
  unfold Vertex.use_fallback_embeddings.
  destruct (Vertex.fallback_embeddings env texts (Vertex.rnd s)).
  split; reflexivity.
Qed.

Lemma use_fallback_response_flags prompt context
    (s : Vertex.state float rng (ChatEndpoints.payload float)) :
  Vertex.fallback_active
    (snd (Vertex.use_fallback_response env prompt context s))
  = Vertex.fallback_active s
  /\ Vertex.real_service
       (snd (Vertex.use_fallback_response env prompt context s))
     = Vertex.real_service s.
Proof.
  unfold Vertex.use_fallback_response.
  destruct (Vertex._generate_fallback_response env prompt context
              (Vertex.rnd s)).
  split; reflexivity.
Qed.

Lemma generate_embeddings_flags texts
    (s : Vertex.state float rng (ChatEndpoints.payload float)) :
  Vertex.fallback_active s = false ->
  Vertex.fallback_active (snd (Vertex.generate_embeddings env texts s))
  = false
  /\ Vertex.real_service (snd (Vertex.generate_embeddings env texts s))
     = Vertex.real_service s.
Proof.
  intros F. unfold Vertex.generate_embeddings. rewrite own.
  cbn [service Vertex.real_generate_embeddings].
  destruct (Vertex.real_service s && negb (Vertex.fallback_active s)).
  - destruct (truthy_list _ && _).
    + cbn [snd Vertex.sent Vertex.fallback_active Vertex.real_service].
      auto.
    + destruct (use_fallback_embeddings_flags texts
                  (Vertex.sent (Vertex.RealGenerateEmbeddings texts) s))
        as [-> ->].
      cbn [Vertex.sent Vertex.fallback_active Vertex.real_service]. auto.
  - destruct (use_fallback_embeddings_flags texts s) as [-> ->]. auto.
Qed.

Lemma generate_single_embedding_flags text
    (s : Vertex.state float rng (ChatEndpoints.payload float)) :
  Vertex.fallback_active s = false ->
  Vertex.fallback_active
    (snd (Vertex.generate_single_embedding env text s)) = false
  /\ Vertex.real_service (snd (Vertex.generate_single_embedding env text s))
     = Vertex.real_service s.
Proof.
  intros F. unfold Vertex.generate_single_embedding. rewrite own.
  cbn [service Vertex.real_generate_single_embedding].
  assert (V : forall s0 : Vertex.state float rng (ChatEndpoints.payload float),
             Vertex.fallback_active s0 = false ->
             Vertex.fallback_active
               (snd (Vertex.single_via_embeddings env text s0)) = false
             /\ Vertex.real_service
                  (snd (Vertex.single_via_embeddings env text s0))
                = Vertex.real_service s0).
  { intros s0 F0. unfold Vertex.single_via_embeddings.
    pose proof (generate_embeddings_flags [text] s0 F0) as G.
    destruct (Vertex.generate_embeddings env [text] s0). exact G. }
  destruct (Vertex.real_service s && negb (Vertex.fallback_active s)).
  - destruct (truthy_list _ && _).
    + cbn [snd Vertex.sent Vertex.fallback_active Vertex.real_service].
      auto.
    + apply (V (Vertex.sent (Vertex.RealGenerateSingleEmbedding text) s)).
      exact F.
  - apply V. exact F.
Qed.

Lemma generate_response_flags prompt context conversation_history
    max_tokens temperature
    (s : Vertex.state float rng (ChatEndpoints.payload float)) :
  Vertex.fallback_active s = false ->
  Vertex.fallback_active
    (snd (Vertex.generate_response env prompt context conversation_history
            max_tokens temperature s)) = false
  /\ Vertex.real_service
       (snd (Vertex.generate_response env prompt context
               conversation_history max_tokens temperature s))
     = Vertex.real_service s.
Proof.
  intros F. unfold Vertex.generate_response. rewrite own.
  cbn [service Vertex.real_generate_response].
  destruct (Vertex.real_service s && negb (Vertex.fallback_active s)).
  - destruct (truthy_str _ && _).
    + cbn [snd Vertex.sent Vertex.fallback_active Vertex.real_service].
      auto.
    + destruct (use_fallback_response_flags prompt context
                  (Vertex.sent
                     (Vertex.RealGenerateResponse prompt context
                        conversation_history max_tokens temperature) s))
        as [-> ->].
      cbn [Vertex.sent Vertex.fallback_active Vertex.real_service]. auto.
  - destruct (use_fallback_response_flags prompt context s) as [-> ->].
    auto.
Qed.

Lemma generate_flags (g : Vertex.generation float (ChatEndpoints.payload float))
    (s : Vertex.state float rng (ChatEndpoints.payload float)) :
  Vertex.fallback_active s = false ->
  Vertex.fallback_active (snd (Vertex.generate env g s)) = false
  /\ Vertex.real_service (snd (Vertex.generate env g s))
     = Vertex.real_service s.
Proof.
  intros F. destruct g; cbn [Vertex.generate].
  - pose proof (generate_embeddings_flags texts s F) as H.
    destruct (Vertex.generate_embeddings env texts s). exact H.
  - pose proof (generate_single_embedding_flags text s F) as H.
    destruct (Vertex.generate_single_embedding env text s). exact H.
  - pose proof (generate_response_flags prompt context conversation_history
                  max_tokens temperature s F) as H.
    destruct (Vertex.generate_response env prompt context
                conversation_history max_tokens temperature s). exact H.
  - unfold Vertex.generate_idea_validation_response. rewrite own.
    cbn [service Vertex.real_generate_idea_validation_response].
    destruct (Vertex.real_service s && negb (Vertex.fallback_active s)).
    + cbn [snd Vertex.sent Vertex.fallback_active Vertex.real_service].
      auto.
    + unfold Vertex.use_fallback_idea_validation.
      destruct (Vertex._fallback_idea_validation env _ _ _). cbn. auto.
  - unfold Vertex.generate_progress_summary. rewrite own.
    cbn [service Vertex.real_generate_progress_summary].
    destruct (Vertex.real_service s && negb (Vertex.fallback_active s));
      cbn; auto.
  - unfold Vertex.build_comprehensive_prompt. rewrite own.
    cbn [service Vertex.real_build_comprehensive_prompt].
    destruct (Vertex.real_service s && negb (Vertex.fallback_active s));
      cbn; auto.
Qed.

Lemma facade_generate_response_down prompt context conversation_history
    max_tokens temperature
    (s : Vertex.state float rng (ChatEndpoints.payload float)) :
  Vertex.fallback_active s = false ->
  Vertex.real_service s = true ->
  (forall served prompt config, exists e,
      generate_content sdk served prompt config = Raise e) ->
  fst (Vertex.generate_response env prompt context conversation_history
         max_tokens temperature s)
  = apology.
Proof.
  intros F R D. unfold Vertex.generate_response. rewrite own, R, F.
  cbn [service Vertex.real_generate_response andb negb].
  rewrite (generate_response_down _ _ _ _ _ _ D).
  reflexivity.
Qed.

(** X23. Over the real service of [vertex_service.py] no generation
    call of the facade activates the fallback: the real service catches
    its own exceptions, so the facade's [except] branches are never
    taken.  Whatever the SDK does, a facade that is not in fallback stays
    so through any sequence of generation calls.  When the generative
    model is unreachable, [generate_response] of a facade with the real
    service returns the apology of the real service, not a fallback
    answer. *)
Theorem own_service_never_activates_the_fallback
    (gs : list (Vertex.generation float (ChatEndpoints.payload float)))
    (s : Vertex.state float rng (ChatEndpoints.payload float)) :
  Vertex.fallback_active s = false ->
  Vertex.fallback_active
    (snd (Vertex.serve_all env (map Vertex.Generation gs) s)) = false
  /\ (Vertex.real_service s = true ->
      (forall served prompt config, exists e,
          generate_content sdk served prompt config = Raise e) ->
      forall prompt context conversation_history max_tokens temperature,
        fst (Vertex.generate_response env prompt context
               conversation_history max_tokens temperature s)
        = apology).
Proof.
  intros F. split.
  - revert s F. induction gs as [|g gs IH]; intros s F; [exact F|].
    cbn [map Vertex.serve_all Vertex.serve].
    pose proof (generate_flags g s F) as [G _].
    destruct (Vertex.generate env g s) as [a s1]. cbn [snd] in G.
    specialize (IH s1 G).
    destruct (Vertex.serve_all env (map Vertex.Generation gs) s1).
    exact IH.
  - intros R D prompt context conversation_history max_tokens temperature.
    apply facade_generate_response_down; assumption.
Qed.

End Facts.

Section Chat.
Context {float rng document : Type}.
Context (sdk : Sdk float).
Context (env : ChatEndpoints.Env float rng document).

(** X24. When the real service is constructed and the generative model
    is unreachable, [chat] answers every request with the apology of the
    real service: the fallback answers of the facade are not used. *)
Theorem chat_apologises_when_the_model_is_down
    (request : ChatEndpoints.ChatRequest)
    (w : ChatEndpoints.world float rng document) :
  Vertex.real (ChatEndpoints.vertex env) = service sdk ->
  ChatEndpoints.vertex_available env = true ->
  (forall served prompt config, exists e,
      generate_content sdk served prompt config = Raise e) ->
  exists answer w',
    ChatEndpoints.chat env request w = (Ok answer, w')
    /\ ChatEndpoints.response answer = apology.
Proof.
  intros own A D. unfold ChatEndpoints.chat.
  destruct (VertexFacts.generate_single_embedding_ok
              (ChatEndpoints.vertex env) (ChatEndpoints.message request)
              (ChatEndpoints.new_vertex_service env w)) as [v Hv].
  pose proof (generate_single_embedding_flags sdk (ChatEndpoints.vertex env)
                own (ChatEndpoints.message request)
                (ChatEndpoints.new_vertex_service env w) eq_refl)
    as [F R].
  destruct (Vertex.generate_single_embedding _ _ _) as [e s].
  cbn [fst snd] in Hv, F, R. subst e.
  destruct (Gather._gather_context _ _ _ _ _ _ _) as [context_data g].
  assert (R' : Vertex.real_service s = true).
  { rewrite R. unfold ChatEndpoints.new_vertex_service, Vertex.init.
    cbn [Vertex.real_service]. exact A. }
  pose proof (facade_generate_response_down sdk (ChatEndpoints.vertex env)
                own (ChatEndpoints.message request)
                (Some (Gather.formatted_context context_data))
                (Some (ChatEndpoints.history_of request)) 2048
                (ChatEndpoints.temperature env) s F R' D) as T.
  destruct (Vertex.generate_response _ _ _ _ _ _ _) as [text s'].
  cbn [fst] in T. subst text. eexists. eexists. split; reflexivity.
Qed.

End Chat.

Lemma own_service_never_activates_the_fallback_witness :
  fst (Vertex.generate_response Examples.own_vertex "How do I start?" None
         None 2048 7 (Vertex.init true [] 0))
  = apology.
Proof.
  apply (proj2 (own_service_never_activates_the_fallback
                  Examples.unreachable_sdk Examples.own_vertex eq_refl []
                  (Vertex.init true [] 0) eq_refl) eq_refl).
  intros served prompt config. eexists. reflexivity.
Defined.

Lemma chat_apologises_when_the_model_is_down_witness :
  exists answer w',
    ChatEndpoints.chat Examples.own_chat_env
      (Examples.ask "How do I start?" None) Examples.chat_world
    = (Ok answer, w')
    /\ ChatEndpoints.response answer = apology.
Proof.
  apply (chat_apologises_when_the_model_is_down Examples.unreachable_sdk
           Examples.own_chat_env (Examples.ask "How do I start?" None)
           Examples.chat_world eq_refl eq_refl).
  intros served prompt config. eexists. reflexivity.
Defined.

End RealVertexFacts.

(** ** The health endpoint and the settings *)

Module HealthFacts.
Import Health.

Section Facts.
Context {float rng dict : Type}.
Context (vertex : Vertex.Env float rng dict) (vertex_available : bool).
Context (probes : Probes).

Lemma vertex_health_check_true (s : Vertex.state float rng dict) :
  fst (Vertex.health_check vertex s) = true.
Proof.
  unfold Vertex.health_check. destruct (Vertex.real_service s);
    [|reflexivity].
  destruct (Vertex.real_health_check _ _) as [[|]|e]; reflexivity.
Qed.

Lemma elastic_health_check_true :
  elastic_health_check probes = true
  <-> cluster_health_status probes = Ok "green"
      \/ cluster_health_status probes = Ok "yellow".
Proof.
  unfold elastic_health_check.
  destruct (cluster_health_status probes) as [colour|e].
  - rewrite orb_true_iff, !String.eqb_eq.
    split; intros [H|H]; solve [left; congruence | right; congruence].
  - split; [discriminate|]. intros [H|H]; discriminate.
Qed.

Lemma github_health_check_true :
  github_health_check probes = true
  <-> github_token probes = true
      /\ exists login, user_login probes = Ok login /\ login <> "".
Proof.
  unfold github_health_check. destruct (github_token probes); cbn [negb].
  - destruct (user_login probes) as [login|e].
    + rewrite DeliveryFacts.truthy_str_nonempty. split.
      * intros H. split; [reflexivity|]. exists login. auto.
      * intros [_ [l [[= <-] H]]]. exact H.
    + split; [discriminate|]. intros [_ [l [H _]]]. discriminate.
  - split; [discriminate|]. intros [H _]. discriminate.
Qed.

(** X27. [health_check] of [health.py] always answers, and reports the
    three services in the order elasticsearch, vertex_ai, github.  The
    entry of vertex_ai is always [healthy], whether or not the real
    service exists or answers, so it never degrades the overall status:
    that status is [healthy] exactly when the Elasticsearch service can
    be constructed and its cluster reports green or yellow, and the
    GitHub service can be constructed, has a token and reads a login;
    otherwise it is [degraded]. *)
Theorem health_status_ignores_vertex_ai
    (served : list (Vertex.real_call float dict)) (g : rng) :
  exists r,
    health_check vertex vertex_available probes served g = Ok r
    /\ map fst (services r) = ["elasticsearch"; "vertex_ai"; "github"]
    /\ map fst (details r) = ["elasticsearch"; "vertex_ai"; "github"]
    /\ ("vertex_ai", "healthy") ∈ services r
    /\ ("vertex_ai", model_available true) ∈ details r
    /\ (status r = "healthy"
        <-> (exists u, new_elastic_service probes = Ok u)
            /\ (cluster_health_status probes = Ok "green"
                \/ cluster_health_status probes = Ok "yellow")
            /\ (exists u, new_github_service probes = Ok u)
            /\ github_token probes = true
            /\ (exists login, user_login probes = Ok login /\ login <> ""))
    /\ (status r <> "healthy" -> status r = "degraded").
Proof.
  unfold health_check. rewrite vertex_health_check_true.
  eexists. split; [reflexivity|].
  cbn [status services details map fst snd status_of].
  split; [reflexivity|]. split; [reflexivity|].
  split; [apply list_elem_of_further, list_elem_of_here|].
  split; [apply list_elem_of_further, list_elem_of_here|].
  rewrite <- elastic_health_check_true, <- github_health_check_true.
  destruct (new_elastic_service probes) as [u1|e1];
    destruct (new_github_service probes) as [u2|e2];
    try destruct (elastic_health_check probes);
    try destruct (github_health_check probes);
    cbn; (split; [split|]);
    try discriminate; try tauto; try congruence;
    try (intros _; repeat split; eauto; fail);
    try (intros [[? ?] _]; discriminate);
    try (intros [_ [_ [[? ?] _]]]; discriminate);
    try (intros [_ [? _]]; discriminate);
    try (intros [_ [_ [_ ?]]]; discriminate).
Qed.

End Facts.

End HealthFacts.

Module ConfigFacts.
Import Config.

Lemma length_split (sep : Ascii.ascii) (s : string) :
  length (split sep s) = S (count_char sep s).
Proof.
  induction s as [|c s IH]; [reflexivity|]. cbn [split count_char].
  destruct (Ascii.eqb c sep).
  - cbn [length]. rewrite IH. reflexivity.
  - destruct (split sep s) as [|part parts]; [discriminate|].
    cbn [length] in *. exact IH.
Qed.

Lemma first_char_lstrip (s : string) (c : Ascii.ascii) :
  first_char (lstrip s) = Some c -> is_space c = false.
Proof.
  induction s as [|a s IH]; [discriminate|]. cbn [lstrip].
  destruct (is_space a) eqn:E; [exact IH|].
  cbn [first_char]. intros [= <-]. exact E.
Qed.

Lemma rstrip_cons (a : Ascii.ascii) (s : string) :
  rstrip (String a s) = ""
  \/ exists r, rstrip (String a s) = String a r.
Proof.
  cbn [rstrip]. destruct (rstrip s) as [|b r].
  - destruct (is_space a); [left; reflexivity | right; eauto].
  - right. eauto.
Qed.

Lemma first_char_rstrip (s : string) (c : Ascii.ascii) :
  first_char (rstrip s) = Some c -> first_char s = Some c.
Proof.
  destruct s as [|a s]; [discriminate|].
  destruct (rstrip_cons a s) as [->|[r ->]]; [discriminate|].
  intros H. exact H.
Qed.

Lemma last_char_rstrip (s : string) (c : Ascii.ascii) :
  last_char (rstrip s) = Some c -> is_space c = false.
Proof.
  induction s as [|a s IH]; [discriminate|]. cbn [rstrip].
  destruct (rstrip s) as [|b r].
  - destruct (is_space a) eqn:E; [discriminate|].
    cbn [last_char]. intros [= <-]. exact E.
  - intros H. apply IH. exact H.
Qed.

Lemma lstrip_fixed (s : string) :
  (forall c, first_char s = Some c -> is_space c = false) -> lstrip s = s.
Proof.
  destruct s as [|a s]; [reflexivity|]. intros H. cbn [lstrip].
  rewrite (H a eq_refl). reflexivity.
Qed.

Lemma rstrip_fixed (s : string) :
  (forall c, last_char s = Some c -> is_space c = false) -> rstrip s = s.
Proof.
  induction s as [|a s IH]; [reflexivity|]. intros H. cbn [rstrip].
  destruct s as [|b s].
  - cbn [rstrip]. rewrite (H a eq_refl). reflexivity.
  - rewrite IH by (intros c Hc; apply H; exact Hc). reflexivity.
Qed.

(** X28. [cors_origins_list] returns one origin per comma of the
    setting, plus one, and every origin is stripped: it neither starts
    nor ends with white space, so that stripping it again changes
    nothing. *)
Theorem cors_origins_are_stripped (CORS_ORIGINS : string) :
  length (cors_origins_list CORS_ORIGINS)
  = S (count_char comma CORS_ORIGINS)
  /\ (forall origin,
        origin ∈ cors_origins_list CORS_ORIGINS ->
        (forall c, first_char origin = Some c -> is_space c = false)
        /\ (forall c, last_char origin = Some c -> is_space c = false)
        /\ strip origin = origin).
Proof.
  unfold cors_origins_list. split.
  - rewrite length_map. apply length_split.
  - intros origin H. apply list_elem_of_fmap in H as [part [-> _]].
    assert (F : forall c, first_char (strip part) = Some c ->
                          is_space c = false).
    { intros c H. apply first_char_rstrip in H.
      apply (first_char_lstrip part c H). }
    assert (L : forall c, last_char (strip part) = Some c ->
                          is_space c = false).
    { intros c H. apply (last_char_rstrip (lstrip part) c H). }
    split; [exact F|]. split; [exact L|].
    unfold strip at 1. rewrite (lstrip_fixed _ F). apply rstrip_fixed, L.
Qed.

End ConfigFacts.

(** ** The contexts of the real service and the fallback answers *)

Module ContextFacts.
Import RealVertex.

Section Facts.
Context {float : Type} (sdk : Sdk float).

Lemma truthy_take {A} (n : nat) (l : list A) :
  truthy_list (take (S n) l) = truthy_list l.
Proof. destruct l; reflexivity. Qed.

(** X25. The contexts of the real service are cut: only the first three
    similar projects and only the first ten activity items are formatted,
    so [generate_idea_validation_response] gives the same answer for the
    projects found as for the first three of them, and
    [generate_progress_summary] for the activity as for its first ten
    items.  Without projects, and without activity, the context is a
    fixed sentence. *)
Theorem contexts_are_cut
    (served : list (Vertex.real_call float (ChatEndpoints.payload float)))
    (idea_description : string)
    (projects activity : list (ChatEndpoints.payload float)) :
  _format_similar_projects sdk projects
  = _format_similar_projects sdk (take 3 projects)
  /\ _format_github_activity activity
     = _format_github_activity (take 10 activity)
  /\ generate_idea_validation_response sdk served idea_description projects
     = generate_idea_validation_response sdk served idea_description
         (take 3 projects)
  /\ generate_progress_summary sdk served activity
     = generate_progress_summary sdk served (take 10 activity)
  /\ _format_similar_projects sdk []
     = "No similar projects found in the database."
  /\ _format_github_activity (@nil (ChatEndpoints.payload float))
     = "No recent GitHub activity found."
  /\ (projects <> [] ->
      exists entries,
        _format_similar_projects sdk projects
        = join nl ("Similar Projects Found:" :: entries)
        /\ length entries = Nat.min 3 (length projects)).
Proof.
  assert (P : _format_similar_projects sdk projects
              = _format_similar_projects sdk (take 3 projects)).
  { unfold _format_similar_projects.
    rewrite truthy_take, take_take. reflexivity. }
  assert (A : _format_github_activity activity
              = _format_github_activity (take 10 activity)).
  { unfold _format_github_activity.
    rewrite truthy_take, take_take. reflexivity. }
  split; [exact P|]. split; [exact A|].
  split; [unfold generate_idea_validation_response; rewrite <- P;
          reflexivity|].
  split; [unfold generate_progress_summary; rewrite <- A; reflexivity|].
  split; [reflexivity|]. split; [reflexivity|].
  intros H. unfold _format_similar_projects.
  destruct projects as [|p projects]; [congruence|].
  cbn [truthy_list]. eexists. split; [reflexivity|].
  assert (L : forall i (l : list (ChatEndpoints.payload float)),
             length (project_entries sdk i l) = length l).
  { intros i l. revert i. induction l as [|x l IH]; intros i;
      [reflexivity|]. cbn [project_entries length]. rewrite IH.
    reflexivity. }
  rewrite L, length_take. reflexivity.
Qed.

End Facts.

Lemma contexts_are_cut_witness :
  exists entries,
    _format_similar_projects Examples.unreachable_sdk
      [ChatEndpoints.ActivityDict Examples.one_commit]
    = join nl ("Similar Projects Found:" :: entries)
    /\ length entries = 1%nat.
Proof.
  apply (proj2 (proj2 (proj2 (proj2 (proj2 (proj2
    (contexts_are_cut Examples.unreachable_sdk [] ""
       [ChatEndpoints.ActivityDict Examples.one_commit] []))))))).
  discriminate.
Defined.

Section Fallback.
Context {float rng dict : Type} (env : Vertex.Env float rng dict).

(** X26. [_generate_fallback_response] chooses its answer by the words
    of the prompt, in a fixed order: the idea-validation answer when the
    lower-cased prompt contains one of its five words, otherwise the
    documentation answer for one of its six words, otherwise the
    progress answer, otherwise the presentation answer, and the general
    answer when no word occurs.  The words are matched as substrings: a
    prompt that contains [show] contains [how], so it gets the
    documentation answer and never the presentation answer, unless an
    idea word occurs in it.  The documentation answer is the guide to
    hybrid search exactly when the prompt contains [elastic] or
    [search]. *)
Theorem fallback_answer_follows_the_word_order (prompt : string)
    (context : option string) (g : rng) :
  let idea := ["idea"; "validate"; "project"; "build"; "original"] in
  let documentation :=
    ["how"; "what"; "elastic"; "search"; "implement"; "vertex"] in
  let progress := ["progress"; "commit"; "github"; "repository"] in
  let presentation := ["pitch"; "presentation"; "demo"; "slide"] in
  let r := Vertex._generate_fallback_response env prompt context g in
  (Chat.Mentions idea prompt ->
   r = Vertex._fallback_idea_validation env prompt context g)
  /\ (~ Chat.Mentions idea prompt ->
      Chat.Mentions documentation prompt ->
      r = (Vertex._fallback_documentation env prompt context, g))
  /\ (~ Chat.Mentions idea prompt ->
      ~ Chat.Mentions documentation prompt ->
      Chat.Mentions progress prompt ->
      r = (Vertex._fallback_progress env prompt context, g))
  /\ (~ Chat.Mentions idea prompt ->
      ~ Chat.Mentions documentation prompt ->
      ~ Chat.Mentions progress prompt ->
      Chat.Mentions presentation prompt ->
      r = (Vertex._fallback_presentation env prompt context, g))
  /\ (~ Chat.Mentions idea prompt ->
      ~ Chat.Mentions documentation prompt ->
      ~ Chat.Mentions progress prompt ->
      ~ Chat.Mentions presentation prompt ->
      r = (Vertex._fallback_general env prompt context, g))
  /\ (~ Chat.Mentions idea prompt ->
      Occurs "show" (lower prompt) ->
      r = (Vertex._fallback_documentation env prompt context, g))
  /\ (Vertex._fallback_documentation env prompt context
      = Vertex.render env Vertex.HybridSearchGuide
      \/ Vertex._fallback_documentation env prompt context
         = Vertex.render env
             (Vertex.TechnicalDocumentation (str_take 100 prompt)))
  /\ (Occurs "elastic" (lower prompt) \/ Occurs "search" (lower prompt) ->
      Vertex._fallback_documentation env prompt context
      = Vertex.render env Vertex.HybridSearchGuide).
Proof.
  cbv zeta. unfold Vertex._generate_fallback_response.
  split; [|split; [|split; [|split; [|split; [|split; [|split]]]]]];
    intros;
    repeat match goal with
      | H : Chat.Mentions _ _ |- _ =>
          apply ChatFacts.any_keyword in H; rewrite H
      | H : ~ Chat.Mentions _ _ |- _ =>
          apply ChatFacts.no_keyword in H; rewrite H
      end; try reflexivity.
  - assert (M : Chat.Mentions
                  ["how"; "what"; "elastic"; "search"; "implement";
                   "vertex"] prompt).
    { exists "how". split; [constructor|].
      destruct H0 as [pre [suf E]]. exists (pre +:+ "s"), suf.
      rewrite E. rewrite PyFacts.app_assoc. reflexivity. }
    apply ChatFacts.any_keyword in M. rewrite M. reflexivity.
  - unfold Vertex._fallback_documentation.
    destruct (str_in "elastic" (lower prompt)
              || str_in "search" (lower prompt)); auto.
  - unfold Vertex._fallback_documentation.
    destruct H as [H|H]; apply PyFacts.str_in_spec in H; rewrite H;
      [|rewrite orb_true_r]; reflexivity.
Qed.

End Fallback.

(** A prompt that asks to be shown a pitch. *)
Lemma fallback_answer_follows_the_word_order_witness :
  Vertex._generate_fallback_response Examples.own_vertex "Show me a pitch"
    None 0
  = (Vertex._fallback_documentation Examples.own_vertex "Show me a pitch"
       None, 0).
Proof.
  apply (proj1 (proj2 (proj2 (proj2 (proj2 (proj2
    (fallback_answer_follows_the_word_order Examples.own_vertex
       "Show me a pitch" None 0))))))).
  - intros M. apply ChatFacts.any_keyword in M. discriminate M.
  - exists "", " me a pitch". reflexivity.
Defined.

End ContextFacts.

(** ** The properties at work *)

Module Instances.

(** Without a token the activity is empty and nothing is asked. *)
Lemma repository_activity_is_bounded_and_sorted_witness :
  GitHub.get_repository_activity
    {| GitHub.github := false;
       GitHub.repo_activity _ _ _ := Ok [Examples.one_commit] |}
    "https://github.com/o/r" 7 []
  = ([], []).
Proof.
  apply (proj2 (proj2 (proj2
    (ActivityFacts.repository_activity_is_bounded_and_sorted
       {| GitHub.github := false;
          GitHub.repo_activity _ _ _ := Ok [Examples.one_commit] |}
       "https://github.com/o/r" 7 [])))).
  left. reflexivity.
Defined.


(** A greeting: nothing is asked of GitHub. *)
Lemma chat_always_answers_witness :
  exists answer w',
    ChatEndpoints.chat Examples.chat_env
      (Examples.ask "Hello there" (Some "https://github.com/o/r"))
      Examples.chat_world = (Ok answer, w')
    /\ ChatEndpoints.activity_served w' = [].
Proof.
  destruct (ChatEndpointsFacts.chat_always_answers Examples.chat_env
              (Examples.ask "Hello there" (Some "https://github.com/o/r"))
              Examples.chat_world)
    as [answer [w' [H [_ [_ [_ [_ H6]]]]]]].
  exists answer, w'. split; [exact H|]. apply H6. reflexivity.
Defined.

(** An idea validated while the cluster is down. *)
Lemma validate_idea_always_answers_witness :
  exists answer w',
    ChatEndpoints.validate_idea Examples.chat_env_down
      (Examples.ask "An agent for hackathons" None) Examples.chat_world
    = (Ok answer, w')
    /\ ChatEndpoints.sources answer = [].
Proof.
  destruct (ChatEndpointsFacts.validate_idea_always_answers
              Examples.chat_env_down
              (Examples.ask "An agent for hackathons" None)
              Examples.chat_world)
    as [v [answer [w' [H [_ [_ [_ [_ [_ [_ H8]]]]]]]]]].
  exists answer, w'. split; [exact H|].
  apply H8. split; eexists; reflexivity.
Defined.

End Instances.
